(** * Ranking and recommendation engine of the domain marketplace backend

    A shallow embedding of [backend/app/ranking.py] together with the
    parts of [backend/app/models.py] and of the SQLAlchemy session that
    the engine reads.

    Conventions of the embedding:
    - a Python [float] is an exact rational ([Q]); every decimal literal
      of the source ([0.05], [0.15], [0.3], ...) stands for its decimal
      value, and [round] is round-half-to-even on the exact value;
    - a Python [int] is an unbounded integer ([Z]);
    - a Python exception is the [Raise] branch of the [result] monad;
      subscripting a dict, dividing, and taking the [min]/[max] of a
      sequence are fallible exactly as in Python;
    - a [Session] is a snapshot of the [domains] table together with the
      set of statements the database refuses to serve (a refused statement
      raises); rows come back in table order.

    The general statements are proved on this rational model, which
    leaves out the rounding of each operation. The module [Binary64]
    holds the numeric part of the engine once more over IEEE binary64
    floats, rounding as the interpreter does; the statements that turn on
    the comparison of a computed CTR with a threshold, or on a printed
    figure, are proved there, and the listings at which a statement of the
    specification fails are run there as well.

    Beside the engine, the file embeds the persistence helpers of
    [backend/app/crud.py] (module [Crud]), the analytics of
    [backend/app/analytics.py] (module [Analytics]) and the routes of
    [backend/app/api.py] for listings and recommendations (module [Api]),
    with the request schemas of [backend/app/schemas.py] they take. *)

From Stdlib Require Import ZArith QArith Qround Qabs Qminmax Lqa Lia.
From Stdlib Require Import List String Ascii Bool DecimalString.
From Stdlib Require Import Sorting.Sorted Sorting.Permutation.
From Stdlib Require Import PrimFloat FloatOps Uint63.
Import ListNotations.

Open Scope Q_scope.

(* ====================================================================== *)
(** ** Python exceptions *)
(* ====================================================================== *)

Inductive exn : Type :=
| KeyError (key : string)
| ZeroDivisionError
| ValueError
| OverflowError
| SQLAlchemyError.

Inductive result (A : Type) : Type :=
| Ok (a : A)
| Raise (e : exn).

Arguments Ok {A} a.
Arguments Raise {A} e.

Definition ret {A : Type} (a : A) : result A := Ok a.

Definition bind {A B : Type} (m : result A) (k : A -> result B) : result B :=
  match m with
  | Ok a => k a
  | Raise e => Raise e
  end.

(** [try: body  except Exception: handler] *)
Definition try_except {A : Type} (body : result A) (handler : exn -> result A)
  : result A :=
  match body with
  | Ok a => Ok a
  | Raise e => handler e
  end.

Declare Scope py_scope.
Delimit Scope py_scope with py.
Notation "x <- m ;; k" := (bind m (fun x => k))
  (at level 61, m at next level, right associativity) : py_scope.
Open Scope py_scope.

(* ====================================================================== *)
(** ** Python numbers *)
(* ====================================================================== *)

Definition Qlt_bool (a b : Q) : bool := negb (Qle_bool b a).

(** Two-argument [min(a, b)]: the first argument unless the second is
    strictly smaller. *)
Definition min2 (a b : Q) : Q := if Qlt_bool b a then b else a.

(** Two-argument [max(a, b)]: the first argument unless the second is
    strictly greater. *)
Definition max2 (a b : Q) : Q := if Qlt_bool a b then b else a.

(** [min(seq)]: [ValueError] on an empty sequence. *)
Definition py_min (xs : list Q) : result Q :=
  match xs with
  | [] => Raise ValueError
  | x :: rest => Ok (fold_left min2 rest x)
  end.

(** [max(seq)]: [ValueError] on an empty sequence. *)
Definition py_max (xs : list Q) : result Q :=
  match xs with
  | [] => Raise ValueError
  | x :: rest => Ok (fold_left max2 rest x)
  end.

(** [sum(seq)] *)
Definition py_sum (xs : list Q) : Q := fold_left Qplus xs 0.

(** [a / b] on floats. *)
Definition fdiv (a b : Q) : result Q :=
  if Qeq_bool b 0 then Raise ZeroDivisionError else Ok (a / b).

(** [a / b] on ints (true division). *)
Definition truediv (a b : Z) : result Q :=
  if (b =? 0)%Z then Raise ZeroDivisionError
  else Ok (inject_Z a / inject_Z b).

(** Nearest integer, ties to the even one. *)
Definition round_half_even (q : Q) : Z :=
  let f := Qfloor q in
  match Qcompare (q - inject_Z f) (1 # 2) with
  | Lt => f
  | Gt => (f + 1)%Z
  | Eq => if Z.even f then f else (f + 1)%Z
  end.

Fixpoint pow10 (n : nat) : positive :=
  match n with
  | O => 1%positive
  | S k => (10 * pow10 k)%positive
  end.

(** [round(x, ndigits)] for [ndigits >= 0]. *)
Definition py_round (x : Q) (ndigits : nat) : Q :=
  round_half_even (x * inject_Z (Zpos (pow10 ndigits))) # pow10 ndigits.

(* ====================================================================== *)
(** ** Python strings *)
(* ====================================================================== *)

Definition str_of_Z (z : Z) : string := NilZero.string_of_int (Z.to_int z).

(** [format(x, ".1f")]: one digit after the point, sign kept even when the
    digits are all zero. *)
Definition format_1f (x : Q) : string :=
  let n := round_half_even (Qabs x * 10) in
  ((if Qlt_bool x 0 then "-" else "")
     ++ str_of_Z (n / 10) ++ "." ++ str_of_Z (n mod 10))%string.

(** [sep.join(parts)] *)
Fixpoint join (sep : string) (parts : list string) : string :=
  match parts with
  | [] => EmptyString
  | [p] => p
  | p :: rest => (p ++ sep ++ join sep rest)%string
  end.

(** The [repr] of the floats that are short decimals, which is their
    decimal expansion with at least one digit after the point
    ([100.0], [85.5], [99.99]); digits beyond the sixth are cut. *)
Fixpoint frac_digits (fuel : nat) (num : Z) (den : Z) : string :=
  match fuel with
  | O => EmptyString
  | S fuel' =>
      let d := (num * 10 / den)%Z in
      let r := (num * 10 mod den)%Z in
      (str_of_Z d ++ (if (r =? 0)%Z then EmptyString else frac_digits fuel' r den))%string
  end.

Definition decimal_repr (x : Q) : string :=
  let a := Qabs x in
  let i := Qfloor a in
  let num := (Qnum a - i * Zpos (Qden a))%Z in
  ((if Qlt_bool x 0 then "-" else "")
     ++ str_of_Z i ++ "." ++ frac_digits 6 num (Zpos (Qden a)))%string.

(* ====================================================================== *)
(** ** Scoring configuration *)
(* ====================================================================== *)

Definition dict (V : Type) : Type := list (string * V).

(** [d[key]] *)
Fixpoint getitem {V : Type} (d : dict V) (key : string) : result V :=
  match d with
  | [] => Raise (KeyError key)
  | (k, v) :: rest => if String.eqb k key then Ok v else getitem rest key
  end.

(** [d.values()] *)
Definition values {V : Type} (d : dict V) : list V := map snd d.

Definition WEIGHTS : dict Q :=
  [ ("keyword_relevance", 30);
    ("engagement", 25);
    ("price_competitiveness", 25);
    ("conversion_signal", 15) ]%string.

Definition BONUSES : dict Q :=
  [ ("sold", 0.10);
    ("high_interest", 0.08) ]%string.

Definition CTR_THRESHOLD : Q := 0.05.
Definition HIGH_INTEREST_THRESHOLD : Q := 0.15.

(* ====================================================================== *)
(** ** Listings and the session *)
(* ====================================================================== *)

(** The columns of [models.Domain] that the engine reads. *)
Module Domain.
Record t : Type := mk {
  id : Z;
  domain_name : string;
  category : string;
  price : Q;
  keyword_score : Q;
  views : Z;
  clicks : Z;
  is_sold : bool
}.
End Domain.

(** A criterion given to [Query.filter]. *)
Inductive Criterion : Type :=
| CategoryEq (c : string)     (* Domain.category == c *)
| IsSoldEq (b : bool)         (* Domain.is_sold == b  *)
| PriceGe (p : Q)             (* Domain.price >= p    *)
| PriceLe (p : Q).            (* Domain.price <= p    *)

(** What [db.query(...)] selects. *)
Inductive Entity : Type :=
| SelectDomain                (* db.query(Domain)       *)
| SelectPrice.                (* db.query(Domain.price) *)

Record Session : Type := mkSession {
  rows : list Domain.t;
  refuses : Entity -> list Criterion -> bool
}.

Record Query : Type := mkQuery {
  bound_to : Session;
  entity : Entity;
  criteria : list Criterion
}.

Definition query (db : Session) (e : Entity) : Query :=
  mkQuery db e [].

(** [q.filter(c1, ..., cn)] *)
Definition filter_by (q : Query) (cs : list Criterion) : Query :=
  mkQuery (bound_to q) (entity q) (criteria q ++ cs).

Definition satisfies (d : Domain.t) (c : Criterion) : bool :=
  match c with
  | CategoryEq s => String.eqb (Domain.category d) s
  | IsSoldEq b => Bool.eqb (Domain.is_sold d) b
  | PriceGe p => Qle_bool p (Domain.price d)
  | PriceLe p => Qle_bool (Domain.price d) p
  end.

(** [q.all()] on a query for whole rows. *)
Definition all (q : Query) : result (list Domain.t) :=
  if refuses (bound_to q) (entity q) (criteria q) then Raise SQLAlchemyError
  else Ok (filter (fun d => forallb (satisfies d) (criteria q)) (rows (bound_to q))).

(** A row of a one-column query; [item0] is [row[0]]. *)
Record Row1 : Type := mkRow1 { item0 : Q }.

(** [q.all()] on a query for the price column. *)
Definition all_prices (q : Query) : result (list Row1) :=
  ds <- all q ;;
  ret (map (fun d => mkRow1 (Domain.price d)) ds).

(* ====================================================================== *)
(** ** Scoring functions *)
(* ====================================================================== *)

Definition calculate_keyword_relevance (keyword_score : Q) : result Q :=
  q <- fdiv keyword_score 100.0 ;;
  w <- getitem WEIGHTS "keyword_relevance" ;;
  let normalized := q * w in
  cap <- getitem WEIGHTS "keyword_relevance" ;;
  ret (max2 0 (min2 normalized cap)).

Definition calculate_engagement (views clicks : Z) : result Q :=
  if (views =? 0)%Z then
    w <- getitem WEIGHTS "engagement" ;;
    ret (w * 0.3)
  else
    ctr <- truediv clicks views ;;
    if Qle_bool HIGH_INTEREST_THRESHOLD ctr then
      getitem WEIGHTS "engagement"
    else if Qle_bool CTR_THRESHOLD ctr then
      ratio <- fdiv (ctr - 0) HIGH_INTEREST_THRESHOLD ;;
      w <- getitem WEIGHTS "engagement" ;;
      ret (w * ratio)
    else
      w <- getitem WEIGHTS "engagement" ;;
      q <- fdiv ctr CTR_THRESHOLD ;;
      ret (w * q * 0.5).

(** The body of the [try] block of [calculate_price_competitiveness]. *)
Definition price_competitiveness_body
    (domain_price : Q) (category : string) (db : Session) : result Q :=
  category_prices <-
    all_prices (filter_by (query db SelectPrice)
                          [CategoryEq category; IsSoldEq false]) ;;
  if (match category_prices with [] => true | _ => false end
      || (List.length category_prices =? 0)%nat)%bool then
    w <- getitem WEIGHTS "price_competitiveness" ;;
    ret (w * 0.5)
  else
    let prices := map item0 category_prices in
    min_price <- py_min prices ;;
    max_price <- py_max prices ;;
    if Qeq_bool min_price max_price then
      w <- getitem WEIGHTS "price_competitiveness" ;;
      ret (w * 0.5)
    else
      q <- fdiv (domain_price - min_price) (max_price - min_price) ;;
      let price_percentile := 1.0 - q in
      let price_percentile := max2 0 (min2 price_percentile 1.0) in
      w <- getitem WEIGHTS "price_competitiveness" ;;
      ret (w * price_percentile).

Definition calculate_price_competitiveness
    (domain_price : Q) (category : string) (db : Session) : result Q :=
  try_except
    (price_competitiveness_body domain_price category db)
    (fun _ =>
       w <- getitem WEIGHTS "price_competitiveness" ;;
       ret (w * 0.5)).

Definition calculate_conversion_signal
    (is_sold : bool) (clicks views : Z) : result Q :=
  score <- getitem WEIGHTS "conversion_signal" ;;
  score <-
    (if is_sold then
       b <- getitem BONUSES "sold" ;;
       ret (score * (1 + b))
     else if (views >? 0)%Z then
       ctr <- truediv clicks views ;;
       if Qle_bool HIGH_INTEREST_THRESHOLD ctr then
         b <- getitem BONUSES "high_interest" ;;
         ret (score * (1 + b))
       else ret score
     else ret score) ;;
  w <- getitem WEIGHTS "conversion_signal" ;;
  ret (min2 score (w * 1.2)).

(* ====================================================================== *)
(** ** Main ranking function *)
(* ====================================================================== *)

Record Scores : Type := mkScores {
  keyword_relevance : Q;
  engagement : Q;
  price_competitiveness : Q;
  conversion_signal : Q
}.

Record Ranking : Type := mkRanking {
  total_score : Q;
  scores : Scores;
  explanation : string
}.

(** A value of a [Dict[str, Any]]. *)
Inductive PyAny : Type :=
| AnyNone
| AnyInt (z : Z)
| AnyFloat (q : Q)
| AnyStr (s : string).

(** One element of the list returned by [get_top_recommendations]. *)
Module Entry.
Record t : Type := mk {
  id : Z;
  domain_name : string;
  category : string;
  price : Q;
  keyword_score : Q;
  views : Z;
  clicks : Z;
  ctr : Q;
  ranking : Ranking
}.
End Entry.

(** [xs.sort(key=key, reverse=True)]: a stable sort, descending. Each
    element is placed before the first element, among those that followed
    it, whose key is not greater; elements of equal key keep their order. *)
Fixpoint insert_desc {A : Type} (key : A -> Q) (x : A) (sorted : list A) : list A :=
  match sorted with
  | [] => [x]
  | y :: rest =>
      if Qle_bool (key y) (key x) then x :: sorted
      else y :: insert_desc key x rest
  end.

Definition sort_desc {A : Type} (key : A -> Q) (xs : list A) : list A :=
  fold_right (insert_desc key) [] xs.

(** [xs[:stop]] *)
Definition slice_to {A : Type} (xs : list A) (stop : Z) : list A :=
  if (stop <? 0)%Z then firstn (Z.to_nat (Z.of_nat (List.length xs) + stop)) xs
  else firstn (Z.to_nat stop) xs.

(** CTR, clicks divided by views. *)
Definition ctr_of (clicks views : Z) : Q := inject_Z clicks / inject_Z views.

Section Engine.

(** [repr] of a float, as an f-string prints it: the shortest decimal that
    reads back as the same float. *)
Variable float_repr : Q -> string.

Definition rank_domain
    (domain : Domain.t) (db : Session) (category_stats : option (dict PyAny))
  : result Ranking :=
  keyword_score <- calculate_keyword_relevance (Domain.keyword_score domain) ;;
  engagement_score <- calculate_engagement (Domain.views domain) (Domain.clicks domain) ;;
  price_score <-
    calculate_price_competitiveness (Domain.price domain) (Domain.category domain) db ;;
  conversion_score <-
    calculate_conversion_signal
      (Domain.is_sold domain) (Domain.clicks domain) (Domain.views domain) ;;
  let total_score := keyword_score + engagement_score + price_score + conversion_score in
  w <- getitem WEIGHTS "conversion_signal" ;;
  top_bonus <- py_max (values BONUSES) ;;
  let max_possible := py_sum (values WEIGHTS) + w * top_bonus in
  q <- fdiv total_score max_possible ;;
  let normalized_score := min2 100 (q * 100) in
  ctr <-
    (if (Domain.views domain >? 0)%Z
     then truediv (Domain.clicks domain) (Domain.views domain)
     else ret 0) ;;
  let explanation_parts := [] in
  let explanation_parts :=
    if Qle_bool 80 (Domain.keyword_score domain) then
      explanation_parts
        ++ ["Strong keyword relevance ("
              ++ float_repr (Domain.keyword_score domain) ++ "/100)"]%string
    else explanation_parts in
  let explanation_parts :=
    if Qle_bool HIGH_INTEREST_THRESHOLD ctr then
      explanation_parts
        ++ ["High engagement (" ++ format_1f (ctr * 100) ++ "% CTR)"]%string
    else if Qle_bool CTR_THRESHOLD ctr then
      explanation_parts
        ++ ["Moderate engagement (" ++ format_1f (ctr * 100) ++ "% CTR)"]%string
    else explanation_parts in
  let explanation_parts :=
    if Domain.is_sold domain then
      explanation_parts ++ ["Proven conversion (sold)"%string]
    else explanation_parts in
  let explanation :=
    match explanation_parts with
    | [] => "Baseline domain"%string
    | _ => join "; " explanation_parts
    end in
  ret (mkRanking
         (py_round normalized_score 2)
         (mkScores (py_round keyword_score 2)
                   (py_round engagement_score 2)
                   (py_round price_score 2)
                   (py_round conversion_score 2))
         explanation).

(** The [for domain in domains] loop of [get_top_recommendations]; [ranked]
    is the list built so far. *)
Fixpoint rank_each (db : Session) (domains : list Domain.t) (ranked : list Entry.t)
  : result (list Entry.t) :=
  match domains with
  | [] => ret ranked
  | domain :: rest =>
      ranking <- rank_domain domain db None ;;
      ctr <-
        (if (Domain.views domain >? 0)%Z then
           q <- truediv (Domain.clicks domain) (Domain.views domain) ;;
           ret (py_round q 4)
         else ret 0) ;;
      rank_each db rest
        (ranked ++ [Entry.mk (Domain.id domain)
                             (Domain.domain_name domain)
                             (Domain.category domain)
                             (Domain.price domain)
                             (Domain.keyword_score domain)
                             (Domain.views domain)
                             (Domain.clicks domain)
                             ctr
                             ranking])
  end.

Definition get_top_recommendations
    (db : Session) (limit : Z) (price_min price_max : option Q)
    (category_filter : option string) : result (list Entry.t) :=
  let query := filter_by (query db SelectDomain) [IsSoldEq false] in
  let query :=
    match price_min with
    | Some p => filter_by query [PriceGe p]
    | None => query
    end in
  let query :=
    match price_max with
    | Some p => filter_by query [PriceLe p]
    | None => query
    end in
  let query :=
    match category_filter with
    | Some c => filter_by query [CategoryEq c]
    | None => query
    end in
  domains <- all query ;;
  ranked <- rank_each db domains [] ;;
  let ranked := sort_desc (fun x => total_score (Entry.ranking x)) ranked in
  ret (slice_to ranked limit).

Definition get_category_recommendations
    (db : Session) (category : string) (limit : Z) (price_min price_max : option Q)
  : result (list Entry.t) :=
  get_top_recommendations db limit price_min price_max (Some category).

(** The explanation in the words of the specification: its parts, and the
    string expected for each outcome of the checks. *)

(** The CTR that the explanation reports. *)
Definition displayed_ctr (d : Domain.t) : Q :=
  if (Domain.views d >? 0)%Z
  then ctr_of (Domain.clicks d) (Domain.views d)
  else 0.

Definition strong_part (d : Domain.t) : string :=
  ("Strong keyword relevance (" ++ float_repr (Domain.keyword_score d) ++ "/100)")%string.

Definition high_part (d : Domain.t) : string :=
  ("High engagement (" ++ format_1f (displayed_ctr d * 100) ++ "% CTR)")%string.

Definition moderate_part (d : Domain.t) : string :=
  ("Moderate engagement (" ++ format_1f (displayed_ctr d * 100) ++ "% CTR)")%string.

Definition proven_part : string := "Proven conversion (sold)".

(** The explanation, read off the order of the checks: one line for each
    way the three checks can come out. *)
Definition expected_explanation (d : Domain.t) : string :=
  (match Qle_bool 80 (Domain.keyword_score d),
        Qle_bool HIGH_INTEREST_THRESHOLD (displayed_ctr d),
        Qle_bool CTR_THRESHOLD (displayed_ctr d),
        Domain.is_sold d with
  | true, true, _, true =>
      strong_part d ++ "; " ++ high_part d ++ "; " ++ proven_part
  | true, true, _, false =>
      strong_part d ++ "; " ++ high_part d
  | true, false, true, true =>
      strong_part d ++ "; " ++ moderate_part d ++ "; " ++ proven_part
  | true, false, true, false =>
      strong_part d ++ "; " ++ moderate_part d
  | true, false, false, true =>
      strong_part d ++ "; " ++ proven_part
  | true, false, false, false =>
      strong_part d
  | false, true, _, true =>
      high_part d ++ "; " ++ proven_part
  | false, true, _, false =>
      high_part d
  | false, false, true, true =>
      moderate_part d ++ "; " ++ proven_part
  | false, false, true, false =>
      moderate_part d
  | false, false, false, true =>
      proven_part
  | false, false, false, false =>
      "Baseline domain"
  end)%string.

End Engine.

(* ====================================================================== *)
(** ** The scores in binary64 *)
(* ====================================================================== *)

(** The numeric part of the engine once more, over IEEE binary64 floats,
    the arithmetic of the interpreter: every operation rounds as the
    interpreter rounds it. It serves to run the engine on concrete
    listings, and it carries the statements that turn on the comparison
    of a computed CTR with a threshold or on a printed figure, which the
    interpreter decides on the rounded value. *)
Module Binary64.

Local Open Scope float_scope.

(** An int of magnitude below 2^53, as a float. *)
Definition of_Z (z : Z) : float :=
  match z with
  | Z0 => 0
  | Zpos _ => of_uint63 (Uint63.of_Z z)
  | Zneg p => - of_uint63 (Uint63.of_Z (Zpos p))
  end.

(** The exact value of a finite float. *)
Definition to_Q (x : float) : Q :=
  match Prim2SF x with
  | SpecFloat.S754_finite s m e =>
      let v := (inject_Z (Zpos m) * Qpower 2 e)%Q in
      if s then Qopp v else v
  | _ => 0%Q
  end.

(** The float nearest to a rational, ties to the even mantissa; [None]
    when the rounded value is beyond the largest float. With
    [2^p <= |q| < 2^(p+1)], the mantissa [m] is [|q| / 2^e] rounded to an
    integer, for the exponent [e = p - 52] of a 53-bit mantissa, or the
    least exponent -1074 for a subnormal. *)
Definition nearest (q : Q) : option float :=
  if Qeq_bool q 0 then Some 0
  else
    let x := Qabs q in
    let e0 := (Z.log2 (Z.abs (Qnum q)) - Z.log2 (Zpos (Qden q)))%Z in
    let p := if Qlt_bool x (Qpower 2 e0) then (e0 - 1)%Z else e0 in
    let e := Z.max (p - 52) (-1074) in
    let m := round_half_even (x / Qpower 2 e) in
    if ((971 <? e) || ((e =? 971) && (2 ^ 53 <=? m)))%Z then None
    else
      let y := Z.ldexp (of_uint63 (Uint63.of_Z m)) e in
      Some (if Qlt_bool q 0 then - y else y).

(** The float that a decimal literal of the source denotes, and the float
    that a column holds for a rational: the nearest one, an infinity
    beyond the largest float. *)
Definition of_Q (q : Q) : float :=
  match nearest q with
  | Some x => x
  | None => if Qlt_bool q 0 then neg_infinity else infinity
  end.

(** [round(x, ndigits)]: the exact value rounded half-even at [ndigits]
    decimals, then the nearest float. *)
Definition py_round (x : float) (ndigits : nat) : float :=
  of_Q (py_round (to_Q x) ndigits).

(** [format(x, ".1f")]: the exact value of the float rounded half-even at
    one decimal; a zero keeps its sign. *)
Definition format_1f (x : float) : string :=
  match Prim2SF x with
  | SpecFloat.S754_zero s => if s then "-0.0" else "0.0"
  | SpecFloat.S754_infinity s => if s then "-inf" else "inf"
  | SpecFloat.S754_nan => "nan"
  | SpecFloat.S754_finite _ _ _ => format_1f (to_Q x)
  end.

Definition min2 (a b : float) : float := if b <? a then b else a.

Definition max2 (a b : float) : float := if a <? b then b else a.

Definition py_min (xs : list float) : result float :=
  match xs with
  | [] => Raise ValueError
  | x :: rest => Ok (fold_left min2 rest x)
  end.

Definition py_max (xs : list float) : result float :=
  match xs with
  | [] => Raise ValueError
  | x :: rest => Ok (fold_left max2 rest x)
  end.

Definition py_sum (xs : list float) : float := fold_left PrimFloat.add xs 0.

Definition fdiv (a b : float) : result float :=
  if b =? 0 then Raise ZeroDivisionError else Ok (a / b).

(** [a / b] on ints: the exact quotient rounded once to the nearest float;
    a zero takes the sign of the divisor, and a quotient beyond the largest
    float raises. *)
Definition truediv (a b : Z) : result float :=
  if (b =? 0)%Z then Raise ZeroDivisionError
  else if (a =? 0)%Z then Ok (if (b <? 0)%Z then - 0 else 0)
  else
    match nearest (inject_Z a / inject_Z b) with
    | Some q => Ok q
    | None => Raise OverflowError
    end.

Definition getitem (d : dict Q) (key : string) : result float :=
  v <- getitem d key ;; ret (of_Q v).

Definition CTR_THRESHOLD : float := of_Q CTR_THRESHOLD.

Definition HIGH_INTEREST_THRESHOLD : float := of_Q HIGH_INTEREST_THRESHOLD.

Definition calculate_keyword_relevance (keyword_score : float) : result float :=
  q <- fdiv keyword_score 100 ;;
  w <- getitem WEIGHTS "keyword_relevance" ;;
  let normalized := q * w in
  cap <- getitem WEIGHTS "keyword_relevance" ;;
  ret (max2 0 (min2 normalized cap)).

Definition calculate_engagement (views clicks : Z) : result float :=
  if (views =? 0)%Z then
    w <- getitem WEIGHTS "engagement" ;;
    ret (w * of_Q 0.3)
  else
    ctr <- truediv clicks views ;;
    if HIGH_INTEREST_THRESHOLD <=? ctr then
      getitem WEIGHTS "engagement"
    else if CTR_THRESHOLD <=? ctr then
      ratio <- fdiv (ctr - 0) HIGH_INTEREST_THRESHOLD ;;
      w <- getitem WEIGHTS "engagement" ;;
      ret (w * ratio)
    else
      w <- getitem WEIGHTS "engagement" ;;
      q <- fdiv ctr CTR_THRESHOLD ;;
      ret (w * q * of_Q 0.5).

Definition price_competitiveness_body
    (domain_price : float) (category : string) (db : Session) : result float :=
  category_prices <-
    all_prices (filter_by (query db SelectPrice)
                          [CategoryEq category; IsSoldEq false]) ;;
  if (match category_prices with [] => true | _ => false end
      || (List.length category_prices =? 0)%nat)%bool then
    w <- getitem WEIGHTS "price_competitiveness" ;;
    ret (w * of_Q 0.5)
  else
    let prices := map (fun p => of_Q (item0 p)) category_prices in
    min_price <- py_min prices ;;
    max_price <- py_max prices ;;
    if min_price =? max_price then
      w <- getitem WEIGHTS "price_competitiveness" ;;
      ret (w * of_Q 0.5)
    else
      q <- fdiv (domain_price - min_price) (max_price - min_price) ;;
      let price_percentile := 1 - q in
      let price_percentile := max2 0 (min2 price_percentile 1) in
      w <- getitem WEIGHTS "price_competitiveness" ;;
      ret (w * price_percentile).

Definition calculate_price_competitiveness
    (domain_price : float) (category : string) (db : Session) : result float :=
  try_except
    (price_competitiveness_body domain_price category db)
    (fun _ =>
       w <- getitem WEIGHTS "price_competitiveness" ;;
       ret (w * of_Q 0.5)).

Definition calculate_conversion_signal
    (is_sold : bool) (clicks views : Z) : result float :=
  score <- getitem WEIGHTS "conversion_signal" ;;
  score <-
    (if is_sold then
       b <- getitem BONUSES "sold" ;;
       ret (score * (1 + b))
     else if (views >? 0)%Z then
       ctr <- truediv clicks views ;;
       if HIGH_INTEREST_THRESHOLD <=? ctr then
         b <- getitem BONUSES "high_interest" ;;
         ret (score * (1 + b))
       else ret score
     else ret score) ;;
  w <- getitem WEIGHTS "conversion_signal" ;;
  ret (min2 score (w * of_Q 1.2)).

Record Scored : Type := mkScored {
  total_score : float;
  keyword_relevance : float;
  engagement : float;
  price_competitiveness : float;
  conversion_signal : float
}.

(** The [total_score] and the [scores] of [rank_domain]. *)
Definition rank_domain_scores (domain : Domain.t) (db : Session) : result Scored :=
  keyword_score <- calculate_keyword_relevance (of_Q (Domain.keyword_score domain)) ;;
  engagement_score <- calculate_engagement (Domain.views domain) (Domain.clicks domain) ;;
  price_score <-
    calculate_price_competitiveness
      (of_Q (Domain.price domain)) (Domain.category domain) db ;;
  conversion_score <-
    calculate_conversion_signal
      (Domain.is_sold domain) (Domain.clicks domain) (Domain.views domain) ;;
  let total_score := keyword_score + engagement_score + price_score + conversion_score in
  w <- getitem WEIGHTS "conversion_signal" ;;
  top_bonus <- py_max (map of_Q (values BONUSES)) ;;
  let max_possible := py_sum (map of_Q (values WEIGHTS)) + w * top_bonus in
  q <- fdiv total_score max_possible ;;
  let normalized_score := min2 100 (q * 100) in
  ret (mkScored (py_round normalized_score 2)
                (py_round keyword_score 2)
                (py_round engagement_score 2)
                (py_round price_score 2)
                (py_round conversion_score 2)).

Record Ranked : Type := mkRanked {
  scored : Scored;
  explanation : string
}.

Section Explained.

(** [repr] of a float, as an f-string prints it. *)
Variable float_repr : float -> string.

(** [rank_domain], with its explanation. *)
Definition rank_domain
    (domain : Domain.t) (db : Session) (category_stats : option (dict PyAny))
  : result Ranked :=
  let stored_keyword_score := of_Q (Domain.keyword_score domain) in
  keyword_score <- calculate_keyword_relevance stored_keyword_score ;;
  engagement_score <- calculate_engagement (Domain.views domain) (Domain.clicks domain) ;;
  price_score <-
    calculate_price_competitiveness
      (of_Q (Domain.price domain)) (Domain.category domain) db ;;
  conversion_score <-
    calculate_conversion_signal
      (Domain.is_sold domain) (Domain.clicks domain) (Domain.views domain) ;;
  let total_score := keyword_score + engagement_score + price_score + conversion_score in
  w <- getitem WEIGHTS "conversion_signal" ;;
  top_bonus <- py_max (map of_Q (values BONUSES)) ;;
  let max_possible := py_sum (map of_Q (values WEIGHTS)) + w * top_bonus in
  q <- fdiv total_score max_possible ;;
  let normalized_score := min2 100 (q * 100) in
  ctr <-
    (if (Domain.views domain >? 0)%Z
     then truediv (Domain.clicks domain) (Domain.views domain)
     else ret 0) ;;
  let explanation_parts := [] in
  let explanation_parts :=
    if 80 <=? stored_keyword_score then
      explanation_parts
        ++ ["Strong keyword relevance ("
              ++ float_repr stored_keyword_score ++ "/100)"]%string
    else explanation_parts in
  let explanation_parts :=
    if HIGH_INTEREST_THRESHOLD <=? ctr then
      explanation_parts
        ++ ["High engagement (" ++ format_1f (ctr * 100) ++ "% CTR)"]%string
    else if CTR_THRESHOLD <=? ctr then
      explanation_parts
        ++ ["Moderate engagement (" ++ format_1f (ctr * 100) ++ "% CTR)"]%string
    else explanation_parts in
  let explanation_parts :=
    if Domain.is_sold domain then
      explanation_parts ++ ["Proven conversion (sold)"%string]
    else explanation_parts in
  let explanation :=
    match explanation_parts with
    | [] => "Baseline domain"%string
    | _ => join "; " explanation_parts
    end in
  ret (mkRanked
         (mkScored (py_round normalized_score 2)
                   (py_round keyword_score 2)
                   (py_round engagement_score 2)
                   (py_round price_score 2)
                   (py_round conversion_score 2))
         explanation).

(** The explanation in the words of the specification, on the values that
    the interpreter computes: the keyword score that the column holds,
    and the CTR as the rounded quotient. *)
Definition stored_keyword_score (d : Domain.t) : float :=
  of_Q (Domain.keyword_score d).

Definition displayed_ctr (d : Domain.t) : float :=
  if (Domain.views d >? 0)%Z then
    match truediv (Domain.clicks d) (Domain.views d) with
    | Ok q => q
    | Raise _ => 0
    end
  else 0.

Definition strong_part (d : Domain.t) : string :=
  ("Strong keyword relevance (" ++ float_repr (stored_keyword_score d) ++ "/100)")%string.

Definition high_part (d : Domain.t) : string :=
  ("High engagement (" ++ format_1f (displayed_ctr d * 100) ++ "% CTR)")%string.

Definition moderate_part (d : Domain.t) : string :=
  ("Moderate engagement (" ++ format_1f (displayed_ctr d * 100) ++ "% CTR)")%string.

Definition proven_part : string := "Proven conversion (sold)".

(** One line for each way the checks can come out, in their order. *)
Definition expected_explanation (d : Domain.t) : string :=
  (match (80 <=? stored_keyword_score d)%float,
         (HIGH_INTEREST_THRESHOLD <=? displayed_ctr d)%float,
         (CTR_THRESHOLD <=? displayed_ctr d)%float,
         Domain.is_sold d with
   | true, true, _, true =>
       strong_part d ++ "; " ++ high_part d ++ "; " ++ proven_part
   | true, true, _, false =>
       strong_part d ++ "; " ++ high_part d
   | true, false, true, true =>
       strong_part d ++ "; " ++ moderate_part d ++ "; " ++ proven_part
   | true, false, true, false =>
       strong_part d ++ "; " ++ moderate_part d
   | true, false, false, true =>
       strong_part d ++ "; " ++ proven_part
   | true, false, false, false =>
       strong_part d
   | false, true, _, true =>
       high_part d ++ "; " ++ proven_part
   | false, true, _, false =>
       high_part d
   | false, false, true, true =>
       moderate_part d ++ "; " ++ proven_part
   | false, false, true, false =>
       moderate_part d
   | false, false, false, true =>
       proven_part
   | false, false, false, false =>
       "Baseline domain"
   end)%string.

End Explained.

(** No check of the explanation triggers. *)
Definition no_check_triggers (d : Domain.t) : Prop :=
  (80 <=? stored_keyword_score d) = false
  /\ (HIGH_INTEREST_THRESHOLD <=? displayed_ctr d) = false
  /\ (CTR_THRESHOLD <=? displayed_ctr d) = false
  /\ Domain.is_sold d = false.

(** The weights and bonuses as floats, and the unsold listing of high
    interest: one with views whose computed CTR reaches the threshold. *)
Definition weight (key : string) : float :=
  match getitem WEIGHTS key with
  | Ok w => w
  | Raise _ => 0
  end.

Definition bonus (key : string) : float :=
  match getitem BONUSES key with
  | Ok b => b
  | Raise _ => 0
  end.

Definition W_conversion : float := weight "conversion_signal".
Definition bonus_sold : float := bonus "sold".
Definition bonus_high_interest : float := bonus "high_interest".

Definition high_interest (clicks views : Z) : Prop :=
  (0 < views)%Z
  /\ exists ctr, truediv clicks views = Ok ctr
                 /\ (HIGH_INTEREST_THRESHOLD <=? ctr) = true.

End Binary64.

(* ====================================================================== *)
(** ** Vocabulary of the statements *)
(* ====================================================================== *)

(** The configured weights and bonuses by name. *)
Definition weight (key : string) : Q :=
  match getitem WEIGHTS key with Ok w => w | Raise _ => 0 end.

Definition bonus (key : string) : Q :=
  match getitem BONUSES key with Ok b => b | Raise _ => 0 end.

Definition W_keyword : Q := weight "keyword_relevance".
Definition W_engagement : Q := weight "engagement".
Definition W_price : Q := weight "price_competitiveness".
Definition W_conversion : Q := weight "conversion_signal".
Definition bonus_sold : Q := bonus "sold".
Definition bonus_high_interest : Q := bonus "high_interest".

(** The denominator of the normalisation. *)
Definition max_possible : Q :=
  py_sum (values WEIGHTS)
  + W_conversion * match py_max (values BONUSES) with Ok b => b | Raise _ => 0 end.

(** A listing is structurally valid when it passes the checks of
    [schemas.DomainBase]. *)
Definition structurally_valid (d : Domain.t) : Prop :=
  0 < Domain.price d
  /\ 0 <= Domain.keyword_score d /\ Domain.keyword_score d <= 100
  /\ (0 <= Domain.views d)%Z
  /\ (0 <= Domain.clicks d)%Z.

(** Views were recorded and the CTR reaches the high-interest threshold. *)
Definition high_interest (clicks views : Z) : Prop :=
  (0 < views)%Z /\ HIGH_INTEREST_THRESHOLD <= ctr_of clicks views.

(** The engagement tiers as a function of the CTR alone. *)
Definition engagement_curve (ctr : Q) : Q :=
  if Qle_bool HIGH_INTEREST_THRESHOLD ctr then W_engagement
  else if Qle_bool CTR_THRESHOLD ctr then
    W_engagement * ((ctr - 0) / HIGH_INTEREST_THRESHOLD)
  else W_engagement * (ctr / CTR_THRESHOLD) * 0.5.

(** The statement with which the price scorer gathers its statistics. *)
Definition price_query (db : Session) (category : string) : Query :=
  filter_by (query db SelectPrice) [CategoryEq category; IsSoldEq false].

(** The category price snapshot: the prices of the unsold listings of a
    category, and what it means to be their minimum and their maximum. *)
Definition comparable_prices (db : Session) (category : string) : list Q :=
  map Domain.price
      (filter (fun d => String.eqb (Domain.category d) category
                        && negb (Domain.is_sold d))%bool
              (rows db)).

Definition lowest (m : Q) (ps : list Q) : Prop :=
  (exists p, In p ps /\ p == m) /\ (forall p, In p ps -> m <= p).

Definition highest (m : Q) (ps : list Q) : Prop :=
  (exists p, In p ps /\ p == m) /\ (forall p, In p ps -> p <= m).

Definition clamp (x lo hi : Q) : Q := Qmax lo (Qmin x hi).

(** The credit computed past the two neutral cases of the price scorer. *)
Definition percentile_credit (price mn mx : Q) : Q :=
  W_price * max2 0 (min2 (1.0 - (price - mn) / (mx - mn)) 1.0).

(** Scenario 1: full keyword score, 1000 views and 200 clicks, unsold, and
    priced at the minimum of a category whose unsold prices range up to a
    different maximum [mx]. *)
Definition scenario1 (d : Domain.t) (db : Session) (mx : Q) : Prop :=
  Domain.keyword_score d == 100
  /\ Domain.views d = 1000%Z
  /\ Domain.clicks d = 200%Z
  /\ Domain.is_sold d = false
  /\ refuses db SelectPrice [CategoryEq (Domain.category d); IsSoldEq false] = false
  /\ lowest (Domain.price d) (comparable_prices db (Domain.category d))
  /\ highest mx (comparable_prices db (Domain.category d))
  /\ ~ Domain.price d == mx.

(** The criteria that the recommendation query hands to the session. *)
Definition listing_criteria (price_min price_max : option Q)
    (category_filter : option string) : list Criterion :=
  [IsSoldEq false]
    ++ match price_min with Some p => [PriceGe p] | None => [] end
    ++ match price_max with Some p => [PriceLe p] | None => [] end
    ++ match category_filter with Some c => [CategoryEq c] | None => [] end.

(** An entry of the result reproduces the columns of a listing. *)
Definition entry_of (d : Domain.t) (e : Entry.t) : Prop :=
  Entry.id e = Domain.id d
  /\ Entry.domain_name e = Domain.domain_name d
  /\ Entry.category e = Domain.category d
  /\ Entry.price e = Domain.price d
  /\ Entry.keyword_score e = Domain.keyword_score d
  /\ Entry.views e = Domain.views d
  /\ Entry.clicks e = Domain.clicks d.

(** What the recommendation query promises of one returned entry. *)
Definition eligible (db : Session) (price_min price_max : option Q)
    (category_filter : option string) (e : Entry.t) : Prop :=
  (exists d, In d (rows db) /\ Domain.is_sold d = false /\ entry_of d e)
  /\ (forall p, price_min = Some p -> p <= Entry.price e)
  /\ (forall p, price_max = Some p -> Entry.price e <= p)
  /\ (forall c, category_filter = Some c -> Entry.category e = c).

Definition by_score_desc (a b : Entry.t) : Prop :=
  total_score (Entry.ranking b) <= total_score (Entry.ranking a).

(** An int that an INTEGER column of [models.Domain] holds. *)
Definition fits_int64 (z : Z) : Prop := (- 2 ^ 63 <= z < 2 ^ 63)%Z.

(** Sample listings. *)
Definition alpha : Domain.t :=
  Domain.mk 1 "alpha.com" "tech" 100 100 1000 200 false.
Definition beta : Domain.t :=
  Domain.mk 2 "beta.com" "tech" 200 0 0 0 false.
Definition gamma : Domain.t :=
  Domain.mk 3 "gamma.io" "tech" 150 85.5 100 7 true.
Definition delta : Domain.t :=
  Domain.mk 4 "delta.shop" "retail" 80 60 100 4 false.
Definition epsilon : Domain.t :=
  Domain.mk 5 "epsilon.shop" "retail" 80 60 100 5 false.
Definition zeta : Domain.t :=
  Domain.mk 6 "zeta.dev" "dev" 500 90 0 0 false.

(** A listing with 127 clicks in 2000 views, and a sold one whose exact
    CTR is just below 0.15. *)
Definition theta : Domain.t :=
  Domain.mk 12 "theta.org" "media" 250 40 2000 127 false.
Definition iota : Domain.t :=
  Domain.mk 13 "iota.org" "media" 250 85.5 100000000000000000 14999999999999999 true.

(** A stand-in for [repr] on the floats that are short decimals. *)
Definition repr_of_exact (x : float) : string := decimal_repr (Binary64.to_Q x).

(** A session that serves every statement, and one whose price statistics
    are unavailable. *)
Definition healthy : Session :=
  mkSession [alpha; beta; gamma; delta; epsilon; zeta] (fun _ _ => false).

Definition degraded : Session :=
  mkSession [alpha; beta; gamma; delta; epsilon; zeta]
            (fun e _ => match e with SelectPrice => true | SelectDomain => false end).

(** The rounded scores of the rational model, read as floats, are those
    of binary64. *)
Definition same_scores (r : Ranking) (f : Binary64.Scored) : bool :=
  (PrimFloat.eqb (Binary64.total_score f) (Binary64.of_Q (total_score r))
   && PrimFloat.eqb (Binary64.keyword_relevance f)
        (Binary64.of_Q (keyword_relevance (scores r)))
   && PrimFloat.eqb (Binary64.engagement f)
        (Binary64.of_Q (engagement (scores r)))
   && PrimFloat.eqb (Binary64.price_competitiveness f)
        (Binary64.of_Q (price_competitiveness (scores r)))
   && PrimFloat.eqb (Binary64.conversion_signal f)
        (Binary64.of_Q (conversion_signal (scores r))))%bool.

(* ====================================================================== *)
(** ** Vocabulary of the recommendation query *)
(* ====================================================================== *)

(** The listings that the recommendation query selects: unsold, within the
    price bounds, of the category asked for. *)
Definition passes (price_min price_max : option Q) (category_filter : option string)
    (d : Domain.t) : bool :=
  (negb (Domain.is_sold d)
   && match price_min with Some p => Qle_bool p (Domain.price d) | None => true end
   && match price_max with Some p => Qle_bool (Domain.price d) p | None => true end
   && match category_filter with
      | Some c => String.eqb (Domain.category d) c
      | None => true
      end)%bool.

Definition candidates (db : Session) (price_min price_max : option Q)
    (category_filter : option string) : list Domain.t :=
  filter (passes price_min price_max category_filter) (rows db).

(** The sort key of the result. *)
Definition score (e : Entry.t) : Q := total_score (Entry.ranking e).

Definition has_score (k : Q) (e : Entry.t) : bool := Qeq_bool (score e) k.

(** An entry carries the columns of a listing and the ranking that
    [rank_domain] gives it. *)
Definition ranked_as (float_repr : Q -> string) (db : Session)
    (d : Domain.t) (e : Entry.t) : Prop :=
  entry_of d e /\ rank_domain float_repr d db None = Ok (Entry.ranking e).

(* ====================================================================== *)
(** ** Request schemas and persistence helpers *)
(* ====================================================================== *)

(** [schemas.DomainCreate], once validated. *)
Module DomainCreate.
Record t : Type := mk {
  domain_name : string;
  category : string;
  price : Q;
  keyword_score : Q;
  views : Z;
  clicks : Z;
  is_sold : bool
}.
End DomainCreate.

(** A field of [schemas.DomainUpdate]: left out of the request, or sent,
    with a value or with [null]. *)
Inductive Sent (A : Type) : Type :=
| Unset
| Sent_ (v : option A).

Arguments Unset {A}.
Arguments Sent_ {A} v.

(** [schemas.DomainUpdate], once validated. *)
Module DomainUpdate.
Record t : Type := mk {
  domain_name : Sent string;
  category : Sent string;
  price : Sent Q;
  keyword_score : Sent Q;
  views : Sent Z;
  clicks : Sent Z;
  is_sold : Sent bool
}.
End DomainUpdate.

(** [backend/app/crud.py], on a session that serves the statements of the
    call and on integers that fit the INTEGER columns: nothing in the
    module handles a refused statement, or the [OverflowError] of an int
    beyond 64 bits, and the exception ends the call. The theorems that
    assert what a call returns state both as hypotheses ([serves_all],
    [fits_int64]). Rows come back in table order. The constraints that
    [models.Domain] declares are enforced at commit: the primary key and
    [domain_name] are unique, and no column is null; a violation raises
    (IntegrityError, a SQLAlchemyError) and leaves the table as it was.
    The timestamp columns, which no function of the repository reads, are
    left out. *)
Module Crud.

(** The session once the table holds other rows. *)
Definition with_rows (db : Session) (rs : list Domain.t) : Session :=
  mkSession rs (refuses db).

(** [query.all()], served. *)
Definition served (q : Query) : list Domain.t :=
  filter (fun d => forallb (satisfies d) (criteria q)) (rows (bound_to q)).

(** [query.first()] *)
Definition first {A : Type} (matching : list A) : option A :=
  match matching with
  | [] => None
  | x :: _ => Some x
  end.

Definition name_taken (rs : list Domain.t) (name : string) : bool :=
  existsb (fun d => String.eqb (Domain.domain_name d) name) rs.

Definition key_taken (rs : list Domain.t) (id : Z) : bool :=
  existsb (fun d => (Domain.id d =? id)%Z) rs.

(** [create_domain]; [new_id] is the primary key that the database assigns
    to the inserted row. *)
Definition create_domain (db : Session) (new_id : Z) (domain_create : DomainCreate.t)
  : result (Domain.t * Session) :=
  let domain :=
    Domain.mk new_id
              (DomainCreate.domain_name domain_create)
              (DomainCreate.category domain_create)
              (DomainCreate.price domain_create)
              (DomainCreate.keyword_score domain_create)
              (DomainCreate.views domain_create)
              (DomainCreate.clicks domain_create)
              (DomainCreate.is_sold domain_create) in
  if (key_taken (rows db) new_id
      || name_taken (rows db) (Domain.domain_name domain))%bool
  then Raise SQLAlchemyError
  else ret (domain, with_rows db (rows db ++ [domain])).

Definition get_domain (db : Session) (domain_id : Z) : option Domain.t :=
  first (filter (fun d => (Domain.id d =? domain_id)%Z) (rows db)).

(** [query.offset(skip).limit(limit)], with a negative offset read as 0
    and a negative limit as no limit, as SQLite, the default backend of
    [database.py], reads them. *)
Definition offset_limit {A : Type} (skip limit : Z) (matching : list A) : list A :=
  let rest := skipn (Z.to_nat skip) matching in
  if (limit <? 0)%Z then rest else firstn (Z.to_nat limit) rest.

Definition get_domains (db : Session) (skip limit : Z)
    (category : option string) (is_sold : option bool) : list Domain.t :=
  let query := query db SelectDomain in
  let query :=
    match category with
    | Some c => if String.eqb c "" then query else filter_by query [CategoryEq c]
    | None => query
    end in
  let query :=
    match is_sold with
    | Some b => filter_by query [IsSoldEq b]
    | None => query
    end in
  offset_limit skip limit (served query).

(** [setattr(domain, key, value)] for one key of [update_data], followed by
    the check at commit that the column is not null. *)
Definition assign {A : Type} (sent : Sent A) (current : A) : result A :=
  match sent with
  | Unset => Ok current
  | Sent_ (Some v) => Ok v
  | Sent_ None => Raise SQLAlchemyError
  end.

Definition replace_row (updated : Domain.t) (rs : list Domain.t) : list Domain.t :=
  map (fun d => if (Domain.id d =? Domain.id updated)%Z then updated else d) rs.

Definition update_domain (db : Session) (domain_id : Z) (domain_update : DomainUpdate.t)
  : result (option Domain.t * Session) :=
  match get_domain db domain_id with
  | None => ret (None, db)
  | Some domain =>
      domain_name <- assign (DomainUpdate.domain_name domain_update)
                            (Domain.domain_name domain) ;;
      category <- assign (DomainUpdate.category domain_update) (Domain.category domain) ;;
      price <- assign (DomainUpdate.price domain_update) (Domain.price domain) ;;
      keyword_score <- assign (DomainUpdate.keyword_score domain_update)
                              (Domain.keyword_score domain) ;;
      views <- assign (DomainUpdate.views domain_update) (Domain.views domain) ;;
      clicks <- assign (DomainUpdate.clicks domain_update) (Domain.clicks domain) ;;
      is_sold <- assign (DomainUpdate.is_sold domain_update) (Domain.is_sold domain) ;;
      let updated :=
        Domain.mk (Domain.id domain) domain_name category price keyword_score
                  views clicks is_sold in
      let others := filter (fun d => negb (Domain.id d =? domain_id)%Z) (rows db) in
      if name_taken others domain_name then Raise SQLAlchemyError
      else ret (Some updated, with_rows db (replace_row updated (rows db)))
  end.

Definition delete_domain (db : Session) (domain_id : Z) : bool * Session :=
  match get_domain db domain_id with
  | None => (false, db)
  | Some domain =>
      (true,
       with_rows db (filter (fun d => negb (Domain.id d =? Domain.id domain)%Z) (rows db)))
  end.

End Crud.

(** The value of a column after an update that sends [sent] for it. *)
Definition after {A : Type} (sent : Sent A) (current : A) : A :=
  match sent with
  | Sent_ (Some v) => v
  | _ => current
  end.

(** The session serves every statement, as the database does while it is
    reachable and intact. *)
Definition serves_all (db : Session) : Prop :=
  forall e cs, refuses db e cs = false.

(** The rows that [get_domains] selects. *)
Definition matches (category : option string) (is_sold : option bool)
    (d : Domain.t) : bool :=
  (match category with
   | Some c => if String.eqb c "" then true else String.eqb (Domain.category d) c
   | None => true
   end
   && match is_sold with
      | Some b => Bool.eqb (Domain.is_sold d) b
      | None => true
      end)%bool.

(* ====================================================================== *)
(** ** Marketplace analytics *)
(* ====================================================================== *)

(** [backend/app/analytics.py]. Each function takes, beside the session,
    the exception that the database raises while the call is served, if it
    raises one: the functions catch [OperationalError] and let any other
    exception through. SQL aggregates are computed over the rows of the
    table; groups are listed in the order in which their keys first occur,
    and [ORDER BY] keeps the table order among equal keys. *)
Module Analytics.

Inductive Fault : Type :=
| OperationalError
| OtherError (e : exn).

(** [func.count(Domain.id)]: the key is never null, every row counts. *)
Definition count {A : Type} (rs : list A) : Z := Z.of_nat (List.length rs).

(** [func.avg(column)]: [NULL] when no row is selected. *)
Definition avg (xs : list Q) : option Q :=
  match xs with
  | [] => None
  | _ => Some (py_sum xs / inject_Z (count xs))
  end.

(** [func.sum(case((Domain.is_sold == True, 1), else_=0))] over the rows
    of a group, which is never empty. *)
Definition sold_in (rs : list Domain.t) : Z :=
  fold_left Z.add (map (fun d => if Domain.is_sold d then 1%Z else 0%Z) rs) 0%Z.

(** The keys of [GROUP BY], each once. *)
Fixpoint distinct (keys : list string) : list string :=
  match keys with
  | [] => []
  | k :: rest => k :: filter (fun x => negb (String.eqb x k)) (distinct rest)
  end.

(** [GROUP BY key]: each key with the rows that carry it. *)
Definition group_by {A : Type} (key : A -> string) (rs : list A)
  : list (string * list A) :=
  map (fun k => (k, filter (fun r => String.eqb (key r) k) rs))
      (distinct (map key rs)).

(** [round(float(x), 2) if x else 0.0] on an aggregate that may be [NULL]. *)
Definition rounded_or_zero (x : option Q) : Q :=
  match x with
  | Some v => if Qeq_bool v 0 then 0.0 else py_round v 2
  | None => 0.0
  end.

(** [(part / whole * 100) if whole > 0 else 0.0] *)
Definition percentage (part whole : Z) : result Q :=
  if (whole >? 0)%Z then
    q <- truediv part whole ;;
    ret (q * 100)
  else ret 0.0.

Module Kpis.
Record t : Type := mk {
  total_domains : Z;
  sold_domains : Z;
  conversion_rate : Q;
  average_price : Q
}.
End Kpis.

Definition get_global_kpis (db : Session) (fault : option Fault) : result Kpis.t :=
  match fault with
  | Some OperationalError => ret (Kpis.mk 0 0 0.0 0.0)
  | Some (OtherError e) => Raise e
  | None =>
      let total_domains := count (rows db) in
      let sold_domains := count (filter (fun d => Bool.eqb (Domain.is_sold d) true) (rows db)) in
      conversion_rate <- percentage sold_domains total_domains ;;
      let avg_price := avg (map Domain.price (rows db)) in
      ret (Kpis.mk total_domains
                   sold_domains
                   (py_round conversion_rate 2)
                   (rounded_or_zero avg_price))
  end.

Module CategoryStats.
Record t : Type := mk {
  category : string;
  count : Z;
  sold_count : Z;
  conversion_rate : Q;
  average_price : Q
}.
End CategoryStats.

(** The [for row in rows] loop of [get_category_stats]. *)
Fixpoint category_results (groups : list (string * list Domain.t))
    (results : list CategoryStats.t) : result (list CategoryStats.t) :=
  match groups with
  | [] => ret results
  | (category, members) :: rest =>
      let count := count members in
      let sold := sold_in members in
      conversion_rate <- percentage sold count ;;
      category_results rest
        (results ++ [CategoryStats.mk category
                                      count
                                      sold
                                      (py_round conversion_rate 2)
                                      (rounded_or_zero (avg (map Domain.price members)))])
  end.

Definition get_category_stats (db : Session) (fault : option Fault)
  : result (list CategoryStats.t) :=
  match fault with
  | Some OperationalError => ret []
  | Some (OtherError e) => Raise e
  | None => category_results (group_by Domain.category (rows db)) []
  end.

Module HighInterest.
Record t : Type := mk {
  id : Z;
  domain_name : string;
  category : string;
  price : Q;
  views : Z;
  clicks : Z;
  keyword_score : Q
}.
End HighInterest.

Module PriceBand.
Record t : Type := mk {
  price_band : string;
  count : Z;
  average_price : Q;
  average_views : Q;
  average_clicks : Q
}.
End PriceBand.

Module Demand.
Record t : Type := mk {
  high_interest_domains : list HighInterest.t;
  price_engagement : list PriceBand.t;
  benchmark_avg_clicks_unsold : Q
}.
End Demand.

(** [query.limit(n)], a negative [n] read as no limit, as SQLite reads it. *)
Definition sql_limit {A : Type} (n : Z) (rs : list A) : list A :=
  if (n <? 0)%Z then rs else firstn (Z.to_nat n) rs.

(** [case((Domain.price < 1000, "low"), (Domain.price < 10000, "mid"),
    else_="high")] *)
Definition price_band (d : Domain.t) : string :=
  if Qlt_bool (Domain.price d) 1000 then "low"
  else if Qlt_bool (Domain.price d) 10000 then "mid"
  else "high".

Definition clicks_of (d : Domain.t) : Q := inject_Z (Domain.clicks d).

Definition views_of (d : Domain.t) : Q := inject_Z (Domain.views d).

Definition get_demand_indicators (db : Session) (top_n : Z) (fault : option Fault)
  : result Demand.t :=
  match fault with
  | Some OperationalError => ret (Demand.mk [] [] 0.0)
  | Some (OtherError e) => Raise e
  | None =>
      let unsold := filter (fun d => Bool.eqb (Domain.is_sold d) false) (rows db) in
      let avg_clicks_unsold :=
        match avg (map clicks_of unsold) with
        | Some a => if Qeq_bool a 0 then 0 else a
        | None => 0
        end in
      let high_interest :=
        sql_limit top_n
          (sort_desc clicks_of
             (filter (fun d => Qle_bool avg_clicks_unsold (clicks_of d)) unsold)) in
      let high_interest_payload :=
        map (fun d => HighInterest.mk (Domain.id d)
                                      (Domain.domain_name d)
                                      (Domain.category d)
                                      (Domain.price d)
                                      (Domain.views d)
                                      (Domain.clicks d)
                                      (Domain.keyword_score d))
            high_interest in
      let band_rows := group_by price_band (rows db) in
      let band_payload :=
        map (fun row =>
               PriceBand.mk (fst row)
                            (count (snd row))
                            (rounded_or_zero (avg (map Domain.price (snd row))))
                            (rounded_or_zero (avg (map views_of (snd row))))
                            (rounded_or_zero (avg (map clicks_of (snd row)))))
            band_rows in
      ret (Demand.mk high_interest_payload
                     band_payload
                     (py_round avg_clicks_unsold 2))
  end.

Module Summary.
Record t : Type := mk {
  global : Kpis.t;
  categories : list CategoryStats.t
}.
End Summary.

(** [get_summary]; each of the two calls meets its own fault. *)
Definition get_summary (db : Session) (fault_global fault_categories : option Fault)
  : result Summary.t :=
  global <- get_global_kpis db fault_global ;;
  categories <- get_category_stats db fault_categories ;;
  ret (Summary.mk global categories).

End Analytics.

(** The sum of a list of counts. *)
Definition total (zs : list Z) : Z := fold_right Z.add 0%Z zs.

Definition in_category (c : string) (d : Domain.t) : bool :=
  String.eqb (Domain.category d) c.

(** What a statistics record says of the group it is computed from. *)
Definition stats_of_group (g : string * list Domain.t) (s : Analytics.CategoryStats.t)
  : Prop :=
  Analytics.CategoryStats.category s = fst g
  /\ Analytics.CategoryStats.count s = Analytics.count (snd g)
  /\ Analytics.CategoryStats.sold_count s
     = Analytics.count (filter (fun d => Bool.eqb (Domain.is_sold d) true) (snd g))
  /\ 0 <= Analytics.CategoryStats.conversion_rate s
  /\ Analytics.CategoryStats.conversion_rate s <= 100.





Definition in_band (label : string) (d : Domain.t) : bool :=
  String.eqb (Analytics.price_band d) label.

(* ====================================================================== *)
(** ** HTTP routes *)
(* ====================================================================== *)

(** [backend/app/api.py]. A route answers with a status and a body, raises
    an [HTTPException], is turned down by the validation of its declared
    parameters (status 422), or lets an exception of its helper through.
    The routes for listings and for recommendations are modelled; the
    analytics routes hand their helper's result over unchanged.
    A parameter declared [Query(default, ...)] is [None] when the request
    leaves it out. *)
Module Api.

Inductive Response (A : Type) : Type :=
| Respond (status_code : Z) (body : A)
| HTTPException (status_code : Z) (detail : string)
| RequestValidationError
| Unhandled (e : exn).

Arguments Respond {A} status_code body.
Arguments HTTPException {A} status_code detail.
Arguments RequestValidationError {A}.
Arguments Unhandled {A} e.

(** [Query(default, ge=lo, le=hi)] on an integer parameter: the value the
    route receives, if the request passes. *)
Definition int_query (default lo hi : Z) (given : option Z) : option Z :=
  match given with
  | None => Some default
  | Some v => if ((lo <=? v) && (v <=? hi))%Z then Some v else None
  end.

(** [Query(default, ge=lo)] on an integer parameter. *)
Definition int_query_ge (default lo : Z) (given : option Z) : option Z :=
  match given with
  | None => Some default
  | Some v => if (lo <=? v)%Z then Some v else None
  end.

(** [Query(None, ge=0)] on an optional float parameter. *)
Definition float_query_ge0 (given : option Q) : option (option Q) :=
  match given with
  | None => Some None
  | Some v => if Qle_bool 0 v then Some (Some v) else None
  end.

Definition create_domain_endpoint
    (domain_create : DomainCreate.t) (db : Session) (new_id : Z)
  : Response Domain.t * Session :=
  let existing :=
    Crud.first
      (filter (fun d => String.eqb (Domain.domain_name d)
                                   (DomainCreate.domain_name domain_create))
              (rows db)) in
  match existing with
  | Some _ => (HTTPException 400 "Domain name already exists", db)
  | None =>
      match Crud.create_domain db new_id domain_create with
      | Ok (domain, db') => (Respond 201 domain, db')
      | Raise e => (Unhandled e, db)
      end
  end.

Definition list_domains_endpoint
    (skip limit : option Z) (category : option string) (is_sold : option bool)
    (db : Session) : Response (list Domain.t) :=
  match int_query_ge 0 0 skip, int_query 50 1 200 limit with
  | Some skip, Some limit =>
      Respond 200 (Crud.get_domains db skip limit category is_sold)
  | _, _ => RequestValidationError
  end.

Definition get_domain_endpoint (domain_id : Z) (db : Session) : Response Domain.t :=
  match Crud.get_domain db domain_id with
  | None => HTTPException 404 "Domain not found"
  | Some domain => Respond 200 domain
  end.

Definition update_domain_endpoint
    (domain_id : Z) (domain_update : DomainUpdate.t) (db : Session)
  : Response Domain.t * Session :=
  match Crud.update_domain db domain_id domain_update with
  | Ok (None, db') => (HTTPException 404 "Domain not found", db')
  | Ok (Some domain, db') => (Respond 200 domain, db')
  | Raise e => (Unhandled e, db)
  end.

Definition delete_domain_endpoint (domain_id : Z) (db : Session)
  : Response unit * Session :=
  match Crud.delete_domain db domain_id with
  | (false, db') => (HTTPException 404 "Domain not found", db')
  | (true, db') => (Respond 204 tt, db')
  end.

Module RankingExplanation.
Record t : Type := mk {
  weights : dict Q;
  bonuses : dict Q;
  scoring_components : list string
}.
End RankingExplanation.

Definition ranking_explanation : RankingExplanation.t :=
  RankingExplanation.mk
    WEIGHTS
    BONUSES
    [ "keyword_relevance - domain keyword score relevance (0-100)";
      "engagement - click-through rate as conversion signal";
      "price_competitiveness - price ranking within category";
      "conversion_signal - sold status and high-interest bonus" ]%string.

Module Top.
Record t : Type := mk {
  count : Z;
  limit : Z;
  recommendations : list Entry.t;
  ranking_explanation : RankingExplanation.t
}.
End Top.

Module ByCategory.
Record t : Type := mk {
  category : string;
  count : Z;
  limit : Z;
  recommendations : list Entry.t;
  ranking_explanation : RankingExplanation.t
}.
End ByCategory.

Section Recommendations.

Variable float_repr : Q -> string.

Definition recommendations_top
    (limit : option Z) (price_min price_max : option Q) (db : Session)
  : Response Top.t :=
  match int_query 10 1 100 limit,
        float_query_ge0 price_min,
        float_query_ge0 price_max with
  | Some limit, Some price_min, Some price_max =>
      match get_top_recommendations float_repr db limit price_min price_max None with
      | Ok recommendations =>
          Respond 200
            (Top.mk (Z.of_nat (List.length recommendations))
                    limit
                    recommendations
                    ranking_explanation)
      | Raise e => Unhandled e
      end
  | _, _, _ => RequestValidationError
  end.

Definition recommendations_by_category
    (category : string) (limit : option Z) (price_min price_max : option Q)
    (db : Session) : Response ByCategory.t :=
  match int_query 10 1 100 limit,
        float_query_ge0 price_min,
        float_query_ge0 price_max with
  | Some limit, Some price_min, Some price_max =>
      match get_category_recommendations float_repr db category limit
                                         price_min price_max with
      | Ok recommendations =>
          Respond 200
            (ByCategory.mk category
                           (Z.of_nat (List.length recommendations))
                           limit
                           recommendations
                           ranking_explanation)
      | Raise e => Unhandled e
      end
  | _, _, _ => RequestValidationError
  end.

End Recommendations.

End Api.

(** What the declared parameters of the recommendation routes accept. *)
Definition valid_limit (limit : option Z) : Prop :=
  forall v, limit = Some v -> (1 <= v <= 100)%Z.

Definition valid_price (p : option Q) : Prop :=
  forall v, p = Some v -> 0 <= v.

(** What the declared parameters of the listing route accept. *)
Definition valid_page (skip limit : option Z) : Prop :=
  (forall v, skip = Some v -> (0 <= v)%Z)
  /\ (forall v, limit = Some v -> (1 <= v <= 200)%Z).

(** The value of a parameter that has a default. *)
Definition requested (default : Z) (given : option Z) : Z :=
  match given with
  | Some v => v
  | None => default
  end.

(** Sample requests: a listing to create, a dearer twin of [alpha] with a
    lower keyword score, and updates that send a new price only, a null
    name, and the name of another listing. *)
Definition eta_request : DomainCreate.t :=
  DomainCreate.mk "eta.shop" "retail" 120 70 50 5 false.

Definition eta : Domain.t :=
  Domain.mk 7 "eta.ai" "tech" 150 80 1000 200 false.

Definition reprice : DomainUpdate.t :=
  DomainUpdate.mk Unset Unset (Sent_ (Some 90)) Unset Unset Unset Unset.

Definition unname : DomainUpdate.t :=
  DomainUpdate.mk (Sent_ None) Unset Unset Unset Unset Unset Unset.

Definition rename_to_beta : DomainUpdate.t :=
  DomainUpdate.mk (Sent_ (Some "beta.com"%string)) Unset Unset Unset Unset Unset Unset.

(** A table in which two listings tie: [kappa] and its twin differ in key
    and name only, and [mu] stands between them. *)
Definition kappa : Domain.t :=
  Domain.mk 8 "kappa.net" "media" 300 50 200 30 false.

Definition mu : Domain.t :=
  Domain.mk 9 "mu.net" "media" 500 90 400 20 false.

Definition kappa_twin : Domain.t :=
  Domain.mk 10 "kappa-twin.net" "media" 300 50 200 30 false.

Definition tied : Session :=
  mkSession [kappa; mu; kappa_twin] (fun _ _ => false).


(* ====================================================================== *)
(** ** Numbers: comparisons, extrema, rounding, division *)
(* ====================================================================== *)

Lemma Qlt_bool_iff (a b : Q) : Qlt_bool a b = true <-> a < b.
Proof.
  unfold Qlt_bool. rewrite negb_true_iff.
  split; intro H.
  - apply Qnot_le_lt. intro Hle. apply Qle_bool_iff in Hle. congruence.
  - destruct (Qle_bool b a) eqn:E; [|reflexivity].
    apply Qle_bool_iff in E. exfalso. exact (Qlt_not_le _ _ H E).
Qed.

Lemma Qle_bool_false_iff (a b : Q) : Qle_bool a b = false <-> b < a.
Proof.
  rewrite <- Qlt_bool_iff. unfold Qlt_bool.
  destruct (Qle_bool a b); simpl; intuition congruence.
Qed.

Lemma min2_cases (a b : Q) :
  (b < a /\ min2 a b = b) \/ (a <= b /\ min2 a b = a).
Proof.
  unfold min2. destruct (Qlt_bool b a) eqn:E.
  - left. split; [now apply Qlt_bool_iff | reflexivity].
  - right. split; [|reflexivity].
    apply Qnot_lt_le. intro H. apply Qlt_bool_iff in H. congruence.
Qed.

Lemma max2_cases (a b : Q) :
  (a < b /\ max2 a b = b) \/ (b <= a /\ max2 a b = a).
Proof.
  unfold max2. destruct (Qlt_bool a b) eqn:E.
  - left. split; [now apply Qlt_bool_iff | reflexivity].
  - right. split; [|reflexivity].
    apply Qnot_lt_le. intro H. apply Qlt_bool_iff in H. congruence.
Qed.

Lemma min2_below (cap x x' : Q) : x == x' -> x' <= cap -> min2 cap x == x'.
Proof.
  intros E H. destruct (min2_cases cap x) as [[_ ->]|[H' ->]]; lra.
Qed.

Lemma round_half_even_between (q : Q) (lo hi : Z) :
  inject_Z lo <= q -> q <= inject_Z hi ->
  (lo <= round_half_even q <= hi)%Z.
Proof.
  intros Hlo Hhi.
  assert (Hf1 : (lo <= Qfloor q)%Z).
  { rewrite <- (Qfloor_Z lo). now apply Qfloor_resp_le. }
  assert (Hf2 : (Qfloor q <= hi)%Z).
  { rewrite <- (Qfloor_Z hi). now apply Qfloor_resp_le. }
  assert (Hup : (Qfloor q < hi)%Z \/ q == inject_Z (Qfloor q)).
  { destruct (Z.eq_dec (Qfloor q) hi) as [E|N]; [right | left; lia].
    apply Qle_antisym; [rewrite E; exact Hhi | apply Qfloor_le]. }
  unfold round_half_even.
  destruct (Qcompare_spec (q - inject_Z (Qfloor q)) (1 # 2)) as [E|L|G].
  - destruct (Z.even (Qfloor q)); [lia|].
    destruct Hup as [?|Hq]; [lia|]. rewrite Hq in E at 1. lra.
  - lia.
  - destruct Hup as [?|Hq]; [lia|]. rewrite Hq in G at 1. lra.
Qed.

Lemma round_half_even_comp (x y : Q) :
  x == y -> round_half_even x = round_half_even y.
Proof.
  intro E. unfold round_half_even.
  rewrite (Qfloor_comp _ _ E).
  assert (C : Qcompare (x - inject_Z (Qfloor y)) (1 # 2)
              = Qcompare (y - inject_Z (Qfloor y)) (1 # 2)).
  { apply Qcompare_comp; [rewrite E|]; reflexivity. }
  rewrite C. reflexivity.
Qed.

Lemma py_round_between (x : Q) (n : nat) (lo hi : Z) :
  inject_Z lo <= x -> x <= inject_Z hi ->
  inject_Z lo <= py_round x n /\ py_round x n <= inject_Z hi.
Proof.
  intros Hlo Hhi. unfold py_round.
  set (s := pow10 n).
  assert (Hs : 0 < inject_Z (Zpos s)) by (unfold Qlt; simpl; lia).
  destruct (round_half_even_between (x * inject_Z (Zpos s)) (lo * Zpos s) (hi * Zpos s))
    as [H1 H2].
  - rewrite inject_Z_mult. apply Qmult_le_compat_r; [exact Hlo | now apply Qlt_le_weak].
  - rewrite inject_Z_mult. apply Qmult_le_compat_r; [exact Hhi | now apply Qlt_le_weak].
  - unfold Qle; simpl. split; lia.
Qed.

Lemma py_round_comp (x y : Q) (n : nat) : x == y -> py_round x n = py_round y n.
Proof.
  intro E. unfold py_round. f_equal. apply round_half_even_comp. now rewrite E.
Qed.

Lemma fold_min2_spec (rest : list Q) (x : Q) :
  In (fold_left min2 rest x) (x :: rest)
  /\ (forall p, In p (x :: rest) -> fold_left min2 rest x <= p).
Proof.
  revert x. induction rest as [|y rest IH]; intro x; simpl.
  - split; [now left | intros p [<-|[]]; apply Qle_refl].
  - destruct (IH (min2 x y)) as [Hin Hle]. split.
    + destruct Hin as [E|Hin]; [|now right; right].
      destruct (min2_cases x y) as [[_ Em]|[_ Em]]; rewrite Em in *; tauto.
    + intros p Hp.
      assert (Hm : fold_left min2 rest (min2 x y) <= min2 x y) by (apply Hle; now left).
      destruct (min2_cases x y) as [[Hlt Em]|[Hlt Em]]; rewrite Em in *;
        destruct Hp as [<-|[<-|Hp]]; try lra; apply Hle; now right.
Qed.

Lemma fold_max2_spec (rest : list Q) (x : Q) :
  In (fold_left max2 rest x) (x :: rest)
  /\ (forall p, In p (x :: rest) -> p <= fold_left max2 rest x).
Proof.
  revert x. induction rest as [|y rest IH]; intro x; simpl.
  - split; [now left | intros p [<-|[]]; apply Qle_refl].
  - destruct (IH (max2 x y)) as [Hin Hle]. split.
    + destruct Hin as [E|Hin]; [|now right; right].
      destruct (max2_cases x y) as [[_ Em]|[_ Em]]; rewrite Em in *; tauto.
    + intros p Hp.
      assert (Hm : max2 x y <= fold_left max2 rest (max2 x y)) by (apply Hle; now left).
      destruct (max2_cases x y) as [[Hlt Em]|[Hlt Em]]; rewrite Em in *;
        destruct Hp as [<-|[<-|Hp]]; try lra; apply Hle; now right.
Qed.

Lemma py_min_lowest (ps : list Q) (m : Q) : py_min ps = Ok m -> lowest m ps.
Proof.
  destruct ps as [|x rest]; simpl; [discriminate|].
  intros [= <-]. destruct (fold_min2_spec rest x) as [Hin Hle].
  split; [exists (fold_left min2 rest x); split; [exact Hin | reflexivity] | exact Hle].
Qed.

Lemma py_max_highest (ps : list Q) (m : Q) : py_max ps = Ok m -> highest m ps.
Proof.
  destruct ps as [|x rest]; simpl; [discriminate|].
  intros [= <-]. destruct (fold_max2_spec rest x) as [Hin Hle].
  split; [exists (fold_left max2 rest x); split; [exact Hin | reflexivity] | exact Hle].
Qed.

Lemma lowest_unique (ps : list Q) (m m' : Q) : lowest m ps -> lowest m' ps -> m == m'.
Proof.
  intros [[p [Hp Ep]] Hm] [[p' [Hp' Ep']] Hm'].
  apply Qle_antisym.
  - rewrite <- Ep'. now apply Hm.
  - rewrite <- Ep. now apply Hm'.
Qed.

Lemma highest_unique (ps : list Q) (m m' : Q) : highest m ps -> highest m' ps -> m == m'.
Proof.
  intros [[p [Hp Ep]] Hm] [[p' [Hp' Ep']] Hm'].
  apply Qle_antisym.
  - rewrite <- Ep. now apply Hm'.
  - rewrite <- Ep'. now apply Hm.
Qed.

Lemma lowest_le_highest (ps : list Q) (mn mx : Q) :
  lowest mn ps -> highest mx ps -> mn <= mx.
Proof.
  intros [[p [Hp Ep]] Hm] [_ Hx]. rewrite <- Ep. now apply Hx.
Qed.

Lemma truediv_ok (a b : Z) : b <> 0%Z -> truediv a b = Ok (ctr_of a b).
Proof.
  intro H. unfold truediv. destruct (Z.eqb_spec b 0); [contradiction | reflexivity].
Qed.

Lemma ctr_of_nonneg (clicks views : Z) :
  (0 <= clicks)%Z -> (0 < views)%Z -> 0 <= ctr_of clicks views.
Proof.
  intros Hc Hv. unfold ctr_of.
  apply Qle_shift_div_l.
  - change 0 with (inject_Z 0). rewrite <- Zlt_Qlt. exact Hv.
  - rewrite Qmult_0_l. change 0 with (inject_Z 0). rewrite <- Zle_Qle. exact Hc.
Qed.

(* ====================================================================== *)
(** ** Configuration *)
(* ====================================================================== *)

Lemma getitem_keyword : getitem WEIGHTS "keyword_relevance" = Ok 30.
Proof. reflexivity. Qed.

Lemma getitem_engagement : getitem WEIGHTS "engagement" = Ok 25.
Proof. reflexivity. Qed.

Lemma getitem_price : getitem WEIGHTS "price_competitiveness" = Ok 25.
Proof. reflexivity. Qed.

Lemma getitem_conversion : getitem WEIGHTS "conversion_signal" = Ok 15.
Proof. reflexivity. Qed.

Lemma max_possible_value : max_possible == 96.5.
Proof. reflexivity. Qed.

(* ====================================================================== *)
(** ** Keyword relevance *)
(* ====================================================================== *)

Lemma calculate_keyword_relevance_value (ks : Q) :
  calculate_keyword_relevance ks = Ok (max2 0 (min2 (ks / 100.0 * 30) 30)).
Proof. reflexivity. Qed.

Lemma keyword_relevance_returns (ks : Q) :
  exists s, calculate_keyword_relevance ks = Ok s /\ 0 <= s /\ s <= 30.
Proof.
  rewrite calculate_keyword_relevance_value.
  eexists; split; [reflexivity|].
  destruct (min2_cases (ks / 100.0 * 30) 30) as [[H1 ->]|[H1 ->]];
    destruct (max2_cases 0 30) as [[H2 E2]|[H2 E2]];
    destruct (max2_cases 0 (ks / 100.0 * 30)) as [[H3 E3]|[H3 E3]];
    rewrite ?E2, ?E3; split; lra.
Qed.

(* ====================================================================== *)
(** ** Engagement *)
(* ====================================================================== *)

Lemma calculate_engagement_unmeasured (clicks : Z) :
  calculate_engagement 0 clicks = Ok (W_engagement * 0.3).
Proof. reflexivity. Qed.

Lemma calculate_engagement_measured (views clicks : Z) :
  views <> 0%Z ->
  calculate_engagement views clicks = Ok (engagement_curve (ctr_of clicks views)).
Proof.
  intro Hv. unfold calculate_engagement, engagement_curve.
  destruct (Z.eqb_spec views 0) as [E|_]; [contradiction|].
  rewrite (truediv_ok _ _ Hv). cbn [bind].
  destruct (Qle_bool HIGH_INTEREST_THRESHOLD (ctr_of clicks views)); [reflexivity|].
  destruct (Qle_bool CTR_THRESHOLD (ctr_of clicks views)); reflexivity.
Qed.

Lemma engagement_never_raises (views clicks : Z) :
  exists s, calculate_engagement views clicks = Ok s.
Proof.
  destruct (Z.eq_dec views 0) as [->|Hn].
  - rewrite calculate_engagement_unmeasured. eauto.
  - rewrite (calculate_engagement_measured _ _ Hn). eauto.
Qed.

Ltac by_thresholds :=
  change W_engagement with 25 in *;
  unfold HIGH_INTEREST_THRESHOLD, CTR_THRESHOLD, Qdiv in *;
  change (/ 0.15) with (100 # 15) in *;
  change (/ 0.05) with (100 # 5) in *.

Lemma engagement_curve_bounds (ctr : Q) :
  0 <= ctr -> 0 <= engagement_curve ctr /\ engagement_curve ctr <= 25.
Proof.
  intro H. unfold engagement_curve. by_thresholds.
  destruct (Qle_bool 0.15 ctr) eqn:E1; [split; lra|].
  apply Qle_bool_false_iff in E1.
  destruct (Qle_bool 0.05 ctr) eqn:E2.
  - apply Qle_bool_iff in E2. split; lra.
  - apply Qle_bool_false_iff in E2. split; lra.
Qed.

Lemma engagement_returns (views clicks : Z) :
  (0 <= views)%Z -> (0 <= clicks)%Z ->
  exists s, calculate_engagement views clicks = Ok s /\ 0 <= s /\ s <= 25.
Proof.
  intros Hv Hc. destruct (Z.eq_dec views 0) as [->|Hn].
  - rewrite calculate_engagement_unmeasured. eexists; split; [reflexivity|].
    split; unfold Qle; simpl; lia.
  - rewrite (calculate_engagement_measured _ _ Hn). eexists; split; [reflexivity|].
    apply engagement_curve_bounds, ctr_of_nonneg; lia.
Qed.

(** From the engaged threshold upwards the curve does not decrease. *)
Lemma engagement_curve_monotone_above (c1 c2 : Q) :
  CTR_THRESHOLD <= c1 -> c1 <= c2 -> engagement_curve c1 <= engagement_curve c2.
Proof.
  intros H1 H12. unfold engagement_curve. by_thresholds.
  destruct (Qle_bool 0.15 c1) eqn:A1; destruct (Qle_bool 0.15 c2) eqn:A2;
    destruct (Qle_bool 0.05 c1) eqn:B1; destruct (Qle_bool 0.05 c2) eqn:B2;
    rewrite ?Qle_bool_iff, ?Qle_bool_false_iff in *; lra.
Qed.

(** Below the engaged threshold the curve does not decrease either. *)
Lemma engagement_curve_monotone_below (c1 c2 : Q) :
  c1 <= c2 -> c2 < CTR_THRESHOLD -> engagement_curve c1 <= engagement_curve c2.
Proof.
  intros H12 H2. unfold engagement_curve. by_thresholds.
  destruct (Qle_bool 0.15 c1) eqn:A1; destruct (Qle_bool 0.15 c2) eqn:A2;
    destruct (Qle_bool 0.05 c1) eqn:B1; destruct (Qle_bool 0.05 c2) eqn:B2;
    rewrite ?Qle_bool_iff, ?Qle_bool_false_iff in *; lra.
Qed.

(** At the high-interest threshold the moderate tier meets the full
    credit: [eps] below 0.15 the value is [25 - (500/3) * eps]. *)
Lemma engagement_curve_meets_at_high (eps : Q) :
  0 < eps -> eps <= 0.10 ->
  engagement_curve (HIGH_INTEREST_THRESHOLD - eps) == 25 - (500 # 3) * eps
  /\ engagement_curve HIGH_INTEREST_THRESHOLD == 25.
Proof.
  intros H0 H1. split; [|reflexivity].
  unfold engagement_curve. by_thresholds.
  destruct (Qle_bool 0.15 (0.15 - eps)) eqn:A; destruct (Qle_bool 0.05 (0.15 - eps)) eqn:B;
    rewrite ?Qle_bool_iff, ?Qle_bool_false_iff in *; lra.
Qed.

(** Below the engaged threshold the low tier climbs towards 12.5: [eps]
    below 0.05 the value is [12.5 - 250 * eps]. *)
Lemma engagement_curve_below_engaged (eps : Q) :
  0 < eps -> eps <= CTR_THRESHOLD ->
  engagement_curve (CTR_THRESHOLD - eps) == 12.5 - 250 * eps.
Proof.
  intros H0 H1. unfold engagement_curve. by_thresholds.
  destruct (Qle_bool 0.15 (0.05 - eps)) eqn:A;
    destruct (Qle_bool 0.05 (0.05 - eps)) eqn:B;
    rewrite ?Qle_bool_iff, ?Qle_bool_false_iff in *; lra.
Qed.

(** C2: the engagement score is not monotone in the CTR, and it jumps at
    CTR = 0.05. With 100 views, 4 clicks (CTR 0.04) score 10 and 5 clicks
    (CTR 0.05) score 25/3; with 1000 views, 49 clicks (CTR 0.049) score
    12.25 and 50 clicks (CTR 0.05) score 25/3. *)
Theorem calculate_engagement_drops_at_ctr_threshold :
  (exists s4 s5,
      calculate_engagement 100 4 = Ok s4
      /\ calculate_engagement 100 5 = Ok s5
      /\ ctr_of 4 100 < ctr_of 5 100
      /\ s4 == 10 /\ s5 == 25 # 3 /\ s5 < s4)
  /\ (exists s49 s50,
         calculate_engagement 1000 49 = Ok s49
         /\ calculate_engagement 1000 50 = Ok s50
         /\ s49 == 12.25 /\ s50 == 25 # 3).
Proof.
  split.
  - eexists; eexists. split; [reflexivity|]. split; [reflexivity|].
    repeat split; vm_compute; reflexivity.
  - eexists; eexists. split; [reflexivity|]. split; [reflexivity|].
    split; vm_compute; reflexivity.
Qed.

(* ====================================================================== *)
(** ** Conversion signal *)
(* ====================================================================== *)

Lemma conversion_sold (clicks views : Z) :
  calculate_conversion_signal true clicks views
  = Ok (W_conversion * (1 + bonus_sold)).
Proof. reflexivity. Qed.

Lemma conversion_unsold_high (clicks views : Z) :
  high_interest clicks views ->
  calculate_conversion_signal false clicks views
  = Ok (W_conversion * (1 + bonus_high_interest)).
Proof.
  intros [Hv Hc]. unfold calculate_conversion_signal.
  rewrite getitem_conversion. cbn [bind].
  destruct (Z.gtb_spec views 0) as [_|?]; [|lia].
  rewrite truediv_ok by lia. cbn [bind].
  apply Qle_bool_iff in Hc. rewrite Hc. reflexivity.
Qed.

Lemma conversion_unsold_plain (clicks views : Z) :
  ~ high_interest clicks views ->
  calculate_conversion_signal false clicks views = Ok W_conversion.
Proof.
  intros Hn. unfold calculate_conversion_signal.
  rewrite getitem_conversion. cbn [bind].
  destruct (Z.gtb_spec views 0) as [Hv|?]; [|reflexivity].
  rewrite truediv_ok by lia. cbn [bind].
  destruct (Qle_bool HIGH_INTEREST_THRESHOLD (ctr_of clicks views)) eqn:E;
    [|reflexivity].
  exfalso. apply Hn. split; [lia | now apply Qle_bool_iff].
Qed.

Lemma high_interest_dec (clicks views : Z) :
  high_interest clicks views \/ ~ high_interest clicks views.
Proof.
  unfold high_interest.
  destruct (Z.ltb_spec 0 views) as [Hv|Hv]; [|right; intros [? _]; lia].
  destruct (Qle_bool HIGH_INTEREST_THRESHOLD (ctr_of clicks views)) eqn:E.
  - left. split; [exact Hv | now apply Qle_bool_iff].
  - right. intros [_ H]. apply Qle_bool_iff in H. congruence.
Qed.

Lemma conversion_returns (is_sold : bool) (clicks views : Z) :
  exists s, calculate_conversion_signal is_sold clicks views = Ok s
            /\ 15 <= s /\ s <= 16.5.
Proof.
  destruct is_sold.
  - rewrite conversion_sold. eexists; split; [reflexivity|].
    split; unfold Qle; simpl; lia.
  - destruct (high_interest_dec clicks views) as [H|H].
    + rewrite (conversion_unsold_high _ _ H). eexists; split; [reflexivity|].
      split; unfold Qle; simpl; lia.
    + rewrite (conversion_unsold_plain _ _ H). eexists; split; [reflexivity|].
      split; unfold Qle; simpl; lia.
Qed.

(* ====================================================================== *)
(** ** Price competitiveness *)
(* ====================================================================== *)

Lemma all_prices_served (db : Session) (category : string) :
  refuses db SelectPrice [CategoryEq category; IsSoldEq false] = false ->
  all_prices (price_query db category)
  = Ok (map mkRow1 (comparable_prices db category)).
Proof.
  intro H. unfold all_prices, all, price_query, comparable_prices. simpl. rewrite H.
  cbn [bind ret]. rewrite map_map. unfold ret. do 2 f_equal.
  apply filter_ext. intro d. destruct (Domain.is_sold d); simpl;
    now rewrite ?andb_true_r, ?andb_false_r.
Qed.

Lemma all_prices_refused (db : Session) (category : string) :
  refuses db SelectPrice [CategoryEq category; IsSoldEq false] = true ->
  all_prices (price_query db category) = Raise SQLAlchemyError.
Proof.
  intro H. unfold all_prices, all, price_query. simpl. now rewrite H.
Qed.

Lemma price_competitiveness_served (db : Session) (category : string) (price : Q) :
  refuses db SelectPrice [CategoryEq category; IsSoldEq false] = false ->
  calculate_price_competitiveness price category db
  = Ok (match comparable_prices db category with
        | [] => 25 * 0.5
        | x :: rest =>
            let mn := fold_left min2 rest x in
            let mx := fold_left max2 rest x in
            if Qeq_bool mn mx then 25 * 0.5 else percentile_credit price mn mx
        end).
Proof.
  intro H. unfold calculate_price_competitiveness, price_competitiveness_body.
  fold (price_query db category). rewrite (all_prices_served _ _ H). cbn [bind].
  destruct (comparable_prices db category) as [|x rest]; [reflexivity|].
  cbn [map orb List.length Nat.eqb]. rewrite map_map. cbn [item0].
  rewrite map_id. cbn [py_min py_max bind].
  destruct (Qeq_bool (fold_left min2 rest x) (fold_left max2 rest x)) eqn:E;
    [reflexivity|].
  unfold fdiv.
  destruct (Qeq_bool (fold_left max2 rest x - fold_left min2 rest x) 0) eqn:E0;
    [|reflexivity].
  exfalso. apply Qeq_bool_iff in E0. apply Qeq_bool_neq in E. apply E. lra.
Qed.

Lemma price_competitiveness_refused (db : Session) (category : string) (price : Q) :
  refuses db SelectPrice [CategoryEq category; IsSoldEq false] = true ->
  calculate_price_competitiveness price category db = Ok (W_price * 0.5).
Proof.
  intro H. unfold calculate_price_competitiveness, price_competitiveness_body.
  fold (price_query db category). rewrite (all_prices_refused _ _ H). reflexivity.
Qed.

Lemma price_competitiveness_recovers
    (db : Session) (category : string) (price : Q) (e : exn) :
  price_competitiveness_body price category db = Raise e ->
  calculate_price_competitiveness price category db = Ok (W_price * 0.5).
Proof.
  intro H. unfold calculate_price_competitiveness. rewrite H. reflexivity.
Qed.

Lemma clamp_agrees (t t' : Q) :
  t == t' -> max2 0 (min2 t 1.0) == clamp t' 0 1.
Proof.
  intro E. unfold clamp.
  destruct (min2_cases t 1.0) as [[H1 ->]|[H1 ->]];
    destruct (Q.min_spec t' 1) as [[H2 E2]|[H2 E2]];
    destruct (Q.max_spec 0 (Qmin t' 1)) as [[H3 E3]|[H3 E3]];
    rewrite E3; rewrite E2 in *;
    match goal with
    | |- max2 ?a ?b == _ =>
        destruct (max2_cases a b) as [[H4 ->]|[H4 ->]]
    end; lra.
Qed.

Lemma percentile_credit_bounds (p mn mx : Q) :
  0 <= percentile_credit p mn mx /\ percentile_credit p mn mx <= W_price.
Proof.
  unfold percentile_credit. change W_price with 25.
  set (t := 1.0 - (p - mn) / (mx - mn)).
  destruct (min2_cases t 1.0) as [[H1 ->]|[H1 ->]];
    match goal with
    | |- context [max2 ?a ?b] =>
        destruct (max2_cases a b) as [[H4 ->]|[H4 ->]]
    end; split; lra.
Qed.

Lemma percentile_credit_antitone (p1 p2 mn mx : Q) :
  mn < mx -> p1 <= p2 ->
  percentile_credit p2 mn mx <= percentile_credit p1 mn mx.
Proof.
  intros Hr Hp. unfold percentile_credit. change W_price with 25.
  assert (Hd : (p1 - mn) / (mx - mn) <= (p2 - mn) / (mx - mn)).
  { unfold Qdiv. apply Qmult_le_compat_r; [lra|].
    apply Qlt_le_weak, Qinv_lt_0_compat. lra. }
  set (t1 := (p1 - mn) / (mx - mn)) in *.
  set (t2 := (p2 - mn) / (mx - mn)) in *.
  destruct (min2_cases (1.0 - t1) 1.0) as [[H1 ->]|[H1 ->]];
    destruct (min2_cases (1.0 - t2) 1.0) as [[H2 ->]|[H2 ->]];
    repeat match goal with
    | |- context [max2 ?a ?b] =>
        destruct (max2_cases a b) as [[? ->]|[? ->]]
    end; lra.
Qed.

Lemma percentile_credit_proper (p p' mn mn' mx mx' : Q) :
  p == p' -> mn == mn' -> mx == mx' ->
  percentile_credit p mn mx == W_price * clamp (1 - (p' - mn') / (mx' - mn')) 0 1.
Proof.
  intros Ep En Ex. unfold percentile_credit.
  rewrite (clamp_agrees (1.0 - (p - mn) / (mx - mn)) (1 - (p' - mn') / (mx' - mn'))).
  - reflexivity.
  - rewrite Ep, En, Ex. lra.
Qed.

Lemma percentile_credit_cheapest (mn mx : Q) :
  ~ mn == mx -> W_price * clamp (1 - (mn - mn) / (mx - mn)) 0 1 == W_price.
Proof.
  intro Hne.
  assert (E : (mn - mn) / (mx - mn) == 0).
  { unfold Qdiv. setoid_replace (mn - mn) with 0 by ring. ring. }
  unfold clamp. rewrite E.
  reflexivity.
Qed.

Lemma percentile_credit_dearest (mn mx : Q) :
  ~ mn == mx -> W_price * clamp (1 - (mx - mn) / (mx - mn)) 0 1 == 0.
Proof.
  intro Hne.
  assert (E : (mx - mn) / (mx - mn) == 1).
  { unfold Qdiv. apply Qmult_inv_r. intro H. apply Hne. lra. }
  unfold clamp. rewrite E. reflexivity.
Qed.

Lemma price_competitiveness_returns (db : Session) (category : string) (price : Q) :
  exists s, calculate_price_competitiveness price category db = Ok s
            /\ 0 <= s /\ s <= 25.
Proof.
  destruct (refuses db SelectPrice [CategoryEq category; IsSoldEq false]) eqn:R.
  - rewrite (price_competitiveness_refused _ _ _ R). eexists; split; [reflexivity|].
    split; unfold Qle; simpl; lia.
  - rewrite (price_competitiveness_served _ _ _ R). eexists; split; [reflexivity|].
    destruct (comparable_prices db category) as [|x rest];
      [split; unfold Qle; simpl; lia|].
    cbv zeta.
    destruct (Qeq_bool (fold_left min2 rest x) (fold_left max2 rest x));
      [split; unfold Qle; simpl; lia|].
    apply percentile_credit_bounds.
Qed.

(** What the scorer returns once the snapshot has two distinct bounds. *)
Lemma price_competitiveness_ranged
    (db : Session) (category : string) (mn mx : Q) :
  refuses db SelectPrice [CategoryEq category; IsSoldEq false] = false ->
  lowest mn (comparable_prices db category) ->
  highest mx (comparable_prices db category) ->
  ~ mn == mx ->
  exists m m',
    m == mn /\ m' == mx
    /\ forall price,
         calculate_price_competitiveness price category db
         = Ok (percentile_credit price m m').
Proof.
  intros R Hlo Hhi Hne.
  destruct (comparable_prices db category) as [|x rest] eqn:E.
  - destruct Hlo as [[p [[] _]] _].
  - cbv zeta.
    assert (Em : fold_left min2 rest x == mn).
    { apply (lowest_unique (x :: rest)); [now apply py_min_lowest | exact Hlo]. }
    assert (Ex : fold_left max2 rest x == mx).
    { apply (highest_unique (x :: rest)); [now apply py_max_highest | exact Hhi]. }
    destruct (Qeq_bool (fold_left min2 rest x) (fold_left max2 rest x)) eqn:B.
    + exfalso. apply Qeq_bool_iff in B. apply Hne. rewrite <- Em, <- Ex. exact B.
    + exists (fold_left min2 rest x), (fold_left max2 rest x).
      split; [exact Em|]. split; [exact Ex|].
      intro price. rewrite (price_competitiveness_served _ _ _ R), E.
      cbv zeta. rewrite B. reflexivity.
Qed.

(** C4: with the price statistics served, [calculate_price_competitiveness]
    returns [W_price * 0.5] when the category has no unsold listing or when
    the minimum and the maximum unsold price coincide; otherwise it returns
    [W_price * clamp (1 - (price - min) / (max - min)) 0 1], which does not
    increase with the price, is [W_price] at the minimum and [0] at the
    maximum. *)
Theorem calculate_price_competitiveness_spec (db : Session) (category : string) :
  refuses db SelectPrice [CategoryEq category; IsSoldEq false] = false ->
  (comparable_prices db category = [] ->
   forall price,
     calculate_price_competitiveness price category db = Ok (W_price * 0.5))
  /\ (forall mn mx,
         lowest mn (comparable_prices db category) ->
         highest mx (comparable_prices db category) ->
         (mn == mx ->
          forall price,
            calculate_price_competitiveness price category db = Ok (W_price * 0.5))
         /\ (~ mn == mx ->
             (forall price,
                 exists s,
                   calculate_price_competitiveness price category db = Ok s
                   /\ s == W_price * clamp (1 - (price - mn) / (mx - mn)) 0 1)
             /\ (forall p1 p2 s1 s2,
                    p1 < p2 ->
                    calculate_price_competitiveness p1 category db = Ok s1 ->
                    calculate_price_competitiveness p2 category db = Ok s2 ->
                    s2 <= s1)
             /\ (forall price s,
                    price == mn ->
                    calculate_price_competitiveness price category db = Ok s ->
                    s == W_price)
             /\ (forall price s,
                    price == mx ->
                    calculate_price_competitiveness price category db = Ok s ->
                    s == 0))).
Proof.
  intro R. split.
  - intros E price. rewrite (price_competitiveness_served _ _ _ R), E. reflexivity.
  - intros mn mx Hlo Hhi. split.
    + intros Heq price. rewrite (price_competitiveness_served _ _ _ R).
      destruct (comparable_prices db category) as [|x rest]; [reflexivity|].
      cbv zeta.
      assert (Em : fold_left min2 rest x == mn).
      { apply (lowest_unique (x :: rest)); [now apply py_min_lowest | exact Hlo]. }
      assert (Ex : fold_left max2 rest x == mx).
      { apply (highest_unique (x :: rest)); [now apply py_max_highest | exact Hhi]. }
      assert (B : Qeq_bool (fold_left min2 rest x) (fold_left max2 rest x) = true).
      { apply Qeq_bool_iff. rewrite Em, Ex. exact Heq. }
      rewrite B. reflexivity.
    + intro Hne.
      assert (Hlt : mn < mx).
      { pose proof (lowest_le_highest _ _ _ Hlo Hhi) as Hle.
        apply Qle_lteq in Hle. destruct Hle; [assumption | contradiction]. }
      destruct (price_competitiveness_ranged db category mn mx R Hlo Hhi Hne)
        as [m [m' [Em [Ex Hcalc]]]].
      assert (Hlt' : m < m') by (rewrite Em, Ex; exact Hlt).
      split; [|split; [|split]].
      * intro price. rewrite Hcalc.
        eexists; split; [reflexivity|].
        apply percentile_credit_proper; [reflexivity | exact Em | exact Ex].
      * intros p1 p2 s1 s2 Hp H1 H2.
        rewrite Hcalc in H1, H2. injection H1 as <-. injection H2 as <-.
        apply percentile_credit_antitone; [exact Hlt' | now apply Qlt_le_weak].
      * intros price s Hp H. rewrite Hcalc in H. injection H as <-.
        rewrite (percentile_credit_proper price mn m mn m' mx Hp Em Ex).
        now apply percentile_credit_cheapest.
      * intros price s Hp H. rewrite Hcalc in H. injection H as <-.
        rewrite (percentile_credit_proper price mx m mn m' mx Hp Em Ex).
        now apply percentile_credit_dearest.
Qed.

(* ====================================================================== *)
(** ** Sorting, slicing and filtering *)
(* ====================================================================== *)

Lemma insert_desc_perm {A : Type} (key : A -> Q) (x : A) (l : list A) :
  Permutation (insert_desc key x l) (x :: l).
Proof.
  induction l as [|y l IH]; simpl; [reflexivity|].
  destruct (Qle_bool (key y) (key x)); [reflexivity|].
  rewrite IH. apply perm_swap.
Qed.

Lemma sort_desc_perm {A : Type} (key : A -> Q) (l : list A) :
  Permutation (sort_desc key l) l.
Proof.
  induction l as [|x l IH]; simpl; [reflexivity|].
  rewrite insert_desc_perm. now constructor.
Qed.

Lemma insert_desc_sorted {A : Type} (key : A -> Q) (x : A) (l : list A) :
  StronglySorted (fun a b => key b <= key a) l ->
  StronglySorted (fun a b => key b <= key a) (insert_desc key x l).
Proof.
  induction 1 as [|y l Hs IH Hy]; simpl.
  - constructor; constructor.
  - destruct (Qle_bool (key y) (key x)) eqn:E.
    + apply Qle_bool_iff in E.
      constructor; [now constructor|].
      constructor; [exact E|].
      eapply Forall_impl; [|exact Hy]. cbv beta. intros z Hz. lra.
    + apply Qle_bool_false_iff in E.
      constructor; [exact IH|].
      apply (Permutation_Forall (Permutation_sym (insert_desc_perm key x l))).
      constructor; [now apply Qlt_le_weak | exact Hy].
Qed.

Lemma sort_desc_sorted {A : Type} (key : A -> Q) (l : list A) :
  StronglySorted (fun a b => key b <= key a) (sort_desc key l).
Proof.
  induction l as [|x l IH]; simpl; [constructor | now apply insert_desc_sorted].
Qed.

Lemma firstn_subset {A : Type} (n : nat) (l : list A) (y : A) :
  In y (firstn n l) -> In y l.
Proof.
  intro H. rewrite <- (firstn_skipn n l). apply in_or_app. now left.
Qed.

Lemma firstn_sorted {A : Type} (R : A -> A -> Prop) (n : nat) (l : list A) :
  StronglySorted R l -> StronglySorted R (firstn n l).
Proof.
  intro H. revert n. induction H as [|x l Hs IH Hx]; intro n.
  - rewrite firstn_nil. constructor.
  - destruct n as [|n]; simpl; [constructor|].
    constructor; [apply IH|].
    apply Forall_forall. intros y Hy.
    apply (proj1 (Forall_forall _ _) Hx). exact (firstn_subset _ _ _ Hy).
Qed.

Lemma firstn_Forall {A : Type} (P : A -> Prop) (n : nat) (l : list A) :
  Forall P l -> Forall P (firstn n l).
Proof.
  intro H. apply Forall_forall. intros y Hy.
  apply (proj1 (Forall_forall _ _) H). exact (firstn_subset _ _ _ Hy).
Qed.

Lemma slice_to_length {A : Type} (l : list A) (stop : Z) :
  (0 <= stop)%Z -> (Z.of_nat (List.length (slice_to l stop)) <= stop)%Z.
Proof.
  intro H. unfold slice_to. destruct (Z.ltb_spec stop 0); [lia|].
  pose proof (firstn_le_length (Z.to_nat stop) l).
  pose proof (length_firstn (Z.to_nat stop) l). lia.
Qed.

Lemma slice_to_firstn {A : Type} (l : list A) (stop : Z) :
  exists n, slice_to l stop = firstn n l.
Proof.
  unfold slice_to. destruct (stop <? 0)%Z; eauto.
Qed.

Lemma satisfies_listing_criteria
    (price_min price_max : option Q) (category_filter : option string) (d : Domain.t) :
  forallb (satisfies d) (listing_criteria price_min price_max category_filter) = true ->
  Domain.is_sold d = false
  /\ (forall p, price_min = Some p -> p <= Domain.price d)
  /\ (forall p, price_max = Some p -> Domain.price d <= p)
  /\ (forall c, category_filter = Some c -> Domain.category d = c).
Proof.
  unfold listing_criteria. rewrite !forallb_app. rewrite !andb_true_iff.
  intros (Hs & Hmin & Hmax & Hcat). repeat split.
  - simpl in Hs. destruct (Domain.is_sold d); [discriminate | reflexivity].
  - intros p ->. simpl in Hmin. rewrite andb_true_r in Hmin. now apply Qle_bool_iff.
  - intros p ->. simpl in Hmax. rewrite andb_true_r in Hmax. now apply Qle_bool_iff.
  - intros c ->. simpl in Hcat. rewrite andb_true_r in Hcat. now apply String.eqb_eq.
Qed.

Lemma Forall2_eligible
    (db : Session) (price_min price_max : option Q) (category_filter : option string)
    (domains : list Domain.t) (ranked : list Entry.t) :
  Forall (fun d => In d (rows db)
                   /\ forallb (satisfies d)
                        (listing_criteria price_min price_max category_filter) = true)
         domains ->
  Forall2 entry_of domains ranked ->
  Forall (eligible db price_min price_max category_filter) ranked.
Proof.
  intros Hd H2. induction H2 as [|d e domains ranked He _ IH]; [constructor|].
  inversion Hd as [|? ? [Hin Hsat] Hrest]; subst.
  constructor; [|now apply IH].
  destruct (satisfies_listing_criteria _ _ _ _ Hsat) as (Hs & Hmin & Hmax & Hcat).
  pose proof He as (_ & _ & Ec & Ep & _).
  unfold eligible. rewrite Ec, Ep. repeat split; eauto.
Qed.

Lemma displayed_ctr_returns (d : Domain.t) :
  (if (Domain.views d >? 0)%Z
   then truediv (Domain.clicks d) (Domain.views d)
   else ret 0) = Ok (displayed_ctr d).
Proof.
  unfold displayed_ctr. destruct (Z.gtb_spec (Domain.views d) 0) as [H|H];
    [apply truediv_ok; lia | reflexivity].
Qed.

(* ====================================================================== *)
(** ** The rank engine *)
(* ====================================================================== *)

Section EngineFacts.

Variable float_repr : Q -> string.

(** [rank_domain] once its four components are known. *)
Lemma rank_domain_assembled
    (d : Domain.t) (db : Session) (stats : option (dict PyAny)) (k e p c : Q) :
  calculate_keyword_relevance (Domain.keyword_score d) = Ok k ->
  calculate_engagement (Domain.views d) (Domain.clicks d) = Ok e ->
  calculate_price_competitiveness (Domain.price d) (Domain.category d) db = Ok p ->
  calculate_conversion_signal (Domain.is_sold d) (Domain.clicks d) (Domain.views d)
  = Ok c ->
  rank_domain float_repr d db stats
  = Ok (mkRanking
          (py_round (min2 100 ((k + e + p + c) / max_possible * 100)) 2)
          (mkScores (py_round k 2) (py_round e 2) (py_round p 2) (py_round c 2))
          (expected_explanation float_repr d)).
Proof.
  intros Hk He Hp Hc. unfold rank_domain.
  rewrite Hk, He, Hp, Hc. cbn [bind].
  rewrite getitem_conversion. cbn [bind].
  change (py_max (values BONUSES)) with (Ok 0.10). cbn [bind].
  unfold fdiv.
  change (Qeq_bool (py_sum (values WEIGHTS) + 15 * 0.10) 0) with false.
  cbn [bind]. rewrite displayed_ctr_returns. cbn [bind]. unfold ret.
  f_equal. f_equal.
  unfold expected_explanation, strong_part, high_part, moderate_part, proven_part.
  destruct (Qle_bool 80 (Domain.keyword_score d));
    destruct (Qle_bool HIGH_INTEREST_THRESHOLD (displayed_ctr d));
    destruct (Qle_bool CTR_THRESHOLD (displayed_ctr d));
    destruct (Domain.is_sold d); reflexivity.
Qed.

Lemma rank_domain_returns
    (d : Domain.t) (db : Session) (stats : option (dict PyAny)) :
  (0 <= Domain.views d)%Z -> (0 <= Domain.clicks d)%Z ->
  exists k e p c,
    (0 <= k /\ k <= 30) /\ (0 <= e /\ e <= 25)
    /\ (0 <= p /\ p <= 25) /\ (15 <= c /\ c <= 16.5)
    /\ rank_domain float_repr d db stats
       = Ok (mkRanking
               (py_round (min2 100 ((k + e + p + c) / max_possible * 100)) 2)
               (mkScores (py_round k 2) (py_round e 2) (py_round p 2) (py_round c 2))
               (expected_explanation float_repr d)).
Proof.
  intros Hv Hcl.
  destruct (keyword_relevance_returns (Domain.keyword_score d)) as [k [Hk Bk]].
  destruct (engagement_returns _ _ Hv Hcl) as [e [He Be]].
  destruct (price_competitiveness_returns db (Domain.category d) (Domain.price d))
    as [p [Hp Bp]].
  destruct (conversion_returns (Domain.is_sold d) (Domain.clicks d) (Domain.views d))
    as [c [Hc Bc]].
  exists k, e, p, c. repeat (split; [tauto|]).
  now apply rank_domain_assembled.
Qed.

(** C3: for every structurally valid listing and every state of the
    session, [rank_domain] returns a result whose [total_score] lies in
    [0, 100]. *)
Theorem rank_domain_total_score_range
    (d : Domain.t) (db : Session) (stats : option (dict PyAny)) :
  structurally_valid d ->
  exists r, rank_domain float_repr d db stats = Ok r
            /\ 0 <= total_score r /\ total_score r <= 100.
Proof.
  intros (_ & _ & _ & Hv & Hc).
  destruct (rank_domain_returns d db stats Hv Hc)
    as (k & e & p & c & Bk & Be & Bp & Bc & ->).
  eexists; split; [reflexivity|]. cbn [total_score].
  apply (py_round_between _ 2 0 100).
  - destruct (min2_cases 100 ((k + e + p + c) / max_possible * 100)) as [[_ ->]|[_ ->]];
      [|unfold Qle; simpl; lia].
    unfold Qdiv. change (/ max_possible) with (100 # 9650). change (inject_Z 0) with 0. lra.
  - destruct (min2_cases 100 ((k + e + p + c) / max_possible * 100)) as [[H ->]|[_ ->]];
      [|unfold Qle; simpl; lia].
    change (inject_Z 100) with 100. lra.
Qed.

Lemma rank_domain_shape
    (d : Domain.t) (db : Session) (stats : option (dict PyAny)) :
  exists k e p c,
    calculate_keyword_relevance (Domain.keyword_score d) = Ok k
    /\ calculate_engagement (Domain.views d) (Domain.clicks d) = Ok e
    /\ calculate_price_competitiveness (Domain.price d) (Domain.category d) db = Ok p
    /\ calculate_conversion_signal
         (Domain.is_sold d) (Domain.clicks d) (Domain.views d) = Ok c
    /\ rank_domain float_repr d db stats
       = Ok (mkRanking
               (py_round (min2 100 ((k + e + p + c) / max_possible * 100)) 2)
               (mkScores (py_round k 2) (py_round e 2) (py_round p 2) (py_round c 2))
               (expected_explanation float_repr d)).
Proof.
  destruct (keyword_relevance_returns (Domain.keyword_score d)) as [k [Hk _]].
  destruct (engagement_never_raises (Domain.views d) (Domain.clicks d)) as [e He].
  destruct (price_competitiveness_returns db (Domain.category d) (Domain.price d))
    as [p [Hp _]].
  destruct (conversion_returns (Domain.is_sold d) (Domain.clicks d) (Domain.views d))
    as [c [Hc _]].
  exists k, e, p, c. repeat (split; [assumption|]).
  now apply rank_domain_assembled.
Qed.

(** C8: a refused price statement, and any other exception raised inside
    the [try] block, makes [calculate_price_competitiveness] return the
    neutral [W_price * 0.5]; and [rank_domain] returns a result for every
    listing and every state of the session. *)
Theorem price_faults_are_absorbed :
  (forall db category price,
      refuses db SelectPrice [CategoryEq category; IsSoldEq false] = true ->
      calculate_price_competitiveness price category db = Ok (W_price * 0.5))
  /\ (forall db category price e,
         price_competitiveness_body price category db = Raise e ->
         calculate_price_competitiveness price category db = Ok (W_price * 0.5))
  /\ (forall d db stats, exists r, rank_domain float_repr d db stats = Ok r).
Proof.
  split; [|split].
  - intros db category price. apply price_competitiveness_refused.
  - intros db category price e. apply price_competitiveness_recovers.
  - intros d db stats.
    destruct (rank_domain_shape d db stats) as (k & e & p & c & _ & _ & _ & _ & ->).
    eauto.
Qed.

(** C10: [rank_domain] returns the same result whatever [category_stats]
    it is given, [None] included. *)
Theorem rank_domain_ignores_category_stats
    (d : Domain.t) (db : Session) (stats stats' : option (dict PyAny)) :
  rank_domain float_repr d db stats = rank_domain float_repr d db stats'.
Proof.
  destruct (rank_domain_shape d db stats) as (k & e & p & c & Hk & He & Hp & Hc & ->).
  symmetry. now apply rank_domain_assembled.
Qed.

(** C6, as the code has it: in scenario 1 the four components are
    [W_keyword], [W_engagement], [W_price] and
    [W_conversion * (1 + bonus_high_interest)], which is under the cap
    [W_conversion * 1.2], and the normalised [total_score] is 99.69: the raw
    total 96.2 over the ceiling 96.5, which counts the larger, sold bonus. *)
Theorem rank_domain_scenario1
    (d : Domain.t) (db : Session) (stats : option (dict PyAny)) (mx : Q) :
  scenario1 d db mx ->
  exists r,
    rank_domain float_repr d db stats = Ok r
    /\ keyword_relevance (scores r) == W_keyword
    /\ engagement (scores r) == W_engagement
    /\ price_competitiveness (scores r) == W_price
    /\ conversion_signal (scores r) == W_conversion * (1 + bonus_high_interest)
    /\ conversion_signal (scores r) <= W_conversion * 1.2
    /\ total_score r == 99.69.
Proof.
  intros (Hks & Hv & Hc & Hs & R & Hlo & Hhi & Hne).
  destruct (price_competitiveness_ranged db _ _ _ R Hlo Hhi Hne)
    as (m & m' & Em & Ex & Hcalc).
  pose proof (calculate_keyword_relevance_value (Domain.keyword_score d)) as Hk.
  assert (He : calculate_engagement (Domain.views d) (Domain.clicks d) = Ok 25)
    by (rewrite Hv, Hc; reflexivity).
  assert (Hcv : calculate_conversion_signal
                  (Domain.is_sold d) (Domain.clicks d) (Domain.views d)
                = Ok (W_conversion * (1 + bonus_high_interest)))
    by (rewrite Hv, Hc, Hs; reflexivity).
  rewrite (rank_domain_assembled d db stats _ _ _ _ Hk He (Hcalc (Domain.price d)) Hcv).
  assert (Ek : max2 0 (min2 (Domain.keyword_score d / 100.0 * 30) 30) == 30).
  { unfold Qdiv. change (/ 100.0) with (10 # 1000).
    destruct (min2_cases (Domain.keyword_score d * (10 # 1000) * 30) 30) as [[H1 ->]|[H1 ->]];
      match goal with
      | |- max2 ?a ?b == _ => destruct (max2_cases a b) as [[H2 ->]|[H2 ->]]
      end; lra. }
  assert (Ep : percentile_credit (Domain.price d) m m' == 25).
  { rewrite (percentile_credit_proper _ (Domain.price d) m (Domain.price d) m' mx);
      [now apply percentile_credit_cheapest | reflexivity | exact Em | exact Ex]. }
  eexists; split; [reflexivity|]. cbn [scores keyword_relevance engagement
    price_competitiveness conversion_signal total_score].
  rewrite (py_round_comp _ 30 2 Ek), (py_round_comp _ 25 2 Ep).
  repeat (split; [vm_compute; (reflexivity || discriminate)|]).
  rewrite (py_round_comp _ ((30 + 25 + 25 + W_conversion * (1 + bonus_high_interest))
                             / max_possible * 100) 2).
  - vm_compute; reflexivity.
  - apply min2_below.
    + rewrite Ek, Ep. reflexivity.
    + vm_compute; discriminate.
Qed.

(* ====================================================================== *)
(** ** The recommendation query *)
(* ====================================================================== *)

Lemma rank_each_returns (db : Session) (domains : list Domain.t) (ranked : list Entry.t) :
  exists tail,
    rank_each float_repr db domains ranked = Ok (ranked ++ tail)
    /\ Forall2 entry_of domains tail.
Proof.
  revert ranked. induction domains as [|d domains IH]; intro ranked.
  - exists []. simpl. rewrite app_nil_r. split; [reflexivity | constructor].
  - simpl.
    destruct (rank_domain_shape d db None) as (k & e & p & c & _ & _ & _ & _ & ->).
    cbn [bind].
    assert (Hctr : exists q,
               (if (Domain.views d >? 0)%Z
                then q <- truediv (Domain.clicks d) (Domain.views d) ;; ret (py_round q 4)
                else ret 0) = Ok q).
    { destruct (Z.gtb_spec (Domain.views d) 0) as [H|H]; [|eexists; reflexivity].
      rewrite truediv_ok by lia. eexists; reflexivity. }
    destruct Hctr as [q ->]. cbn [bind].
    match goal with
    | |- context [rank_each float_repr db domains (ranked ++ [?entry])] =>
        destruct (IH (ranked ++ [entry])) as [tail [-> Htail]];
        exists (entry :: tail)
    end.
    split.
    + rewrite <- app_assoc. reflexivity.
    + constructor; [|exact Htail]. repeat split.
Qed.

Lemma get_top_recommendations_query
    (db : Session) (limit : Z) (price_min price_max : option Q)
    (category_filter : option string) :
  get_top_recommendations float_repr db limit price_min price_max category_filter
  = (domains <- all (mkQuery db SelectDomain
                       (listing_criteria price_min price_max category_filter)) ;;
     ranked <- rank_each float_repr db domains [] ;;
     ret (slice_to (sort_desc (fun x => total_score (Entry.ranking x)) ranked) limit)).
Proof.
  unfold get_top_recommendations, listing_criteria.
  destruct price_min, price_max, category_filter; reflexivity.
Qed.

(** C1: with a limit of at least 1, whatever [get_top_recommendations]
    returns has at most [limit] entries, each built from an unsold listing
    of the table that passes the price and category filters supplied, in
    descending order of [total_score]; and it does return whenever the
    session serves the listing statement. *)
Theorem get_top_recommendations_sound
    (db : Session) (limit : Z) (price_min price_max : option Q)
    (category_filter : option string) :
  (1 <= limit)%Z ->
  (forall recs,
      get_top_recommendations float_repr db limit price_min price_max category_filter
      = Ok recs ->
      (Z.of_nat (List.length recs) <= limit)%Z
      /\ Forall (eligible db price_min price_max category_filter) recs
      /\ StronglySorted by_score_desc recs)
  /\ (refuses db SelectDomain (listing_criteria price_min price_max category_filter)
      = false ->
      exists recs,
        get_top_recommendations float_repr db limit price_min price_max category_filter
        = Ok recs).
Proof.
  intro Hlimit. rewrite get_top_recommendations_query. unfold all. cbn [bound_to entity criteria].
  destruct (refuses db SelectDomain (listing_criteria price_min price_max category_filter)).
  - split; [intros recs H; discriminate H | discriminate].
  - cbn [bind].
    match goal with
    | |- context [rank_each float_repr db ?ds []] =>
        destruct (rank_each_returns db ds []) as [ranked [-> H2]]
    end.
    cbn [bind app ret]. split; [|eauto].
    intros recs [= <-].
    split; [apply slice_to_length; lia|].
    destruct (slice_to_firstn
                (sort_desc (fun x => total_score (Entry.ranking x)) ranked) limit)
      as [n ->].
    split.
    + apply firstn_Forall.
      apply (Permutation_Forall (Permutation_sym (sort_desc_perm _ ranked))).
      eapply Forall2_eligible; [|exact H2].
      apply Forall_forall. intros d Hd. apply filter_In in Hd. exact Hd.
    + apply firstn_sorted. apply sort_desc_sorted.
Qed.

(** C9: [get_category_recommendations] returns what
    [get_top_recommendations] returns with the category as its filter, in
    every state of the session. *)
Theorem get_category_recommendations_is_top_filtered
    (db : Session) (category : string) (limit : Z) (price_min price_max : option Q) :
  get_category_recommendations float_repr db category limit price_min price_max
  = get_top_recommendations float_repr db limit price_min price_max (Some category).
Proof.
  unfold get_category_recommendations.
  destruct (get_top_recommendations float_repr db limit price_min price_max
              (Some category)) as [recs|e]; reflexivity.
Qed.

End EngineFacts.

(* ====================================================================== *)
(** ** The conversion signal and the explanation in binary64 *)
(* ====================================================================== *)

(** The quotient of two ints is a float whenever the dividend fits an
    INTEGER column. *)
Lemma quotient_numerator (a b : Z) :
  b <> 0%Z -> Z.abs (Qnum (inject_Z a / inject_Z b)) = Z.abs a.
Proof.
  intro Hb. destruct b as [|p|p]; [contradiction| |];
    unfold Qdiv, Qmult, Qinv, inject_Z; cbn [Qnum Qden]; lia.
Qed.

Lemma log2_below (n : Z) : (0 <= n <= 2 ^ 63)%Z -> (Z.log2 n <= 63)%Z.
Proof.
  intros [H0 H]. destruct (Z.eq_dec n 0) as [->|Hn]; [simpl; lia|].
  assert (Z.log2 n < 64)%Z by (apply Z.log2_lt_pow2; lia). lia.
Qed.

Lemma nearest_returns (a b : Z) :
  fits_int64 a -> b <> 0%Z ->
  exists x, Binary64.nearest (inject_Z a / inject_Z b) = Some x.
Proof.
  intros Ha Hb. unfold Binary64.nearest.
  destruct (Qeq_bool (inject_Z a / inject_Z b) 0); [eexists; reflexivity|].
  cbv zeta. rewrite (quotient_numerator a b Hb).
  pose proof (log2_below (Z.abs a)) as Hl.
  pose proof (Z.log2_nonneg (Zpos (Qden (inject_Z a / inject_Z b)))) as Hd.
  assert (Hfit : (0 <= Z.abs a <= 2 ^ 63)%Z) by (unfold fits_int64 in Ha; lia).
  specialize (Hl Hfit).
  set (e0 := (Z.log2 (Z.abs a) - Z.log2 (Zpos (Qden (inject_Z a / inject_Z b))))%Z) in *.
  assert (He0 : (e0 <= 63)%Z) by (subst e0; lia).
  destruct (Qlt_bool (Qabs (inject_Z a / inject_Z b)) (Qpower 2 e0)).
  - destruct (Z.ltb_spec 971 (Z.max (e0 - 1 - 52) (-1074))); [lia|].
    destruct (Z.eqb_spec (Z.max (e0 - 1 - 52) (-1074)) 971); [lia|].
    eexists; reflexivity.
  - destruct (Z.ltb_spec 971 (Z.max (e0 - 52) (-1074))); [lia|].
    destruct (Z.eqb_spec (Z.max (e0 - 52) (-1074)) 971); [lia|].
    eexists; reflexivity.
Qed.

Lemma truediv_returns (a b : Z) :
  fits_int64 a -> b <> 0%Z -> exists q, Binary64.truediv a b = Ok q.
Proof.
  intros Ha Hb. unfold Binary64.truediv.
  destruct (Z.eqb_spec b 0); [contradiction|].
  destruct (a =? 0)%Z; [eexists; reflexivity|].
  destruct (nearest_returns a b Ha Hb) as [x ->]. eexists; reflexivity.
Qed.

Lemma Ok_injective {A : Type} (a b : A) : Ok a = Ok b -> a = b.
Proof. intro H. now injection H. Qed.

Lemma binary64_getitem_conversion :
  Binary64.getitem WEIGHTS "conversion_signal" = Ok Binary64.W_conversion.
Proof. vm_compute. reflexivity. Qed.

Lemma binary64_getitem_sold :
  Binary64.getitem BONUSES "sold" = Ok Binary64.bonus_sold.
Proof. vm_compute. reflexivity. Qed.

Lemma binary64_getitem_high_interest :
  Binary64.getitem BONUSES "high_interest" = Ok Binary64.bonus_high_interest.
Proof. vm_compute. reflexivity. Qed.

Lemma binary64_conversion_sold (clicks views : Z) :
  Binary64.calculate_conversion_signal true clicks views
  = Ok (Binary64.W_conversion * (1 + Binary64.bonus_sold))%float.
Proof.
  unfold Binary64.calculate_conversion_signal.
  rewrite binary64_getitem_conversion. cbn [bind].
  rewrite binary64_getitem_sold. cbn [bind]. unfold ret.
  vm_compute. reflexivity.
Qed.

Lemma binary64_conversion_measured (clicks views : Z) (ctr : float) :
  (0 < views)%Z ->
  Binary64.truediv clicks views = Ok ctr ->
  Binary64.calculate_conversion_signal false clicks views
  = Ok (if (Binary64.HIGH_INTEREST_THRESHOLD <=? ctr)%float
        then (Binary64.W_conversion * (1 + Binary64.bonus_high_interest))%float
        else Binary64.W_conversion).
Proof.
  intros Hv E. unfold Binary64.calculate_conversion_signal.
  rewrite binary64_getitem_conversion. cbn [bind].
  destruct (Z.gtb_spec views 0) as [_|H]; [|lia].
  rewrite E. cbn [bind].
  destruct (Binary64.HIGH_INTEREST_THRESHOLD <=? ctr)%float.
  - rewrite binary64_getitem_high_interest. cbn [bind]. unfold ret.
    vm_compute. reflexivity.
  - unfold ret. cbn [bind]. vm_compute. reflexivity.
Qed.

Lemma binary64_conversion_unviewed (clicks views : Z) :
  (views <= 0)%Z ->
  Binary64.calculate_conversion_signal false clicks views = Ok Binary64.W_conversion.
Proof.
  intro Hv. unfold Binary64.calculate_conversion_signal.
  rewrite binary64_getitem_conversion. cbn [bind].
  destruct (Z.gtb_spec views 0) as [H|_]; [lia|].
  unfold ret. cbn [bind]. vm_compute. reflexivity.
Qed.

Lemma binary64_conversion_raises (clicks views : Z) (e : exn) :
  (0 < views)%Z ->
  Binary64.truediv clicks views = Raise e ->
  Binary64.calculate_conversion_signal false clicks views = Raise e.
Proof.
  intros Hv E. unfold Binary64.calculate_conversion_signal.
  rewrite binary64_getitem_conversion. cbn [bind].
  destruct (Z.gtb_spec views 0) as [_|H]; [|lia].
  rewrite E. reflexivity.
Qed.

(** C5: as the interpreter computes it, [calculate_conversion_signal]
    returns [W_conversion * (1 + bonus_sold)] for a sold listing,
    [W_conversion * (1 + bonus_high_interest)] for an unsold listing with
    views whose quotient [clicks / views], rounded to a float, is at least
    the threshold 0.15, and exactly [W_conversion] otherwise; it returns
    for every count of clicks that an INTEGER column holds; the result
    never exceeds [W_conversion * 1.2]; and the value of a sold listing is
    at least the base weight, the value of an unsold listing without high
    interest. *)
Theorem calculate_conversion_signal_spec :
  (forall clicks views,
      Binary64.calculate_conversion_signal true clicks views
      = Ok (Binary64.W_conversion * (1 + Binary64.bonus_sold))%float)
  /\ (forall clicks views,
         Binary64.high_interest clicks views ->
         Binary64.calculate_conversion_signal false clicks views
         = Ok (Binary64.W_conversion * (1 + Binary64.bonus_high_interest))%float)
  /\ (forall clicks views,
         fits_int64 clicks ->
         ~ Binary64.high_interest clicks views ->
         Binary64.calculate_conversion_signal false clicks views
         = Ok Binary64.W_conversion)
  /\ (forall is_sold clicks views,
         fits_int64 clicks ->
         exists s, Binary64.calculate_conversion_signal is_sold clicks views = Ok s)
  /\ (forall is_sold clicks views s,
         Binary64.calculate_conversion_signal is_sold clicks views = Ok s ->
         (s <=? Binary64.W_conversion * Binary64.of_Q 1.2)%float = true)
  /\ (Binary64.W_conversion
      <=? Binary64.W_conversion * (1 + Binary64.bonus_sold))%float = true.
Proof.
  split; [exact binary64_conversion_sold|].
  split.
  { intros clicks views (Hv & ctr & E & H).
    rewrite (binary64_conversion_measured _ _ _ Hv E), H. reflexivity. }
  split.
  { intros clicks views Hfit Hn.
    destruct (Z_lt_le_dec 0 views) as [Hv|Hv];
      [|now apply binary64_conversion_unviewed].
    destruct (truediv_returns clicks views Hfit) as [ctr E]; [lia|].
    rewrite (binary64_conversion_measured _ _ _ Hv E).
    destruct (Binary64.HIGH_INTEREST_THRESHOLD <=? ctr)%float eqn:H; [|reflexivity].
    exfalso. apply Hn. split; [exact Hv|]. exists ctr. split; [exact E | exact H]. }
  split.
  { intros [|] clicks views Hfit.
    - eexists. apply binary64_conversion_sold.
    - destruct (Z_lt_le_dec 0 views) as [Hv|Hv].
      + destruct (truediv_returns clicks views Hfit) as [ctr E]; [lia|].
        eexists. exact (binary64_conversion_measured _ _ _ Hv E).
      + eexists. now apply binary64_conversion_unviewed. }
  split; [|vm_compute; reflexivity].
  intros [|] clicks views s E.
  - rewrite binary64_conversion_sold in E. apply Ok_injective in E. subst s. vm_compute. reflexivity.
  - destruct (Z_lt_le_dec 0 views) as [Hv|Hv].
    + destruct (Binary64.truediv clicks views) as [ctr|e] eqn:T.
      * rewrite (binary64_conversion_measured _ _ _ Hv T) in E. apply Ok_injective in E. subst s.
        destruct (Binary64.HIGH_INTEREST_THRESHOLD <=? ctr)%float;
          vm_compute; reflexivity.
      * rewrite (binary64_conversion_raises _ _ _ Hv T) in E. discriminate E.
    + rewrite (binary64_conversion_unviewed _ _ Hv) in E. apply Ok_injective in E. subst s.
      vm_compute. reflexivity.
Qed.

Lemma binary64_getitem_keyword :
  Binary64.getitem WEIGHTS "keyword_relevance" = Ok (Binary64.weight "keyword_relevance").
Proof. vm_compute. reflexivity. Qed.

Lemma binary64_getitem_engagement :
  Binary64.getitem WEIGHTS "engagement" = Ok (Binary64.weight "engagement").
Proof. vm_compute. reflexivity. Qed.

Lemma binary64_getitem_price :
  Binary64.getitem WEIGHTS "price_competitiveness"
  = Ok (Binary64.weight "price_competitiveness").
Proof. vm_compute. reflexivity. Qed.

Lemma binary64_top_bonus :
  Binary64.py_max (map Binary64.of_Q (values BONUSES)) = Ok Binary64.bonus_sold.
Proof. vm_compute. reflexivity. Qed.

Lemma binary64_fdiv (a b : float) :
  (b =? 0)%float = false -> Binary64.fdiv a b = Ok (a / b)%float.
Proof. intro H. unfold Binary64.fdiv. now rewrite H. Qed.

Lemma binary64_keyword_relevance_returns (x : float) :
  exists k, Binary64.calculate_keyword_relevance x = Ok k.
Proof.
  unfold Binary64.calculate_keyword_relevance.
  rewrite binary64_fdiv by (vm_compute; reflexivity). cbn [bind].
  rewrite binary64_getitem_keyword. cbn [bind]. eexists; reflexivity.
Qed.

Lemma binary64_engagement_returns (views clicks : Z) :
  fits_int64 clicks ->
  exists e, Binary64.calculate_engagement views clicks = Ok e.
Proof.
  intro Hfit. unfold Binary64.calculate_engagement.
  destruct (Z.eqb_spec views 0) as [_|Hv].
  - rewrite binary64_getitem_engagement. eexists; reflexivity.
  - destruct (truediv_returns clicks views Hfit Hv) as [ctr ->]. cbn [bind].
    destruct (Binary64.HIGH_INTEREST_THRESHOLD <=? ctr)%float;
      [rewrite binary64_getitem_engagement; eexists; reflexivity|].
    destruct (Binary64.CTR_THRESHOLD <=? ctr)%float.
    + rewrite binary64_fdiv by (vm_compute; reflexivity). cbn [bind].
      rewrite binary64_getitem_engagement. eexists; reflexivity.
    + rewrite binary64_getitem_engagement. cbn [bind].
      rewrite binary64_fdiv by (vm_compute; reflexivity). eexists; reflexivity.
Qed.

Lemma binary64_price_competitiveness_returns
    (price : float) (category : string) (db : Session) :
  exists p, Binary64.calculate_price_competitiveness price category db = Ok p.
Proof.
  unfold Binary64.calculate_price_competitiveness, try_except.
  destruct (Binary64.price_competitiveness_body price category db);
    [eexists; reflexivity|].
  rewrite binary64_getitem_price. eexists; reflexivity.
Qed.

Lemma binary64_conversion_returns (is_sold : bool) (clicks views : Z) :
  fits_int64 clicks ->
  exists s, Binary64.calculate_conversion_signal is_sold clicks views = Ok s.
Proof.
  intro Hfit. destruct is_sold.
  - eexists. apply binary64_conversion_sold.
  - destruct (Z_lt_le_dec 0 views) as [Hv|Hv].
    + destruct (truediv_returns clicks views Hfit) as [ctr E]; [lia|].
      eexists. exact (binary64_conversion_measured _ _ _ Hv E).
    + eexists. now apply binary64_conversion_unviewed.
Qed.

Section Binary64Facts.

Variable float_repr : float -> string.

(** [Binary64.rank_domain] once its components and the CTR of its
    explanation are known. *)
Lemma binary64_rank_domain_assembled
    (d : Domain.t) (db : Session) (stats : option (dict PyAny)) (k e p c : float) :
  Binary64.calculate_keyword_relevance (Binary64.of_Q (Domain.keyword_score d)) = Ok k ->
  Binary64.calculate_engagement (Domain.views d) (Domain.clicks d) = Ok e ->
  Binary64.calculate_price_competitiveness
    (Binary64.of_Q (Domain.price d)) (Domain.category d) db = Ok p ->
  Binary64.calculate_conversion_signal
    (Domain.is_sold d) (Domain.clicks d) (Domain.views d) = Ok c ->
  ((0 < Domain.views d)%Z ->
   exists ctr, Binary64.truediv (Domain.clicks d) (Domain.views d) = Ok ctr) ->
  exists scored,
    Binary64.rank_domain float_repr d db stats
    = Ok (Binary64.mkRanked scored (Binary64.expected_explanation float_repr d)).
Proof.
  intros Hk He Hp Hc Hctr. unfold Binary64.rank_domain. cbv zeta.
  rewrite Hk, He, Hp, Hc. cbn [bind].
  rewrite binary64_getitem_conversion. cbn [bind].
  rewrite binary64_top_bonus. cbn [bind].
  rewrite binary64_fdiv by (vm_compute; reflexivity). cbn [bind].
  unfold Binary64.expected_explanation, Binary64.strong_part, Binary64.high_part,
    Binary64.moderate_part, Binary64.proven_part, Binary64.displayed_ctr,
    Binary64.stored_keyword_score.
  destruct (Z.gtb_spec (Domain.views d) 0) as [Hv|Hv].
  - destruct (Hctr Hv) as [ctr ->]. cbn [bind]. unfold ret. eexists.
    destruct (80 <=? Binary64.of_Q (Domain.keyword_score d))%float;
      destruct (Binary64.HIGH_INTEREST_THRESHOLD <=? ctr)%float;
      destruct (Binary64.CTR_THRESHOLD <=? ctr)%float;
      destruct (Domain.is_sold d); reflexivity.
  - unfold ret. cbn [bind]. eexists.
    destruct (80 <=? Binary64.of_Q (Domain.keyword_score d))%float;
      destruct (Binary64.HIGH_INTEREST_THRESHOLD <=? 0)%float;
      destruct (Binary64.CTR_THRESHOLD <=? 0)%float;
      destruct (Domain.is_sold d); reflexivity.
Qed.

Lemma binary64_rank_domain_returns
    (d : Domain.t) (db : Session) (stats : option (dict PyAny)) :
  fits_int64 (Domain.clicks d) ->
  exists scored,
    Binary64.rank_domain float_repr d db stats
    = Ok (Binary64.mkRanked scored (Binary64.expected_explanation float_repr d)).
Proof.
  intro Hfit.
  destruct (binary64_keyword_relevance_returns
              (Binary64.of_Q (Domain.keyword_score d))) as [k Hk].
  destruct (binary64_engagement_returns (Domain.views d) (Domain.clicks d) Hfit)
    as [e He].
  destruct (binary64_price_competitiveness_returns
              (Binary64.of_Q (Domain.price d)) (Domain.category d) db) as [p Hp].
  destruct (binary64_conversion_returns
              (Domain.is_sold d) (Domain.clicks d) (Domain.views d) Hfit) as [c Hc].
  apply (binary64_rank_domain_assembled d db stats k e p c Hk He Hp Hc).
  intro Hv. apply truediv_returns; [exact Hfit | lia].
Qed.

Lemma binary64_rank_domain_inv
    (d : Domain.t) (db : Session) (stats : option (dict PyAny)) (r : Binary64.Ranked) :
  Binary64.rank_domain float_repr d db stats = Ok r ->
  Binary64.explanation r = Binary64.expected_explanation float_repr d.
Proof.
  intro H.
  destruct (binary64_keyword_relevance_returns
              (Binary64.of_Q (Domain.keyword_score d))) as [k Hk].
  destruct (binary64_price_competitiveness_returns
              (Binary64.of_Q (Domain.price d)) (Domain.category d) db) as [p Hp].
  destruct (Binary64.calculate_engagement (Domain.views d) (Domain.clicks d))
    as [e|ex] eqn:He;
    [|unfold Binary64.rank_domain in H; cbv zeta in H; rewrite Hk, He in H;
      discriminate H].
  destruct (Binary64.calculate_conversion_signal
              (Domain.is_sold d) (Domain.clicks d) (Domain.views d))
    as [c|ex] eqn:Hc;
    [|unfold Binary64.rank_domain in H; cbv zeta in H; rewrite Hk, He, Hp, Hc in H;
      discriminate H].
  destruct (binary64_rank_domain_assembled d db stats k e p c Hk He Hp Hc)
    as [scored E].
  - intro Hv.
    destruct (Binary64.truediv (Domain.clicks d) (Domain.views d)) as [ctr|ex] eqn:T;
      [eexists; reflexivity|].
    exfalso. unfold Binary64.calculate_engagement in He.
    destruct (Z.eqb_spec (Domain.views d) 0) as [Hz|_]; [lia|].
    rewrite T in He. discriminate He.
  - rewrite E in H. apply Ok_injective in H. subst r. reflexivity.
Qed.

Lemma binary64_expected_explanation_baseline (d : Domain.t) :
  Binary64.expected_explanation float_repr d = "Baseline domain"%string
  <-> Binary64.no_check_triggers d.
Proof.
  unfold Binary64.expected_explanation, Binary64.no_check_triggers,
    Binary64.strong_part, Binary64.high_part, Binary64.moderate_part,
    Binary64.proven_part.
  destruct (80 <=? Binary64.stored_keyword_score d)%float;
    destruct (Binary64.HIGH_INTEREST_THRESHOLD <=? Binary64.displayed_ctr d)%float;
    destruct (Binary64.CTR_THRESHOLD <=? Binary64.displayed_ctr d)%float;
    destruct (Domain.is_sold d);
    (split;
     [ cbn [String.append]; try discriminate; intros _; repeat split
     | intros (Hk & Hh & Hm & Hs); try discriminate; reflexivity ]).
Qed.

(** C7: as the interpreter computes it, the explanation of [rank_domain]
    follows the order of the checks: the strong-relevance part when the
    keyword score is at least 80; then the high-engagement part when the
    CTR, the rounded quotient, is at least 0.15, else the
    moderate-engagement part when it is at least 0.05, each with the CTR
    as a percentage printed to one decimal; then the proven-conversion
    part when the listing is sold; the parts are joined by ["; "], and the
    explanation is ["Baseline domain"] exactly when no check triggers.
    [rank_domain] returns for every count of clicks that an INTEGER column
    holds. *)
Theorem rank_domain_explanation
    (d : Domain.t) (db : Session) (stats : option (dict PyAny)) :
  (forall r,
      Binary64.rank_domain float_repr d db stats = Ok r ->
      Binary64.explanation r = Binary64.expected_explanation float_repr d
      /\ (Binary64.explanation r = "Baseline domain"%string
          <-> Binary64.no_check_triggers d))
  /\ (fits_int64 (Domain.clicks d) ->
      exists r, Binary64.rank_domain float_repr d db stats = Ok r).
Proof.
  split.
  - intros r H. pose proof (binary64_rank_domain_inv d db stats r H) as E.
    split; [exact E|]. rewrite E. apply binary64_expected_explanation_baseline.
  - intro Hfit.
    destruct (binary64_rank_domain_returns d db stats Hfit) as [scored E].
    eexists. exact E.
Qed.

End Binary64Facts.

(* ====================================================================== *)
(** ** The theorems at the sample listings *)
(* ====================================================================== *)

Lemma comparable_prices_tech : comparable_prices healthy "tech"%string = [100; 200].
Proof. reflexivity. Qed.

Lemma lowest_tech : lowest 100 (comparable_prices healthy "tech"%string).
Proof.
  rewrite comparable_prices_tech. split.
  - exists 100. split; [now left | reflexivity].
  - intros p [<-|[<-|[]]]; unfold Qle; simpl; lia.
Defined.

Lemma highest_tech : highest 200 (comparable_prices healthy "tech"%string).
Proof.
  rewrite comparable_prices_tech. split.
  - exists 200. split; [right; now left | reflexivity].
  - intros p [<-|[<-|[]]]; unfold Qle; simpl; lia.
Defined.

Lemma scenario1_alpha : scenario1 alpha healthy 200.
Proof.
  unfold scenario1. repeat split; try reflexivity.
  - exact (proj1 lowest_tech).
  - exact (proj2 lowest_tech).
  - exact (proj1 highest_tech).
  - exact (proj2 highest_tech).
  - simpl. unfold Qeq; simpl. lia.
Defined.

Lemma structurally_valid_alpha : structurally_valid alpha.
Proof.
  unfold structurally_valid; simpl. repeat split; try lia; unfold Qle, Qlt; simpl; lia.
Defined.

Lemma get_top_recommendations_sound_witness :
  (1 <= 2)%Z
  /\ exists recs,
       get_top_recommendations decimal_repr healthy 2 (Some 90) (Some 180) (Some "tech"%string)
       = Ok recs
       /\ (Z.of_nat (List.length recs) <= 2)%Z
       /\ Forall (eligible healthy (Some 90) (Some 180) (Some "tech"%string)) recs
       /\ StronglySorted by_score_desc recs.
Proof.
  assert (L : (1 <= 2)%Z) by lia.
  split; [exact L|].
  destruct (get_top_recommendations_sound
              decimal_repr healthy 2 (Some 90) (Some 180) (Some "tech"%string) L)
    as [Hsound Hreturns].
  destruct (Hreturns eq_refl) as [recs E].
  exists recs. split; [exact E | exact (Hsound recs E)].
Defined.

Lemma rank_domain_total_score_range_witness :
  structurally_valid alpha
  /\ exists r, rank_domain decimal_repr alpha healthy None = Ok r
               /\ 0 <= total_score r /\ total_score r <= 100.
Proof.
  split; [exact structurally_valid_alpha|].
  exact (rank_domain_total_score_range decimal_repr alpha healthy None
           structurally_valid_alpha).
Defined.

Lemma calculate_price_competitiveness_spec_witness :
  refuses healthy SelectPrice [CategoryEq "tech"%string; IsSoldEq false] = false
  /\ (exists s, calculate_price_competitiveness 150 "tech"%string healthy = Ok s
                /\ s == W_price * clamp (1 - (150 - 100) / (200 - 100)) 0 1)
  /\ (forall s, calculate_price_competitiveness 100 "tech"%string healthy = Ok s -> s == W_price)
  /\ (forall s, calculate_price_competitiveness 200 "tech"%string healthy = Ok s -> s == 0).
Proof.
  split; [reflexivity|].
  destruct (calculate_price_competitiveness_spec healthy "tech"%string eq_refl) as [_ H].
  destruct (H 100 200 lowest_tech highest_tech) as [_ Hranged].
  assert (Hne : ~ 100 == 200) by (unfold Qeq; simpl; lia).
  destruct (Hranged Hne) as (Hvalue & _ & Hcheap & Hdear).
  split; [exact (Hvalue 150)|].
  split; intros s Hs.
  - apply (Hcheap 100 s); [reflexivity | exact Hs].
  - apply (Hdear 200 s); [reflexivity | exact Hs].
Defined.

Lemma rank_domain_scenario1_witness :
  scenario1 alpha healthy 200
  /\ exists r,
       rank_domain decimal_repr alpha healthy None = Ok r
       /\ keyword_relevance (scores r) == W_keyword
       /\ engagement (scores r) == W_engagement
       /\ price_competitiveness (scores r) == W_price
       /\ conversion_signal (scores r) == W_conversion * (1 + bonus_high_interest)
       /\ conversion_signal (scores r) <= W_conversion * 1.2
       /\ total_score r == 99.69.
Proof.
  split; [exact scenario1_alpha|].
  exact (rank_domain_scenario1 decimal_repr alpha healthy None 200 scenario1_alpha).
Defined.

(** C6 as the spec words it fails in scenario 1 itself: the listing
    [alpha] is in scenario 1 and its [total_score] is 99.69, not 100. *)
Lemma scenario1_total_score_is_not_100 :
  scenario1 alpha healthy 200
  /\ exists r,
       rank_domain decimal_repr alpha healthy None = Ok r
       /\ total_score r = 99.69
       /\ ~ total_score r == 100.
Proof.
  split; [exact scenario1_alpha|].
  eexists. split; [vm_compute; reflexivity|].
  split; [reflexivity|]. unfold Qeq; simpl; lia.
Qed.

Lemma price_faults_are_absorbed_witness :
  refuses degraded SelectPrice [CategoryEq "tech"%string; IsSoldEq false] = true
  /\ calculate_price_competitiveness 100 "tech"%string degraded = Ok (W_price * 0.5)
  /\ exists r, rank_domain decimal_repr alpha degraded None = Ok r.
Proof.
  destruct (price_faults_are_absorbed decimal_repr) as (Hrefused & _ & Hreturns).
  split; [reflexivity|].
  split; [exact (Hrefused degraded "tech"%string 100 eq_refl)|].
  exact (Hreturns alpha degraded None).
Defined.

Lemma calculate_conversion_signal_spec_witness :
  ctr_of 14999999999999999 100000000000000000 < HIGH_INTEREST_THRESHOLD
  /\ Binary64.high_interest 14999999999999999 100000000000000000
  /\ Binary64.calculate_conversion_signal false 14999999999999999 100000000000000000
     = Ok (Binary64.W_conversion * (1 + Binary64.bonus_high_interest))%float
  /\ fits_int64 4
  /\ ~ Binary64.high_interest 4 100
  /\ Binary64.calculate_conversion_signal false 4 100 = Ok Binary64.W_conversion.
Proof.
  assert (H1 : Binary64.high_interest 14999999999999999 100000000000000000).
  { split; [lia|]. eexists. split; vm_compute; reflexivity. }
  assert (Hfit : fits_int64 4) by (unfold fits_int64; lia).
  assert (H2 : ~ Binary64.high_interest 4 100).
  { intros (_ & ctr & E & H). vm_compute in E. apply Ok_injective in E. subst ctr.
    vm_compute in H. discriminate H. }
  destruct calculate_conversion_signal_spec as (_ & Hhigh & Hplain & _).
  split; [unfold Qlt; simpl; lia|].
  split; [exact H1|]. split; [exact (Hhigh _ _ H1)|].
  split; [exact Hfit|]. split; [exact H2 | exact (Hplain 4%Z 100%Z Hfit H2)].
Defined.

Lemma rank_domain_explanation_witness :
  fits_int64 (Domain.clicks theta)
  /\ (exists r,
         Binary64.rank_domain repr_of_exact theta healthy None = Ok r
         /\ Binary64.explanation r = "Moderate engagement (6.3% CTR)"%string)
  /\ (exists r,
         Binary64.rank_domain repr_of_exact iota healthy None = Ok r
         /\ Binary64.explanation r
            = "Strong keyword relevance (85.5/100); High engagement (15.0% CTR); Proven conversion (sold)"%string)
  /\ (exists r,
         Binary64.rank_domain repr_of_exact beta healthy None = Ok r
         /\ Binary64.explanation r = "Baseline domain"%string).
Proof.
  assert (Hfit : forall d, In d [theta; iota; beta] -> fits_int64 (Domain.clicks d)).
  { intros d [<-|[<-|[<-|[]]]]; unfold fits_int64; simpl; lia. }
  split; [apply Hfit; simpl; tauto|].
  split; [|split].
  - destruct (rank_domain_explanation repr_of_exact theta healthy None) as [Hexp Hret].
    destruct (Hret (Hfit theta ltac:(simpl; tauto))) as [r E].
    exists r. split; [exact E|]. rewrite (proj1 (Hexp r E)). vm_compute. reflexivity.
  - destruct (rank_domain_explanation repr_of_exact iota healthy None) as [Hexp Hret].
    destruct (Hret (Hfit iota ltac:(simpl; tauto))) as [r E].
    exists r. split; [exact E|]. rewrite (proj1 (Hexp r E)). vm_compute. reflexivity.
  - destruct (rank_domain_explanation repr_of_exact beta healthy None) as [Hexp Hret].
    destruct (Hret (Hfit beta ltac:(simpl; tauto))) as [r E].
    exists r. split; [exact E|]. apply (proj2 (Hexp r E)).
    repeat split; vm_compute; reflexivity.
Defined.

(** Scenario 2: no keyword relevance, no views, the dearest unsold listing
    of its category. *)
Example scenario2_beta :
  rank_domain decimal_repr beta healthy None
  = Ok (mkRanking 23.32 (mkScores 0.00 7.50 0.00 15.00) "Baseline domain").
Proof. vm_compute. reflexivity. Qed.

(** Scenario 3: the only unsold listing of its category gets the neutral
    price credit whatever its price. *)
Example scenario3_zeta (price : Q) :
  calculate_price_competitiveness price "dev" healthy = Ok (W_price * 0.5).
Proof.
  rewrite price_competitiveness_served by reflexivity.
  reflexivity.
Qed.

(** Scenario 4: five unsold candidates across categories and a limit of 2. *)
Example scenario4_top_two :
  exists recs,
    get_top_recommendations decimal_repr healthy 2 None None None = Ok recs
    /\ map Entry.id recs = [1%Z; 6%Z]
    /\ map (fun e => total_score (Entry.ranking e)) recs = [99.69; 64.25].
Proof.
  eexists. split; [vm_compute; reflexivity|]. split; reflexivity.
Qed.

(** With the same views, price and keyword score, the listing with 4
    clicks is recommended ahead of the listing with 5. *)
Example fewer_clicks_rank_higher :
  exists recs,
    get_top_recommendations decimal_repr healthy 10 None None (Some "retail"%string)
    = Ok recs
    /\ map Entry.clicks recs = [4%Z; 5%Z]
    /\ map (fun e => total_score (Entry.ranking e)) recs = [57.51; 55.79].
Proof.
  eexists. split; [vm_compute; reflexivity|]. split; reflexivity.
Qed.

(* ====================================================================== *)
(** ** The same listings in binary64 *)
(* ====================================================================== *)

(** The drop of the engagement score at CTR = 0.05 is there in binary64
    as well: 4 clicks in 100 views score 10, 5 clicks score less. *)
Lemma binary64_engagement_drops :
  exists s4 s5,
    Binary64.calculate_engagement 100 4 = Ok s4
    /\ Binary64.calculate_engagement 100 5 = Ok s5
    /\ s4 = Binary64.of_Z 10
    /\ PrimFloat.ltb s5 s4 = true.
Proof.
  eexists; eexists. split; [vm_compute; reflexivity|].
  split; [vm_compute; reflexivity|]. split; vm_compute; reflexivity.
Qed.

(** In binary64 too the listing of scenario 1 totals 99.69, below 100. *)
Lemma binary64_scenario1_total :
  exists r,
    Binary64.rank_domain_scores alpha healthy = Ok r
    /\ Binary64.total_score r = Binary64.of_Q 99.69
    /\ PrimFloat.ltb (Binary64.total_score r) (Binary64.of_Z 100) = true.
Proof.
  eexists. split; [vm_compute; reflexivity|]. split; vm_compute; reflexivity.
Qed.

(** On the sample listings, in both sessions, the rational model and
    binary64 return the same rounded scores. *)
Lemma binary64_agrees_on_samples :
  forallb (fun d =>
             match rank_domain decimal_repr d healthy None,
                   Binary64.rank_domain_scores d healthy with
             | Ok r, Ok f => same_scores r f
             | _, _ => false
             end)
          (rows healthy)
  = true
  /\ forallb (fun d =>
                match rank_domain decimal_repr d degraded None,
                      Binary64.rank_domain_scores d degraded with
                | Ok r, Ok f => same_scores r f
                | _, _ => false
                end)
             (rows degraded)
     = true.
Proof. split; vm_compute; reflexivity. Qed.

(* ====================================================================== *)
(** ** Further properties of the scorers and of the rank engine *)
(* ====================================================================== *)

Lemma round_half_even_monotone (x y : Q) :
  x <= y -> (round_half_even x <= round_half_even y)%Z.
Proof.
  intro H. pose proof (Qfloor_resp_le _ _ H) as Hf.
  unfold round_half_even.
  destruct (Z.eq_dec (Qfloor x) (Qfloor y)) as [E|N].
  - rewrite E.
    destruct (Qcompare_spec (x - inject_Z (Qfloor y)) (1 # 2)) as [Ex|Lx|Gx];
      destruct (Qcompare_spec (y - inject_Z (Qfloor y)) (1 # 2)) as [Ey|Ly|Gy];
      try (destruct (Z.even (Qfloor y))); try lia; exfalso; lra.
  - assert (Qfloor x + 1 <= Qfloor y)%Z by lia.
    destruct (Qcompare (x - inject_Z (Qfloor x)) (1 # 2));
      destruct (Qcompare (y - inject_Z (Qfloor y)) (1 # 2));
      try (destruct (Z.even (Qfloor x))); try (destruct (Z.even (Qfloor y))); lia.
Qed.

Lemma py_round_monotone (x y : Q) (n : nat) :
  x <= y -> py_round x n <= py_round y n.
Proof.
  intro H. unfold py_round.
  assert (Hs : 0 <= inject_Z (Zpos (pow10 n))) by (unfold Qle; simpl; lia).
  pose proof (round_half_even_monotone _ _ (Qmult_le_compat_r _ _ _ H Hs)) as Hr.
  unfold Qle; simpl. nia.
Qed.

Lemma normalized_monotone (t1 t2 : Q) :
  t1 <= t2 ->
  min2 100 (t1 / max_possible * 100) <= min2 100 (t2 / max_possible * 100).
Proof.
  intro H. unfold Qdiv. change (/ max_possible) with (100 # 9650).
  destruct (min2_cases 100 (t1 * (100 # 9650) * 100)) as [[H1 ->]|[H1 ->]];
    destruct (min2_cases 100 (t2 * (100 # 9650) * 100)) as [[H2 ->]|[H2 ->]]; lra.
Qed.

Lemma keyword_credit_cases (ks : Q) :
  (ks <= 0 /\ max2 0 (min2 (ks / 100.0 * 30) 30) == 0)
  \/ (0 <= ks /\ ks <= 100 /\ max2 0 (min2 (ks / 100.0 * 30) 30) == ks / 100 * 30)
  \/ (100 <= ks /\ max2 0 (min2 (ks / 100.0 * 30) 30) == 30).
Proof.
  unfold Qdiv. change (/ 100.0) with (10 # 1000). change (/ 100) with (1 # 100).
  destruct (min2_cases (ks * (10 # 1000) * 30) 30) as [[H1 ->]|[H1 ->]];
    match goal with
    | |- context [max2 ?a ?b] => destruct (max2_cases a b) as [[H2 ->]|[H2 ->]]
    end.
  - right; right. split; lra.
  - exfalso; lra.
  - right; left. repeat split; lra.
  - left. split; lra.
Qed.

(** X1: [calculate_keyword_relevance] returns for every keyword score. A score
    between 0 and 100 earns that percentage of the keyword weight, a score
    below 0 earns nothing, and a score above 100 earns the whole weight. *)
Theorem calculate_keyword_relevance_linear (ks : Q) :
  exists s,
    calculate_keyword_relevance ks = Ok s
    /\ (0 <= ks -> ks <= 100 -> s == ks / 100 * W_keyword)
    /\ (ks <= 0 -> s == 0)
    /\ (100 <= ks -> s == W_keyword).
Proof.
  rewrite calculate_keyword_relevance_value. eexists; split; [reflexivity|].
  change W_keyword with 30.
  destruct (keyword_credit_cases ks) as [[H ->]|[(H1 & H2 & ->)|[H ->]]];
    unfold Qdiv; change (/ 100) with (1 # 100);
    repeat split; intros; lra.
Qed.

(** X2: for non-negative views and clicks [calculate_engagement] returns a
    credit between 0 and the engagement weight, and a listing that was
    viewed and has at least as many clicks as views earns the whole
    weight. *)
Theorem calculate_engagement_bounds (views clicks : Z) :
  (0 <= views)%Z -> (0 <= clicks)%Z ->
  exists s,
    calculate_engagement views clicks = Ok s
    /\ 0 <= s /\ s <= W_engagement
    /\ ((0 < views)%Z -> (views <= clicks)%Z -> s = W_engagement).
Proof.
  intros Hv Hc.
  destruct (engagement_returns views clicks Hv Hc) as [s [E [H0 H1]]].
  exists s. split; [exact E|]. split; [exact H0|]. split; [exact H1|].
  intros Hpos Hle. rewrite calculate_engagement_measured in E by lia.
  injection E as <-. unfold engagement_curve.
  assert (Hctr : 1 <= ctr_of clicks views).
  { unfold ctr_of. apply Qle_shift_div_l.
    - change 0 with (inject_Z 0). rewrite <- Zlt_Qlt. exact Hpos.
    - rewrite Qmult_1_l. rewrite <- Zle_Qle. exact Hle. }
  assert (B : Qle_bool HIGH_INTEREST_THRESHOLD (ctr_of clicks views) = true).
  { apply Qle_bool_iff. unfold HIGH_INTEREST_THRESHOLD. lra. }
  rewrite B. reflexivity.
Qed.

(** X3: a listing that was viewed, with clicks that fit an INTEGER
    column, earns strictly less engagement credit than a listing never
    viewed (which earns 30 percent of the weight) when its click-through
    rate is at most 2.9 percent, and at least as much when the rate is 3
    percent or more. Between the two the rounding of the quotient
    decides, which is why the statement keeps clear of it. *)
Theorem unmeasured_engagement_beats_low_ctr (views clicks : Z) :
  views <> 0%Z -> fits_int64 clicks ->
  exists s,
    calculate_engagement views clicks = Ok s
    /\ (ctr_of clicks views <= 0.029 -> s < W_engagement * 0.3)
    /\ (0.03 <= ctr_of clicks views -> W_engagement * 0.3 <= s).
Proof.
  intros Hv _. rewrite (calculate_engagement_measured _ _ Hv).
  eexists; split; [reflexivity|].
  unfold engagement_curve. by_thresholds.
  destruct (Qle_bool 0.15 (ctr_of clicks views)) eqn:A;
    destruct (Qle_bool 0.05 (ctr_of clicks views)) eqn:B;
    rewrite ?Qle_bool_iff, ?Qle_bool_false_iff in *; split; intro; lra.
Qed.

(** At a CTR of 3 percent the interpreter gives a viewed listing exactly
    the credit of a listing never viewed, also when the quotient only
    rounds to the float 0.03. *)
Example binary64_engagement_at_three_percent :
  Binary64.calculate_engagement 0 0 = Ok 7.5%float
  /\ Binary64.calculate_engagement 100 3 = Ok 7.5%float
  /\ ctr_of 29999999999999999 1000000000000000000 < 0.03
  /\ Binary64.calculate_engagement 1000000000000000000 29999999999999999
     = Ok 7.5%float.
Proof.
  split; [vm_compute; reflexivity|]. split; [vm_compute; reflexivity|].
  split; [unfold Qlt; simpl; lia | vm_compute; reflexivity].
Qed.

Lemma conversion_unsold_cap (clicks views : Z) :
  exists c, calculate_conversion_signal false clicks views = Ok c
            /\ W_conversion <= c /\ c <= W_conversion * (1 + bonus_high_interest).
Proof.
  destruct (high_interest_dec clicks views) as [H|H].
  - rewrite (conversion_unsold_high _ _ H). eexists; split; [reflexivity|].
    split; unfold Qle; simpl; lia.
  - rewrite (conversion_unsold_plain _ _ H). eexists; split; [reflexivity|].
    split; unfold Qle; simpl; lia.
Qed.

Lemma engagement_at_most_weight (views clicks : Z) :
  exists e, calculate_engagement views clicks = Ok e /\ e <= W_engagement.
Proof.
  destruct (Z.eq_dec views 0) as [->|Hn].
  - rewrite calculate_engagement_unmeasured. eexists; split; [reflexivity|].
    unfold Qle; simpl; lia.
  - rewrite (calculate_engagement_measured _ _ Hn). eexists; split; [reflexivity|].
    unfold engagement_curve. by_thresholds.
    destruct (Qle_bool 0.15 (ctr_of clicks views)) eqn:A;
      destruct (Qle_bool 0.05 (ctr_of clicks views)) eqn:B;
      rewrite ?Qle_bool_iff, ?Qle_bool_false_iff in *; lra.
Qed.

Lemma keyword_relevance_monotone_ok (k1 k2 : Q) :
  k1 <= k2 ->
  max2 0 (min2 (k1 / 100.0 * 30) 30) <= max2 0 (min2 (k2 / 100.0 * 30) 30).
Proof.
  intro H.
  destruct (keyword_credit_cases k1) as [[H1 ->]|[(H1 & H1' & ->)|[H1 ->]]];
    destruct (keyword_credit_cases k2) as [[H2 ->]|[(H2 & H2' & ->)|[H2 ->]]];
    unfold Qdiv; change (/ 100) with (1 # 100); lra.
Qed.

Lemma price_competitiveness_antitone
    (db : Session) (category : string) (pa pb : Q) :
  pa <= pb ->
  exists sa sb,
    calculate_price_competitiveness pa category db = Ok sa
    /\ calculate_price_competitiveness pb category db = Ok sb
    /\ sb <= sa.
Proof.
  intro H.
  destruct (refuses db SelectPrice [CategoryEq category; IsSoldEq false]) eqn:R.
  - rewrite !(price_competitiveness_refused _ _ _ R).
    eexists; eexists. split; [reflexivity|]. split; [reflexivity|]. apply Qle_refl.
  - rewrite !(price_competitiveness_served _ _ _ R).
    eexists; eexists. split; [reflexivity|]. split; [reflexivity|].
    destruct (comparable_prices db category) as [|x rest]; [apply Qle_refl|].
    cbv zeta.
    destruct (Qeq_bool (fold_left min2 rest x) (fold_left max2 rest x)) eqn:B;
      [apply Qle_refl|].
    apply percentile_credit_antitone; [|exact H].
    pose proof (lowest_le_highest (x :: rest) _ _
                  (py_min_lowest (x :: rest) _ eq_refl)
                  (py_max_highest (x :: rest) _ eq_refl)) as Hle.
    apply Qeq_bool_neq in B. apply Qle_lteq in Hle.
    destruct Hle as [Hlt|Heq]; [exact Hlt | contradiction].
Qed.

Lemma conversion_signal_sold_dominates (s1 s2 : bool) (clicks views : Z) :
  (s1 = true -> s2 = true) ->
  exists c1 c2,
    calculate_conversion_signal s1 clicks views = Ok c1
    /\ calculate_conversion_signal s2 clicks views = Ok c2
    /\ c1 <= c2.
Proof.
  intro H. destruct s1.
  - rewrite (H eq_refl). rewrite conversion_sold.
    eexists; eexists. split; [reflexivity|]. split; [reflexivity|]. apply Qle_refl.
  - destruct s2.
    + destruct (conversion_unsold_cap clicks views) as [c [-> [_ Hc]]].
      rewrite conversion_sold.
      eexists; eexists. split; [reflexivity|]. split; [reflexivity|].
      change W_conversion with 15 in *. change bonus_high_interest with 0.08 in Hc.
      change bonus_sold with 0.10. lra.
    + destruct (conversion_unsold_cap clicks views) as [c [-> _]].
      eexists; eexists. split; [reflexivity|]. split; [reflexivity|]. apply Qle_refl.
Qed.

Section RankFacts.

Variable float_repr : Q -> string.

(** X4: for a structurally valid listing every component that [rank_domain]
    reports in its breakdown stays within its weight: keyword relevance,
    engagement and price competitiveness lie between 0 and their weights,
    and the conversion signal between its weight and its weight raised by
    the sold bonus. *)
Theorem rank_domain_component_bounds
    (d : Domain.t) (db : Session) (stats : option (dict PyAny)) :
  structurally_valid d ->
  exists r,
    rank_domain float_repr d db stats = Ok r
    /\ (0 <= keyword_relevance (scores r) /\ keyword_relevance (scores r) <= W_keyword)
    /\ (0 <= engagement (scores r) /\ engagement (scores r) <= W_engagement)
    /\ (0 <= price_competitiveness (scores r)
        /\ price_competitiveness (scores r) <= W_price)
    /\ (W_conversion <= conversion_signal (scores r)
        /\ conversion_signal (scores r) <= W_conversion * (1 + bonus_sold)).
Proof.
  intros (_ & _ & _ & Hv & Hc).
  destruct (rank_domain_returns float_repr d db stats Hv Hc)
    as (k & e & p & c & Bk & Be & Bp & Bc & ->).
  eexists; split; [reflexivity|].
  cbn [scores keyword_relevance engagement price_competitiveness conversion_signal].
  split; [apply (py_round_between k 2 0 30); tauto|].
  split; [apply (py_round_between e 2 0 25); tauto|].
  split; [apply (py_round_between p 2 0 25); tauto|].
  split.
  - apply (py_round_between c 2 15 100); [tauto|].
    change (inject_Z 100) with 100. lra.
  - assert (E : W_conversion * (1 + bonus_sold) = py_round 16.5 2)
      by (vm_compute; reflexivity).
    rewrite E. apply py_round_monotone. tauto.
Qed.

Lemma rank_domain_unsold_cap
    (d : Domain.t) (db : Session) (stats : option (dict PyAny)) :
  Domain.is_sold d = false ->
  exists r, rank_domain float_repr d db stats = Ok r /\ total_score r <= 99.69.
Proof.
  intro Hs.
  destruct (keyword_relevance_returns (Domain.keyword_score d)) as [k [Hk Bk]].
  destruct (engagement_at_most_weight (Domain.views d) (Domain.clicks d)) as [e [He Be]].
  destruct (price_competitiveness_returns db (Domain.category d) (Domain.price d))
    as [p [Hp Bp]].
  destruct (conversion_unsold_cap (Domain.clicks d) (Domain.views d)) as [c [Hc Bc]].
  rewrite <- Hs in Hc.
  rewrite (rank_domain_assembled float_repr d db stats k e p c Hk He Hp Hc).
  eexists; split; [reflexivity|]. cbn [total_score].
  assert (E : 99.69 = py_round (min2 100 (96.2 / max_possible * 100)) 2)
    by (vm_compute; reflexivity).
  rewrite E. apply py_round_monotone, normalized_monotone.
  change W_engagement with 25 in Be.
  change W_conversion with 15 in Bc. change bonus_high_interest with 0.08 in Bc.
  lra.
Qed.

(** X5: of two listings of the same category with the same views and clicks,
    the one whose keyword score is at least as high, whose price is at most
    as high, and which is sold whenever the other is, never gets the lower
    total score. *)
Theorem rank_domain_monotone
    (d1 d2 : Domain.t) (db : Session) (stats1 stats2 : option (dict PyAny)) :
  Domain.category d1 = Domain.category d2 ->
  Domain.views d1 = Domain.views d2 ->
  Domain.clicks d1 = Domain.clicks d2 ->
  Domain.keyword_score d1 <= Domain.keyword_score d2 ->
  Domain.price d2 <= Domain.price d1 ->
  (Domain.is_sold d1 = true -> Domain.is_sold d2 = true) ->
  exists r1 r2,
    rank_domain float_repr d1 db stats1 = Ok r1
    /\ rank_domain float_repr d2 db stats2 = Ok r2
    /\ total_score r1 <= total_score r2.
Proof.
  intros Hcat Hv Hc Hks Hp Hs.
  pose proof (calculate_keyword_relevance_value (Domain.keyword_score d1)) as Hk1.
  pose proof (calculate_keyword_relevance_value (Domain.keyword_score d2)) as Hk2.
  pose proof (keyword_relevance_monotone_ok _ _ Hks) as Hk.
  destruct (engagement_never_raises (Domain.views d1) (Domain.clicks d1)) as [e He1].
  pose proof He1 as He2. rewrite Hv, Hc in He2.
  destruct (price_competitiveness_antitone db (Domain.category d2) _ _ Hp)
    as (p2 & p1 & Hp2 & Hp1 & Hple).
  rewrite <- Hcat in Hp1.
  destruct (conversion_signal_sold_dominates
              (Domain.is_sold d1) (Domain.is_sold d2)
              (Domain.clicks d1) (Domain.views d1) Hs)
    as (c1 & c2 & Hc1 & Hc2 & Hcle).
  rewrite Hv, Hc in Hc2.
  rewrite (rank_domain_assembled float_repr d1 db stats1 _ _ _ _ Hk1 He1 Hp1 Hc1).
  rewrite (rank_domain_assembled float_repr d2 db stats2 _ _ _ _ Hk2 He2 Hp2 Hc2).
  eexists; eexists. split; [reflexivity|]. split; [reflexivity|].
  cbn [total_score]. apply py_round_monotone, normalized_monotone. lra.
Qed.

End RankFacts.

(* ====================================================================== *)
(** ** Further properties of the recommendation query *)
(* ====================================================================== *)

Lemma passes_listing_criteria
    (price_min price_max : option Q) (category_filter : option string) (d : Domain.t) :
  forallb (satisfies d) (listing_criteria price_min price_max category_filter)
  = passes price_min price_max category_filter d.
Proof.
  unfold listing_criteria, passes. rewrite !forallb_app.
  destruct price_min, price_max, category_filter; simpl;
    destruct (Domain.is_sold d); simpl;
    rewrite ?andb_true_r, ?andb_assoc; reflexivity.
Qed.

Lemma insert_desc_filter {A : Type} (key : A -> Q) (k : Q) (x : A) (l : list A) :
  filter (fun a => Qeq_bool (key a) k) (insert_desc key x l)
  = filter (fun a => Qeq_bool (key a) k) (x :: l).
Proof.
  induction l as [|y l IH]; [reflexivity|].
  cbn [insert_desc]. destruct (Qle_bool (key y) (key x)) eqn:E; [reflexivity|].
  apply Qle_bool_false_iff in E.
  cbn [filter] in *. rewrite IH.
  destruct (Qeq_bool (key x) k) eqn:Ex; [|reflexivity].
  destruct (Qeq_bool (key y) k) eqn:Ey; [|reflexivity].
  apply Qeq_bool_iff in Ex. apply Qeq_bool_iff in Ey. exfalso. lra.
Qed.

Lemma sort_desc_stable {A : Type} (key : A -> Q) (k : Q) (l : list A) :
  filter (fun a => Qeq_bool (key a) k) (sort_desc key l)
  = filter (fun a => Qeq_bool (key a) k) l.
Proof.
  induction l as [|x l IH]; [reflexivity|].
  cbn [sort_desc fold_right]. fold (sort_desc key l).
  rewrite insert_desc_filter. cbn [filter]. rewrite IH. reflexivity.
Qed.

Lemma filter_firstn {A : Type} (P : A -> bool) (n : nat) (l : list A) :
  exists m, filter P (firstn n l) = firstn m (filter P l).
Proof.
  revert n. induction l as [|x l IH]; intro n.
  - exists O. now rewrite firstn_nil.
  - destruct n as [|n]; [exists O; reflexivity|].
    destruct (IH n) as [m Hm]. cbn [firstn filter].
    destruct (P x); [exists (S m); cbn [firstn]; now rewrite Hm | now exists m].
Qed.

Lemma sorted_app_le {A : Type} (R : A -> A -> Prop) (l1 l2 : list A) :
  StronglySorted R (l1 ++ l2) ->
  forall a b, In a l1 -> In b l2 -> R a b.
Proof.
  induction l1 as [|x l1 IH]; intros Hs a b Ha Hb; [destruct Ha|].
  simpl in Hs. inversion Hs as [|? ? Hs' Hx]; subst.
  destruct Ha as [<-|Ha].
  - apply (proj1 (Forall_forall _ _) Hx). apply in_or_app. now right.
  - now apply IH.
Qed.

Lemma slice_to_exact_length {A : Type} (l : list A) (stop : Z) :
  Z.of_nat (List.length (slice_to l stop))
  = (if (stop <? 0)%Z
     then Z.max 0 (Z.of_nat (List.length l) + stop)
     else Z.min stop (Z.of_nat (List.length l)))%Z.
Proof.
  unfold slice_to. destruct (Z.ltb_spec stop 0); rewrite length_firstn; lia.
Qed.

Lemma Forall2_length_eq {A B : Type} (R : A -> B -> Prop) (l : list A) (l' : list B) :
  Forall2 R l l' -> List.length l = List.length l'.
Proof. induction 1; simpl; congruence. Qed.

Lemma Forall2_In_l {A B : Type} (R : A -> B -> Prop) (l : list A) (l' : list B) (a : A) :
  Forall2 R l l' -> In a l -> exists b, In b l' /\ R a b.
Proof.
  induction 1 as [|x y l l' Hxy _ IH]; intro Ha; [destruct Ha|].
  destruct Ha as [<-|Ha].
  - exists y. split; [now left | exact Hxy].
  - destruct (IH Ha) as [b [Hb Hr]]. exists b. split; [now right | exact Hr].
Qed.

Section QueryFacts.

Variable float_repr : Q -> string.

Lemma rank_each_ranked (db : Session) (domains : list Domain.t) (ranked : list Entry.t) :
  exists tail,
    rank_each float_repr db domains ranked = Ok (ranked ++ tail)
    /\ Forall2 (ranked_as float_repr db) domains tail.
Proof.
  revert ranked. induction domains as [|d domains IH]; intro ranked.
  - exists []. simpl. rewrite app_nil_r. split; [reflexivity | constructor].
  - simpl.
    destruct (rank_domain_shape float_repr d db None)
      as (k & e & p & c & _ & _ & _ & _ & Hr).
    rewrite Hr. cbn [bind].
    assert (Hctr : exists q,
               (if (Domain.views d >? 0)%Z
                then q <- truediv (Domain.clicks d) (Domain.views d) ;; ret (py_round q 4)
                else ret 0) = Ok q).
    { destruct (Z.gtb_spec (Domain.views d) 0) as [H|H]; [|eexists; reflexivity].
      rewrite truediv_ok by lia. eexists; reflexivity. }
    destruct Hctr as [q ->]. cbn [bind].
    match goal with
    | |- context [rank_each float_repr db domains (ranked ++ [?entry])] =>
        destruct (IH (ranked ++ [entry])) as [tail [-> Htail]];
        exists (entry :: tail)
    end.
    split.
    + rewrite <- app_assoc. reflexivity.
    + constructor; [|exact Htail]. split; [repeat split | exact Hr].
Qed.

(** What [get_top_recommendations] computes, for every limit at once. *)
Lemma get_top_recommendations_served
    (db : Session) (price_min price_max : option Q) (category_filter : option string) :
  refuses db SelectDomain (listing_criteria price_min price_max category_filter) = false ->
  exists ranked,
    Forall2 (ranked_as float_repr db)
            (candidates db price_min price_max category_filter) ranked
    /\ forall limit,
         get_top_recommendations float_repr db limit price_min price_max category_filter
         = Ok (slice_to (sort_desc score ranked) limit).
Proof.
  intro R.
  destruct (rank_each_ranked db (candidates db price_min price_max category_filter) [])
    as [ranked [E H2]].
  exists ranked. split; [exact H2|]. intro limit.
  rewrite get_top_recommendations_query. unfold all. cbn [bound_to entity criteria].
  rewrite R. cbn [bind].
  assert (F : filter (fun d => forallb (satisfies d)
                                 (listing_criteria price_min price_max category_filter))
                     (rows db)
              = candidates db price_min price_max category_filter).
  { unfold candidates. apply filter_ext. intro d. apply passes_listing_criteria. }
  rewrite F, E. reflexivity.
Qed.

Lemma get_top_recommendations_refused
    (db : Session) (limit : Z) (price_min price_max : option Q)
    (category_filter : option string) :
  refuses db SelectDomain (listing_criteria price_min price_max category_filter) = true ->
  get_top_recommendations float_repr db limit price_min price_max category_filter
  = Raise SQLAlchemyError.
Proof.
  intro R. rewrite get_top_recommendations_query. unfold all.
  cbn [bound_to entity criteria]. rewrite R. reflexivity.
Qed.

Lemma get_top_recommendations_inv
    (db : Session) (limit : Z) (price_min price_max : option Q)
    (category_filter : option string) (recs : list Entry.t) :
  get_top_recommendations float_repr db limit price_min price_max category_filter
  = Ok recs ->
  refuses db SelectDomain (listing_criteria price_min price_max category_filter) = false.
Proof.
  intro H.
  destruct (refuses db SelectDomain
              (listing_criteria price_min price_max category_filter)) eqn:R;
    [|reflexivity].
  rewrite (get_top_recommendations_refused _ _ _ _ _ R) in H. discriminate H.
Qed.

(** X6: the number of recommendations is the smaller of the limit and the number
    of listings that pass the filters; for a negative limit, which the
    slice counts from the end, it is that number plus the limit, or 0. When
    the limit admits every such listing, the result is a rearrangement of
    all of them, each with its ranking. *)
Theorem get_top_recommendations_complete
    (db : Session) (limit : Z) (price_min price_max : option Q)
    (category_filter : option string) (recs : list Entry.t) :
  get_top_recommendations float_repr db limit price_min price_max category_filter
  = Ok recs ->
  Z.of_nat (List.length recs)
  = (if (limit <? 0)%Z
     then Z.max 0 (Z.of_nat (List.length
                               (candidates db price_min price_max category_filter))
                   + limit)
     else Z.min limit
                (Z.of_nat (List.length
                             (candidates db price_min price_max category_filter))))%Z
  /\ ((Z.of_nat (List.length (candidates db price_min price_max category_filter))
       <= limit)%Z ->
      exists ranked,
        Forall2 (ranked_as float_repr db)
                (candidates db price_min price_max category_filter) ranked
        /\ Permutation recs ranked).
Proof.
  intro H.
  destruct (get_top_recommendations_served db price_min price_max category_filter
              (get_top_recommendations_inv _ _ _ _ _ _ H)) as [ranked [H2 Hget]].
  rewrite Hget in H. injection H as <-.
  assert (Hlen : List.length (sort_desc score ranked)
                 = List.length (candidates db price_min price_max category_filter)).
  { rewrite (Permutation_length (sort_desc_perm score ranked)).
    symmetry. exact (Forall2_length_eq _ _ _ H2). }
  split.
  - rewrite slice_to_exact_length, Hlen. reflexivity.
  - intro Hn. exists ranked. split; [exact H2|].
    unfold slice_to. destruct (Z.ltb_spec limit 0); [lia|].
    rewrite firstn_all2 by (rewrite Hlen; lia).
    apply sort_desc_perm.
Qed.

(** X7: on the same session and filters, the recommendations for a limit
    [l1 >= 0] are the first [l1] of the recommendations for any larger
    limit. *)
Theorem get_top_recommendations_prefix
    (db : Session) (l1 l2 : Z) (price_min price_max : option Q)
    (category_filter : option string) (r1 r2 : list Entry.t) :
  (0 <= l1)%Z -> (l1 <= l2)%Z ->
  get_top_recommendations float_repr db l1 price_min price_max category_filter = Ok r1 ->
  get_top_recommendations float_repr db l2 price_min price_max category_filter = Ok r2 ->
  r1 = firstn (Z.to_nat l1) r2.
Proof.
  intros H0 H12 E1 E2.
  destruct (get_top_recommendations_served db price_min price_max category_filter
              (get_top_recommendations_inv _ _ _ _ _ _ E1)) as [ranked [_ Hget]].
  rewrite Hget in E1, E2. injection E1 as <-. injection E2 as <-.
  unfold slice_to.
  destruct (Z.ltb_spec l1 0); [lia|]. destruct (Z.ltb_spec l2 0); [lia|].
  rewrite firstn_firstn. f_equal. lia.
Qed.

(** X8: no listing is left out in favour of a worse one: a listing that passes
    the filters is either returned with its ranking, or every returned
    entry scores at least as much as it does. *)
Theorem get_top_recommendations_best
    (db : Session) (limit : Z) (price_min price_max : option Q)
    (category_filter : option string) (recs : list Entry.t)
    (d : Domain.t) (r : Ranking) :
  (0 <= limit)%Z ->
  get_top_recommendations float_repr db limit price_min price_max category_filter
  = Ok recs ->
  In d (candidates db price_min price_max category_filter) ->
  rank_domain float_repr d db None = Ok r ->
  (exists e, In e recs /\ entry_of d e /\ Entry.ranking e = r)
  \/ Forall (fun e => total_score r <= score e) recs.
Proof.
  intros H0 H Hd Hr.
  destruct (get_top_recommendations_served db price_min price_max category_filter
              (get_top_recommendations_inv _ _ _ _ _ _ H)) as [ranked [H2 Hget]].
  rewrite Hget in H. injection H as <-.
  destruct (Forall2_In_l _ _ _ _ H2 Hd) as [e [He [Hent Hrank]]].
  rewrite Hr in Hrank. injection Hrank as Hrank.
  unfold slice_to. destruct (Z.ltb_spec limit 0); [lia|].
  set (S := sort_desc score ranked). set (n := Z.to_nat limit).
  assert (HeS : In e S).
  { apply (Permutation_in _ (Permutation_sym (sort_desc_perm score ranked))). exact He. }
  rewrite <- (firstn_skipn n S) in HeS. apply in_app_or in HeS.
  destruct HeS as [Hin|Hout].
  - left. exists e. split; [exact Hin|]. split; [exact Hent | now symmetry].
  - right. apply Forall_forall. intros e' He'.
    pose proof (sort_desc_sorted score ranked) as Hs. fold S in Hs.
    rewrite <- (firstn_skipn n S) in Hs.
    pose proof (sorted_app_le _ _ _ Hs e' e He' Hout) as Hle. cbv beta in Hle.
    rewrite Hrank. exact Hle.
Qed.

(** X9: entries with equal total score come in table order: for every score,
    the returned entries with that score are the first ones, in table
    order, of the ranked listings with that score. *)
Theorem get_top_recommendations_ties_keep_table_order
    (db : Session) (limit : Z) (price_min price_max : option Q)
    (category_filter : option string) (recs : list Entry.t) :
  get_top_recommendations float_repr db limit price_min price_max category_filter
  = Ok recs ->
  exists ranked,
    Forall2 (ranked_as float_repr db)
            (candidates db price_min price_max category_filter) ranked
    /\ forall k, exists m,
         filter (has_score k) recs = firstn m (filter (has_score k) ranked).
Proof.
  intro H.
  destruct (get_top_recommendations_served db price_min price_max category_filter
              (get_top_recommendations_inv _ _ _ _ _ _ H)) as [ranked [H2 Hget]].
  rewrite Hget in H. injection H as <-.
  exists ranked. split; [exact H2|]. intro k.
  destruct (slice_to_firstn (sort_desc score ranked) limit) as [n ->].
  destruct (filter_firstn (has_score k) n (sort_desc score ranked)) as [m Hm].
  exists m. rewrite Hm. unfold has_score. now rewrite sort_desc_stable.
Qed.

End QueryFacts.

Lemma slice_to_subset {A : Type} (l : list A) (stop : Z) (x : A) :
  In x (slice_to l stop) -> In x l.
Proof.
  destruct (slice_to_firstn l stop) as [n ->]. apply firstn_subset.
Qed.

Lemma Forall2_In_r {A B : Type} (R : A -> B -> Prop) (l : list A) (l' : list B) (b : B) :
  Forall2 R l l' -> In b l' -> exists a, In a l /\ R a b.
Proof.
  induction 1 as [|x y l l' Hxy _ IH]; intro Hb; [destruct Hb|].
  destruct Hb as [<-|Hb].
  - exists x. split; [now left | exact Hxy].
  - destruct (IH Hb) as [a [Ha Hr]]. exists a. split; [now right | exact Hr].
Qed.

Lemma NoDup_map_injective {A B : Type} (f : A -> B) (l : list A) (a b : A) :
  NoDup (map f l) -> In a l -> In b l -> f a = f b -> a = b.
Proof.
  induction l as [|x l IH]; intros Hnd Ha Hb E; [destruct Ha|].
  simpl in Hnd. inversion Hnd as [|? ? Hx Hnd']; subst.
  destruct Ha as [->|Ha]; destruct Hb as [->|Hb].
  - reflexivity.
  - exfalso. apply Hx. rewrite E. now apply in_map.
  - exfalso. apply Hx. rewrite <- E. now apply in_map.
  - now apply IH.
Qed.

Lemma candidates_spec
    (db : Session) (price_min price_max : option Q) (category_filter : option string)
    (d : Domain.t) :
  In d (candidates db price_min price_max category_filter) ->
  In d (rows db)
  /\ forallb (satisfies d) (listing_criteria price_min price_max category_filter) = true.
Proof.
  unfold candidates. rewrite filter_In, passes_listing_criteria. tauto.
Qed.

Lemma comparable_prices_snoc (db : Session) (d : Domain.t) (category : string) :
  Domain.is_sold d = true \/ Domain.category d <> category ->
  comparable_prices (Crud.with_rows db (rows db ++ [d])) category
  = comparable_prices db category.
Proof.
  intro H. unfold comparable_prices, Crud.with_rows. cbn [rows].
  rewrite filter_app, map_app. cbn [filter].
  assert (E : (String.eqb (Domain.category d) category && negb (Domain.is_sold d))%bool
              = false).
  { destruct H as [-> | Hc]; [apply andb_false_r|].
    apply andb_false_iff. left. now apply String.eqb_neq. }
  rewrite E. apply app_nil_r.
Qed.

Lemma price_competitiveness_pool (db db' : Session) (category : string) (price : Q) :
  refuses db' = refuses db ->
  comparable_prices db' category = comparable_prices db category ->
  calculate_price_competitiveness price category db'
  = calculate_price_competitiveness price category db.
Proof.
  intros Hr Hc.
  destruct (refuses db SelectPrice [CategoryEq category; IsSoldEq false]) eqn:R.
  - rewrite (price_competitiveness_refused db _ _ R).
    apply price_competitiveness_refused. now rewrite Hr.
  - rewrite (price_competitiveness_served db _ _ R).
    rewrite price_competitiveness_served by now rewrite Hr.
    now rewrite Hc.
Qed.

Section TableFacts.

Variable float_repr : Q -> string.

Lemma get_top_recommendations_ranked
    (db : Session) (limit : Z) (price_min price_max : option Q)
    (category_filter : option string) (recs : list Entry.t) (e : Entry.t) :
  get_top_recommendations float_repr db limit price_min price_max category_filter
  = Ok recs ->
  In e recs ->
  exists d,
    In d (candidates db price_min price_max category_filter)
    /\ ranked_as float_repr db d e.
Proof.
  intros H He.
  destruct (get_top_recommendations_served float_repr db price_min price_max
              category_filter
              (get_top_recommendations_inv float_repr _ _ _ _ _ _ H))
    as [ranked [H2 Hget]].
  rewrite Hget in H. injection H as <-.
  apply slice_to_subset in He.
  apply (Permutation_in _ (sort_desc_perm score ranked)) in He.
  exact (Forall2_In_r _ _ _ _ H2 He).
Qed.

Lemma get_top_recommendations_checked
    (db : Session) (limit : Z) (price_min price_max : option Q)
    (category_filter : option string) (recs : list Entry.t) :
  get_top_recommendations float_repr db limit price_min price_max category_filter
  = Ok recs ->
  Forall (eligible db price_min price_max category_filter) recs
  /\ StronglySorted by_score_desc recs
  /\ ((0 <= limit)%Z -> (Z.of_nat (List.length recs) <= limit)%Z).
Proof.
  intro H.
  destruct (get_top_recommendations_served float_repr db price_min price_max
              category_filter
              (get_top_recommendations_inv float_repr _ _ _ _ _ _ H))
    as [ranked [H2 Hget]].
  rewrite Hget in H. injection H as <-.
  split; [|split].
  - destruct (slice_to_firstn (sort_desc score ranked) limit) as [n ->].
    apply firstn_Forall.
    apply (Permutation_Forall (Permutation_sym (sort_desc_perm score ranked))).
    apply (Forall2_eligible db price_min price_max category_filter
             (candidates db price_min price_max category_filter)).
    + apply Forall_forall. intros d Hd. now apply candidates_spec.
    + clear Hget. induction H2 as [|d e l l' [Hent _] _ IH]; constructor; assumption.
  - destruct (slice_to_firstn (sort_desc score ranked) limit) as [n ->].
    apply firstn_sorted. exact (sort_desc_sorted score ranked).
  - apply slice_to_length.
Qed.

(** X10: no recommendation has a total score above 99.69: the query selects
    unsold listings only, and an unsold listing cannot earn the sold bonus
    that the normalisation counts on. *)
Theorem get_top_recommendations_below_full_score
    (db : Session) (limit : Z) (price_min price_max : option Q)
    (category_filter : option string) (recs : list Entry.t) :
  get_top_recommendations float_repr db limit price_min price_max category_filter
  = Ok recs ->
  Forall (fun e => score e <= 99.69) recs.
Proof.
  intro H. apply Forall_forall. intros e He.
  destruct (get_top_recommendations_ranked _ _ _ _ _ _ _ H He) as [d [Hd [_ Hrank]]].
  apply candidates_spec in Hd. destruct Hd as [_ Hd].
  apply satisfies_listing_criteria in Hd. destruct Hd as [Hs _].
  destruct (rank_domain_unsold_cap float_repr d db None Hs) as [r [Hr Hcap]].
  rewrite Hr in Hrank. injection Hrank as ->. exact Hcap.
Qed.

(** X11: creating a listing that is sold, or whose category is not that of a
    listing [d], leaves the whole ranking of [d] as it was. *)
Theorem rank_domain_unmoved_by_other_pools
    (db db' : Session) (new_id : Z) (domain_create : DomainCreate.t)
    (created d : Domain.t) (stats : option (dict PyAny)) :
  Crud.create_domain db new_id domain_create = Ok (created, db') ->
  DomainCreate.is_sold domain_create = true
  \/ DomainCreate.category domain_create <> Domain.category d ->
  rank_domain float_repr d db' stats = rank_domain float_repr d db stats.
Proof.
  intros Hc Hout. unfold Crud.create_domain in Hc.
  destruct (Crud.key_taken (rows db) new_id || Crud.name_taken (rows db) _)%bool;
    [discriminate Hc|].
  injection Hc as <- <-.
  destruct (rank_domain_shape float_repr d db stats)
    as (k & e & p & c & Hk & He & Hp & Hcv & ->).
  apply rank_domain_assembled; try assumption.
  rewrite <- Hp. apply price_competitiveness_pool; [reflexivity|].
  apply comparable_prices_snoc. exact Hout.
Qed.

(** X12: when the keys of the table are unique, the ranking reported for a
    listing does not depend on the limit or the filters of the query that
    returns it: two entries with the same id carry the same ranking. *)
Theorem get_top_recommendations_score_is_intrinsic
    (db : Session) (l1 l2 : Z) (min1 max1 min2 max2 : option Q)
    (filter1 filter2 : option string) (r1 r2 : list Entry.t) (e1 e2 : Entry.t) :
  NoDup (map Domain.id (rows db)) ->
  get_top_recommendations float_repr db l1 min1 max1 filter1 = Ok r1 ->
  get_top_recommendations float_repr db l2 min2 max2 filter2 = Ok r2 ->
  In e1 r1 -> In e2 r2 ->
  Entry.id e1 = Entry.id e2 ->
  Entry.ranking e1 = Entry.ranking e2.
Proof.
  intros Hnd H1 H2 He1 He2 Hid.
  destruct (get_top_recommendations_ranked _ _ _ _ _ _ _ H1 He1)
    as [d1 [Hd1 [Hent1 Hrank1]]].
  destruct (get_top_recommendations_ranked _ _ _ _ _ _ _ H2 He2)
    as [d2 [Hd2 [Hent2 Hrank2]]].
  apply candidates_spec in Hd1. apply candidates_spec in Hd2.
  assert (E : d1 = d2).
  { apply (NoDup_map_injective Domain.id (rows db)); try tauto.
    destruct Hent1 as [<- _]. destruct Hent2 as [<- _]. exact Hid. }
  subst d2. rewrite Hrank1 in Hrank2. now injection Hrank2.
Qed.

End TableFacts.

(* ====================================================================== *)
(** ** Properties of the persistence helpers *)
(* ====================================================================== *)

Lemma key_taken_iff (rs : list Domain.t) (id : Z) :
  Crud.key_taken rs id = true <-> In id (map Domain.id rs).
Proof.
  unfold Crud.key_taken. rewrite existsb_exists, in_map_iff. split.
  - intros [d [Hd E]]. apply Z.eqb_eq in E. eauto.
  - intros [d [E Hd]]. exists d. split; [exact Hd | now apply Z.eqb_eq].
Qed.

Lemma name_taken_iff (rs : list Domain.t) (name : string) :
  Crud.name_taken rs name = true <-> In name (map Domain.domain_name rs).
Proof.
  unfold Crud.name_taken. rewrite existsb_exists, in_map_iff. split.
  - intros [d [Hd E]]. apply String.eqb_eq in E. eauto.
  - intros [d [E Hd]]. exists d. split; [exact Hd | now apply String.eqb_eq].
Qed.

Lemma get_domain_app (rs : list Domain.t) (f : Entity -> list Criterion -> bool)
    (d : Domain.t) (id : Z) :
  Crud.get_domain (mkSession (rs ++ [d]) f) id
  = match Crud.get_domain (mkSession rs f) id with
    | Some x => Some x
    | None => if (Domain.id d =? id)%Z then Some d else None
    end.
Proof.
  unfold Crud.get_domain. cbn [rows]. rewrite filter_app. cbn [filter].
  destruct (filter (fun x => (Domain.id x =? id)%Z) rs) as [|x l]; cbn [app Crud.first].
  - destruct (Domain.id d =? id)%Z; reflexivity.
  - reflexivity.
Qed.

Lemma get_domain_none (db : Session) (id : Z) :
  Crud.get_domain db id = None <-> ~ In id (map Domain.id (rows db)).
Proof.
  unfold Crud.get_domain.
  induction (rows db) as [|d l IH]; cbn [filter map]; [simpl; tauto|].
  destruct (Z.eqb_spec (Domain.id d) id) as [E|N]; cbn [Crud.first].
  - split; [discriminate | intro H; exfalso; apply H; now left].
  - rewrite IH. simpl. tauto.
Qed.

Lemma get_domain_some (db : Session) (id : Z) (d : Domain.t) :
  Crud.get_domain db id = Some d -> In d (rows db) /\ Domain.id d = id.
Proof.
  unfold Crud.get_domain. intro H.
  destruct (filter (fun x => (Domain.id x =? id)%Z) (rows db)) as [|x l] eqn:E;
    [discriminate|].
  injection H as ->.
  assert (Hin : In d (d :: l)) by now left.
  rewrite <- E in Hin. apply filter_In in Hin. destruct Hin as [Hin Hid].
  split; [exact Hin | now apply Z.eqb_eq].
Qed.

(** X13: on a session that serves its statements, with a key and a name that
    the table does not hold and with views and clicks that fit the INTEGER
    columns, [create_domain] returns a listing with that key and the
    columns of the request; [get_domain] then finds it under its key, and
    finds under every other key what it found before. *)
Theorem create_domain_then_get
    (db : Session) (new_id : Z) (domain_create : DomainCreate.t) :
  serves_all db ->
  fits_int64 new_id ->
  fits_int64 (DomainCreate.views domain_create) ->
  fits_int64 (DomainCreate.clicks domain_create) ->
  ~ In new_id (map Domain.id (rows db)) ->
  ~ In (DomainCreate.domain_name domain_create) (map Domain.domain_name (rows db)) ->
  exists domain db',
    Crud.create_domain db new_id domain_create = Ok (domain, db')
    /\ Domain.id domain = new_id
    /\ Domain.domain_name domain = DomainCreate.domain_name domain_create
    /\ Domain.category domain = DomainCreate.category domain_create
    /\ Domain.price domain = DomainCreate.price domain_create
    /\ Domain.keyword_score domain = DomainCreate.keyword_score domain_create
    /\ Domain.views domain = DomainCreate.views domain_create
    /\ Domain.clicks domain = DomainCreate.clicks domain_create
    /\ Domain.is_sold domain = DomainCreate.is_sold domain_create
    /\ Crud.get_domain db' new_id = Some domain
    /\ (forall id, id <> new_id -> Crud.get_domain db' id = Crud.get_domain db id).
Proof.
  intros _ _ _ _ Hid Hname. unfold Crud.create_domain. cbn [Domain.domain_name].
  destruct (Crud.key_taken (rows db) new_id) eqn:K;
    [apply key_taken_iff in K; contradiction|].
  destruct (Crud.name_taken (rows db) (DomainCreate.domain_name domain_create)) eqn:N;
    [apply name_taken_iff in N; contradiction|].
  cbn [orb]. eexists; eexists. split; [reflexivity|].
  repeat (split; [reflexivity|]).
  unfold Crud.with_rows. destruct db as [rs f]. cbn [rows refuses] in *.
  split.
  - rewrite get_domain_app. cbn [Domain.id]. rewrite Z.eqb_refl.
    destruct (Crud.get_domain (mkSession rs f) new_id) eqn:G; [|reflexivity].
    exfalso. apply get_domain_some in G. destruct G as [Hin E].
    apply Hid. rewrite <- E. now apply in_map.
  - intros id Hne. rewrite get_domain_app. cbn [Domain.id].
    destruct (Z.eqb_spec new_id id); [congruence|].
    destruct (Crud.get_domain (mkSession rs f) id); reflexivity.
Qed.

Lemma get_domain_rows (rs : list Domain.t) (f g : Entity -> list Criterion -> bool)
    (id : Z) :
  Crud.get_domain (mkSession rs f) id = Crud.get_domain (mkSession rs g) id.
Proof. reflexivity. Qed.

Lemma get_domain_after_delete (db : Session) (id j : Z) :
  Crud.get_domain
    (Crud.with_rows db (filter (fun d => negb (Domain.id d =? id)%Z) (rows db))) j
  = if (j =? id)%Z then None else Crud.get_domain db j.
Proof.
  unfold Crud.get_domain, Crud.with_rows. cbn [rows].
  induction (rows db) as [|d l IH]; cbn [filter].
  - destruct (j =? id)%Z; reflexivity.
  - destruct (Z.eqb_spec (Domain.id d) id) as [E|N]; cbn [negb filter].
    + rewrite IH. destruct (Z.eqb_spec j id) as [->|Hj]; [reflexivity|].
      destruct (Z.eqb_spec (Domain.id d) j); [congruence | reflexivity].
    + destruct (Z.eqb_spec (Domain.id d) j) as [E'|N']; cbn [Crud.first].
      * destruct (Z.eqb_spec j id); [congruence | reflexivity].
      * exact IH.
Qed.

(** X14: on a session that serves its statements and for a key that fits the
    INTEGER column, [delete_domain] reports [True] exactly when the table
    holds the key; when it reports [False] the table is unchanged;
    afterwards [get_domain] finds nothing under the key and, under every
    other key, what it found before. *)
Theorem delete_domain_spec (db : Session) (domain_id : Z) :
  serves_all db ->
  fits_int64 domain_id ->
  exists deleted db',
    Crud.delete_domain db domain_id = (deleted, db')
    /\ (deleted = true <-> In domain_id (map Domain.id (rows db)))
    /\ (deleted = false -> db' = db)
    /\ Crud.get_domain db' domain_id = None
    /\ (forall id, id <> domain_id -> Crud.get_domain db' id = Crud.get_domain db id).
Proof.
  intros _ _. unfold Crud.delete_domain.
  destruct (Crud.get_domain db domain_id) as [domain|] eqn:G.
  - destruct (get_domain_some _ _ _ G) as [Hin Hid].
    eexists; eexists. split; [reflexivity|]. rewrite Hid.
    split; [|split; [discriminate|split]].
    + split; [intros _; rewrite <- Hid; now apply in_map | reflexivity].
    + rewrite get_domain_after_delete. now rewrite Z.eqb_refl.
    + intros id Hne. rewrite get_domain_after_delete.
      destruct (Z.eqb_spec id domain_id); [contradiction | reflexivity].
  - pose proof (proj1 (get_domain_none _ _) G) as Hn.
    eexists; eexists. split; [reflexivity|]. split; [|split; [reflexivity|split]].
    + split; [discriminate | intro; contradiction].
    + exact G.
    + reflexivity.
Qed.

Lemma get_domain_after_replace (db : Session) (updated : Domain.t) (j : Z) :
  Crud.get_domain (Crud.with_rows db (Crud.replace_row updated (rows db))) j
  = if (j =? Domain.id updated)%Z
    then match Crud.get_domain db j with Some _ => Some updated | None => None end
    else Crud.get_domain db j.
Proof.
  unfold Crud.get_domain, Crud.with_rows, Crud.replace_row. cbn [rows].
  induction (rows db) as [|d l IH]; cbn [map filter].
  - destruct (j =? Domain.id updated)%Z; reflexivity.
  - destruct (Z.eqb_spec (Domain.id d) (Domain.id updated)) as [E|N].
    + destruct (Z.eqb_spec j (Domain.id updated)) as [->|Hj].
      * rewrite Z.eqb_refl. rewrite E, Z.eqb_refl. reflexivity.
      * destruct (Z.eqb_spec (Domain.id updated) j); [congruence|].
        destruct (Z.eqb_spec (Domain.id d) j); [congruence|].
        rewrite IH. destruct (Z.eqb_spec j (Domain.id updated)); [contradiction|reflexivity].
    + destruct (Z.eqb_spec (Domain.id d) j) as [E'|N']; cbn [Crud.first].
      * destruct (Z.eqb_spec j (Domain.id updated)); [congruence | reflexivity].
      * exact IH.
Qed.

(** The value of a column after an update that was committed. *)

Lemma assign_ok {A : Type} (sent : Sent A) (current v : A) :
  Crud.assign sent current = Ok v -> v = after sent current.
Proof.
  destruct sent as [|[w|]]; simpl; intro H; [now injection H | now injection H | discriminate].
Qed.

Ltac bind_ok H x E :=
  match type of H with
  | bind ?m _ = Ok _ =>
      destruct m as [x|?] eqn:E; cbn [bind] in H; [|discriminate H]
  end.

(** X15: when [update_domain] returns a listing, that listing keeps its key,
    carries the sent value in every column that the request sent and the
    previous value in every other column; [get_domain] then finds it under
    its key, and the other listings are untouched. *)
Theorem update_domain_applies
    (db db' : Session) (domain_id : Z) (domain_update : DomainUpdate.t)
    (updated : Domain.t) :
  Crud.update_domain db domain_id domain_update = Ok (Some updated, db') ->
  exists domain,
    Crud.get_domain db domain_id = Some domain
    /\ Domain.id updated = domain_id
    /\ Domain.domain_name updated
       = after (DomainUpdate.domain_name domain_update) (Domain.domain_name domain)
    /\ Domain.category updated
       = after (DomainUpdate.category domain_update) (Domain.category domain)
    /\ Domain.price updated
       = after (DomainUpdate.price domain_update) (Domain.price domain)
    /\ Domain.keyword_score updated
       = after (DomainUpdate.keyword_score domain_update) (Domain.keyword_score domain)
    /\ Domain.views updated
       = after (DomainUpdate.views domain_update) (Domain.views domain)
    /\ Domain.clicks updated
       = after (DomainUpdate.clicks domain_update) (Domain.clicks domain)
    /\ Domain.is_sold updated
       = after (DomainUpdate.is_sold domain_update) (Domain.is_sold domain)
    /\ Crud.get_domain db' domain_id = Some updated
    /\ (forall id, id <> domain_id -> Crud.get_domain db' id = Crud.get_domain db id).
Proof.
  unfold Crud.update_domain. intro H.
  destruct (Crud.get_domain db domain_id) as [domain|] eqn:G; [|discriminate H].
  destruct (get_domain_some _ _ _ G) as [Hin Hid].
  bind_ok H n En. bind_ok H c Ec. bind_ok H p Ep. bind_ok H k Ek.
  bind_ok H v Ev. bind_ok H cl Ecl. bind_ok H s Es.
  cbv zeta in H.
  destruct (Crud.name_taken _ n); [discriminate H|].
  injection H as <- <-.
  exists domain. split; [reflexivity|]. cbn [Domain.id Domain.domain_name Domain.category
    Domain.price Domain.keyword_score Domain.views Domain.clicks Domain.is_sold].
  split; [exact Hid|].
  repeat (split; [now apply assign_ok|]).
  split.
  - rewrite get_domain_after_replace. cbn [Domain.id]. rewrite Hid, Z.eqb_refl, G.
    reflexivity.
  - intros id Hne. rewrite get_domain_after_replace. cbn [Domain.id]. rewrite Hid.
    destruct (Z.eqb_spec id domain_id); [contradiction | reflexivity].
Qed.

(** X16: [update_domain] returns [None] and leaves the table alone when the key
    is missing; for an existing listing it raises when the request sends
    [null] for a column, and when it sends a name that another listing
    holds. *)
Theorem update_domain_rejects
    (db : Session) (domain_id : Z) (domain_update : DomainUpdate.t) :
  (Crud.get_domain db domain_id = None ->
   Crud.update_domain db domain_id domain_update = Ok (None, db))
  /\ (forall domain,
         Crud.get_domain db domain_id = Some domain ->
         (DomainUpdate.domain_name domain_update = Sent_ None
          \/ DomainUpdate.category domain_update = Sent_ None
          \/ DomainUpdate.price domain_update = Sent_ None
          \/ DomainUpdate.keyword_score domain_update = Sent_ None
          \/ DomainUpdate.views domain_update = Sent_ None
          \/ DomainUpdate.clicks domain_update = Sent_ None
          \/ DomainUpdate.is_sold domain_update = Sent_ None) ->
         Crud.update_domain db domain_id domain_update = Raise SQLAlchemyError)
  /\ (forall domain other name,
         Crud.get_domain db domain_id = Some domain ->
         DomainUpdate.domain_name domain_update = Sent_ (Some name) ->
         In other (rows db) ->
         Domain.id other <> domain_id ->
         Domain.domain_name other = name ->
         Crud.update_domain db domain_id domain_update = Raise SQLAlchemyError).
Proof.
  unfold Crud.update_domain. split; [|split].
  - intros ->. reflexivity.
  - intros domain -> Hnull.
    destruct domain_update as [n c p k v cl s]. cbn in *.
    destruct n as [|[?|]], c as [|[?|]], p as [|[?|]], k as [|[?|]],
             v as [|[?|]], cl as [|[?|]], s as [|[?|]];
      cbn [Crud.assign bind]; try reflexivity;
      exfalso; repeat (destruct Hnull as [Hnull|Hnull]; try discriminate Hnull).
  - intros domain other name -> En Hin Hid Hname. rewrite En. cbn [Crud.assign bind].
    destruct (DomainUpdate.category domain_update) as [|[?|]];
      cbn [Crud.assign bind]; try reflexivity;
      destruct (DomainUpdate.price domain_update) as [|[?|]];
      cbn [Crud.assign bind]; try reflexivity;
      destruct (DomainUpdate.keyword_score domain_update) as [|[?|]];
      cbn [Crud.assign bind]; try reflexivity;
      destruct (DomainUpdate.views domain_update) as [|[?|]];
      cbn [Crud.assign bind]; try reflexivity;
      destruct (DomainUpdate.clicks domain_update) as [|[?|]];
      cbn [Crud.assign bind]; try reflexivity;
      destruct (DomainUpdate.is_sold domain_update) as [|[?|]];
      cbn [Crud.assign bind]; try reflexivity; cbv zeta.
    all: assert (T : Crud.name_taken
                  (filter (fun d => negb (Domain.id d =? domain_id)%Z) (rows db)) name
                = true)
      by (apply name_taken_iff; rewrite <- Hname; apply in_map; apply filter_In;
          split; [exact Hin|]; destruct (Z.eqb_spec (Domain.id other) domain_id);
          [contradiction | reflexivity]).
    all: rewrite T; reflexivity.
Qed.

Lemma firstn_add_skipn {A : Type} (a b : nat) (l : list A) :
  firstn a l ++ firstn b (skipn a l) = firstn (a + b) l.
Proof.
  revert l. induction a as [|a IH]; intro l; [reflexivity|].
  destruct l as [|x l]; cbn [firstn skipn app Nat.add].
  - now rewrite firstn_nil.
  - now rewrite IH.
Qed.

Lemma skipn_add {A : Type} (a b : nat) (l : list A) :
  skipn (a + b) l = skipn b (skipn a l).
Proof.
  revert l. induction a as [|a IH]; intro l; [reflexivity|].
  destruct l as [|x l]; cbn [skipn Nat.add]; [now rewrite skipn_nil | apply IH].
Qed.

(** X18: consecutive pages add up: the page of [a] listings from offset [skip]
    followed by the page of [b] listings from offset [skip + a] is the page
    of [a + b] listings from offset [skip], under the same filters. *)
Theorem get_domains_pages_concatenate
    (db : Session) (skip a b : Z) (category : option string) (is_sold : option bool) :
  (0 <= skip)%Z -> (0 <= a)%Z -> (0 <= b)%Z ->
  Crud.get_domains db skip a category is_sold
    ++ Crud.get_domains db (skip + a) b category is_sold
  = Crud.get_domains db skip (a + b) category is_sold.
Proof.
  intros Hs Ha Hb. unfold Crud.get_domains, Crud.offset_limit.
  destruct (Z.ltb_spec a 0); [lia|]. destruct (Z.ltb_spec b 0); [lia|].
  destruct (Z.ltb_spec (a + b) 0); [lia|].
  rewrite !Z2Nat.inj_add by lia. rewrite skipn_add. apply firstn_add_skipn.
Qed.

Lemma get_domains_matching
    (db : Session) (skip limit : Z) (category : option string) (is_sold : option bool) :
  Crud.get_domains db skip limit category is_sold
  = Crud.offset_limit skip limit (filter (matches category is_sold) (rows db)).
Proof.
  unfold Crud.get_domains, Crud.served, matches. f_equal.
  destruct category as [c|]; [destruct (String.eqb c "")|]; destruct is_sold;
    cbn [query filter_by criteria bound_to app]; apply filter_ext; intro d;
    cbn [forallb satisfies]; rewrite ?andb_true_r; reflexivity.
Qed.

(** X19: [get_domains] returns at most [limit] listings, all of the table, all of
    the category asked for when it is a non-empty string and with the sold
    status asked for; an empty category string filters nothing. *)
Theorem get_domains_filters
    (db : Session) (skip limit : Z) (category : option string) (is_sold : option bool) :
  (0 <= limit)%Z ->
  (Z.of_nat (List.length (Crud.get_domains db skip limit category is_sold)) <= limit)%Z
  /\ (forall d,
         In d (Crud.get_domains db skip limit category is_sold) ->
         In d (rows db)
         /\ (forall c, category = Some c -> c <> ""%string -> Domain.category d = c)
         /\ (forall b, is_sold = Some b -> Domain.is_sold d = b))
  /\ Crud.get_domains db skip limit (Some ""%string) is_sold
     = Crud.get_domains db skip limit None is_sold.
Proof.
  intro Hl. split; [|split].
  - unfold Crud.get_domains, Crud.offset_limit. destruct (Z.ltb_spec limit 0); [lia|].
    rewrite length_firstn. lia.
  - intros d Hd. rewrite get_domains_matching in Hd. unfold Crud.offset_limit in Hd.
    destruct (Z.ltb_spec limit 0); [lia|].
    apply firstn_subset in Hd.
    assert (Hd' : In d (filter (matches category is_sold) (rows db))).
    { rewrite <- (firstn_skipn (Z.to_nat skip)). apply in_or_app. right. exact Hd. }
    apply filter_In in Hd'. destruct Hd' as [Hin Hm].
    unfold matches in Hm. apply andb_prop in Hm. destruct Hm as [Hc Hs].
    split; [exact Hin|]. split.
    + intros c -> Hne. destruct (String.eqb_spec c ""); [contradiction|].
      now apply String.eqb_eq.
    + intros b ->. now apply Bool.eqb_prop.
  - reflexivity.
Qed.

(* ====================================================================== *)
(** ** Properties of the analytics *)
(* ====================================================================== *)

Lemma count_filter_le {A : Type} (P : A -> bool) (l : list A) :
  (0 <= Analytics.count (filter P l) <= Analytics.count l)%Z.
Proof.
  unfold Analytics.count. pose proof (filter_length_le P l). lia.
Qed.

Lemma percentage_returns (part whole : Z) :
  (0 <= part <= whole)%Z ->
  exists q, Analytics.percentage part whole = Ok q /\ 0 <= q /\ q <= 100.
Proof.
  intro H. unfold Analytics.percentage.
  destruct (Z.gtb_spec whole 0) as [Hw|Hw].
  - rewrite truediv_ok by lia. cbn [bind ret]. eexists; split; [reflexivity|].
    assert (H0 : 0 <= ctr_of part whole) by (apply ctr_of_nonneg; lia).
    assert (H1 : ctr_of part whole <= 1).
    { unfold ctr_of. apply Qle_shift_div_r.
      - change 0 with (inject_Z 0). rewrite <- Zlt_Qlt. lia.
      - rewrite Qmult_1_l. rewrite <- Zle_Qle. lia. }
    split; lra.
  - eexists; split; [reflexivity|]. split; unfold Qle; simpl; lia.
Qed.

Lemma fold_left_add_shift (zs : list Z) (a : Z) :
  fold_left Z.add zs a = (a + fold_left Z.add zs 0)%Z.
Proof.
  revert a. induction zs as [|z zs IH]; intro a; cbn [fold_left]; [lia|].
  rewrite (IH (a + z)%Z), (IH (0 + z)%Z). lia.
Qed.

Lemma sold_in_count (rs : list Domain.t) :
  Analytics.sold_in rs
  = Analytics.count (filter (fun d => Bool.eqb (Domain.is_sold d) true) rs).
Proof.
  unfold Analytics.sold_in, Analytics.count.
  induction rs as [|d rs IH]; [reflexivity|].
  cbn [map fold_left filter]. rewrite fold_left_add_shift, IH.
  destruct (Domain.is_sold d); cbn [Bool.eqb List.length]; lia.
Qed.

Lemma distinct_In (keys : list string) (k : string) :
  In k (Analytics.distinct keys) <-> In k keys.
Proof.
  induction keys as [|x keys IH]; [reflexivity|].
  cbn [Analytics.distinct]. simpl. rewrite filter_In, IH.
  destruct (String.eqb_spec k x) as [->|N]; [tauto|].
  split; [tauto|]. intros [E|H]; [congruence|]. right. split; [exact H | reflexivity].
Qed.

Lemma distinct_NoDup (keys : list string) : NoDup (Analytics.distinct keys).
Proof.
  induction keys as [|x keys IH]; [constructor|].
  cbn [Analytics.distinct]. constructor.
  - rewrite filter_In. intros [_ H]. rewrite String.eqb_refl in H. discriminate.
  - now apply NoDup_filter.
Qed.

Lemma group_by_keys {A : Type} (key : A -> string) (rs : list A) :
  map fst (Analytics.group_by key rs) = Analytics.distinct (map key rs).
Proof.
  unfold Analytics.group_by. rewrite map_map. cbn [fst]. apply map_id.
Qed.

Lemma group_by_members {A : Type} (key : A -> string) (rs : list A)
    (k : string) (members : list A) :
  In (k, members) (Analytics.group_by key rs) ->
  members = filter (fun r => String.eqb (key r) k) rs /\ In k (map key rs).
Proof.
  unfold Analytics.group_by. rewrite in_map_iff. intros [k' [E Hk]].
  injection E as -> <-. split; [reflexivity|]. now apply distinct_In.
Qed.

(** With every key of the rows listed once, the sizes of the groups add up
    to the number of rows. *)
Lemma partition_sizes {A : Type} (key : A -> string) (P : A -> bool)
    (keys : list string) (rs : list A) :
  NoDup keys ->
  (forall r, In r rs -> In (key r) keys) ->
  total (map (fun k => Analytics.count
                         (filter P (filter (fun r => String.eqb (key r) k) rs)))
             keys)
  = Analytics.count (filter P rs).
Proof.
  intros Hnd. induction rs as [|r rs IH]; intro Hin.
  - cbn [filter]. unfold total, Analytics.count. cbn [List.length].
    clear Hnd Hin. induction keys as [|k keys IHk]; [reflexivity|].
    cbn [map fold_right]. rewrite IHk. reflexivity.
  - assert (IH' := IH (fun x Hx => Hin x (or_intror Hx))). clear IH.
    assert (Hr := Hin r (or_introl eq_refl)).
    assert (Step : forall ks, NoDup ks ->
              total (map (fun k => Analytics.count
                           (filter P (filter (fun x => String.eqb (key x) k) (r :: rs)))) ks)
              = (total (map (fun k => Analytics.count
                           (filter P (filter (fun x => String.eqb (key x) k) rs))) ks)
                 + (if P r then if existsb (String.eqb (key r)) ks then 1 else 0 else 0))%Z).
    { induction ks as [|k ks IHk]; intro Hks.
      - cbn. destruct (P r); reflexivity.
      - inversion Hks as [|? ? Hk Hks']; subst.
        cbn [map total fold_right existsb]. fold (total (map (fun k0 => Analytics.count
                           (filter P (filter (fun x => String.eqb (key x) k0) (r :: rs)))) ks)).
        fold (total (map (fun k0 => Analytics.count
                           (filter P (filter (fun x => String.eqb (key x) k0) rs))) ks)).
        rewrite (IHk Hks'). cbn [filter].
        destruct (String.eqb_spec (key r) k) as [E|N].
        + assert (X : existsb (String.eqb (key r)) ks = false).
          { destruct (existsb (String.eqb (key r)) ks) eqn:X; [|reflexivity].
            apply existsb_exists in X. destruct X as [y [Hy Ey]].
            apply String.eqb_eq in Ey. exfalso. apply Hk. congruence. }
          rewrite X. cbn [orb filter]. unfold Analytics.count.
          destruct (P r); cbn [List.length]; lia.
        + cbn [orb]. lia. }
    rewrite (Step keys Hnd), IH'. cbn [filter].
    assert (X : existsb (String.eqb (key r)) keys = true).
    { apply existsb_exists. exists (key r). split; [exact Hr | apply String.eqb_refl]. }
    rewrite X. unfold Analytics.count. destruct (P r); cbn [List.length]; lia.
Qed.

Lemma filter_true {A : Type} (l : list A) : filter (fun _ => true) l = l.
Proof. induction l as [|x l IH]; cbn [filter]; congruence. Qed.

Lemma group_sizes {A : Type} (key : A -> string) (rs : list A) :
  total (map (fun g => Analytics.count (snd g)) (Analytics.group_by key rs))
  = Analytics.count rs.
Proof.
  unfold Analytics.group_by. rewrite map_map. cbn [snd].
  rewrite <- (filter_true rs) at 2.
  rewrite <- (partition_sizes key (fun _ => true) (Analytics.distinct (map key rs)) rs).
  - f_equal. apply map_ext. intro k. now rewrite filter_true.
  - apply distinct_NoDup.
  - intros r Hr. apply distinct_In. now apply in_map.
Qed.

Lemma category_results_spec (groups : list (string * list Domain.t))
    (results : list Analytics.CategoryStats.t) :
  exists tail,
    Analytics.category_results groups results = Ok (results ++ tail)
    /\ Forall2 stats_of_group groups tail.
Proof.
  revert results. induction groups as [|[c members] groups IH]; intro results.
  - exists []. cbn. rewrite app_nil_r. split; [reflexivity | constructor].
  - cbn [Analytics.category_results].
    destruct (percentage_returns (Analytics.sold_in members) (Analytics.count members))
      as [q [Eq [H0 H1]]].
    { rewrite sold_in_count. apply count_filter_le. }
    rewrite Eq. cbn [bind].
    match goal with
    | |- context [Analytics.category_results groups (results ++ [?s])] =>
        destruct (IH (results ++ [s])) as [tail [-> Ht]]; exists (s :: tail)
    end.
    split; [now rewrite <- app_assoc|].
    constructor; [|exact Ht].
    unfold stats_of_group. cbn. split; [reflexivity|]. split; [reflexivity|].
    split; [apply sold_in_count|].
    apply (py_round_between q 2 0 100); assumption.
Qed.

Lemma Forall2_map_eq {A B C : Type} (R : A -> B -> Prop) (f : A -> C) (g : B -> C)
    (l : list A) (l' : list B) :
  (forall a b, R a b -> f a = g b) -> Forall2 R l l' -> map f l = map g l'.
Proof.
  intros H. induction 1 as [|a b l l' Hab _ IH]; cbn [map]; [reflexivity|].
  now rewrite (H a b Hab), IH.
Qed.

Lemma get_summary_served (db : Session) :
  exists summary,
    Analytics.get_summary db None None = Ok summary
    /\ total (map Analytics.CategoryStats.count (Analytics.Summary.categories summary))
       = Analytics.Kpis.total_domains (Analytics.Summary.global summary)
    /\ total (map Analytics.CategoryStats.sold_count
                  (Analytics.Summary.categories summary))
       = Analytics.Kpis.sold_domains (Analytics.Summary.global summary)
    /\ NoDup (map Analytics.CategoryStats.category
                  (Analytics.Summary.categories summary))
    /\ (forall d, In d (rows db) ->
                  In (Domain.category d)
                     (map Analytics.CategoryStats.category
                          (Analytics.Summary.categories summary))).
Proof.
  unfold Analytics.get_summary, Analytics.get_global_kpis, Analytics.get_category_stats.
  destruct (percentage_returns
              (Analytics.count (filter (fun d => Bool.eqb (Domain.is_sold d) true) (rows db)))
              (Analytics.count (rows db)) (count_filter_le _ _)) as [q [-> _]].
  cbn [bind ret].
  destruct (category_results_spec (Analytics.group_by Domain.category (rows db)) [])
    as [stats [-> H2]].
  cbn [app bind]. eexists. split; [reflexivity|].
  cbn [Analytics.Summary.categories Analytics.Summary.global].
  cbn [Analytics.Kpis.total_domains Analytics.Kpis.sold_domains].
  assert (Ec : map Analytics.CategoryStats.count stats
               = map (fun g => Analytics.count (snd g))
                     (Analytics.group_by Domain.category (rows db))).
  { symmetry. apply (Forall2_map_eq stats_of_group); [|exact H2].
    intros g s (_ & E & _). now symmetry. }
  assert (Es : map Analytics.CategoryStats.sold_count stats
               = map (fun g => Analytics.count
                                 (filter (fun d => Bool.eqb (Domain.is_sold d) true) (snd g)))
                     (Analytics.group_by Domain.category (rows db))).
  { symmetry. apply (Forall2_map_eq stats_of_group); [|exact H2].
    intros g s (_ & _ & E & _). now symmetry. }
  assert (Ek : map Analytics.CategoryStats.category stats
               = Analytics.distinct (map Domain.category (rows db))).
  { rewrite <- group_by_keys. symmetry.
    apply (Forall2_map_eq stats_of_group); [|exact H2].
    intros g s (E & _). now symmetry. }
  split; [rewrite Ec; apply group_sizes|].
  split.
  - rewrite Es. unfold Analytics.group_by. rewrite map_map. cbn [snd].
    apply partition_sizes; [apply distinct_NoDup|].
    intros r Hr. apply distinct_In. now apply in_map.
  - rewrite Ek. split; [apply distinct_NoDup|].
    intros d Hd. apply distinct_In. now apply in_map.
Qed.

(** X21: each record of [get_category_stats] counts the listings of its
    category and the sold ones among them; the count is at least 1, the
    sold count is between 0 and the count, and the conversion rate is
    between 0 and 100. *)
Theorem get_category_stats_per_category
    (db : Session) (stats : list Analytics.CategoryStats.t)
    (s : Analytics.CategoryStats.t) :
  Analytics.get_category_stats db None = Ok stats ->
  In s stats ->
  Analytics.CategoryStats.count s
  = Analytics.count (filter (in_category (Analytics.CategoryStats.category s)) (rows db))
  /\ (1 <= Analytics.CategoryStats.count s)%Z
  /\ Analytics.CategoryStats.sold_count s
     = Analytics.count
         (filter (fun d => Bool.eqb (Domain.is_sold d) true)
                 (filter (in_category (Analytics.CategoryStats.category s)) (rows db)))
  /\ (0 <= Analytics.CategoryStats.sold_count s <= Analytics.CategoryStats.count s)%Z
  /\ 0 <= Analytics.CategoryStats.conversion_rate s
  /\ Analytics.CategoryStats.conversion_rate s <= 100.
Proof.
  unfold Analytics.get_category_stats. intros H Hs.
  destruct (category_results_spec (Analytics.group_by Domain.category (rows db)) [])
    as [stats' [E H2]].
  rewrite E in H. cbn [app] in H. injection H as ->.
  destruct (Forall2_In_r _ _ _ _ H2 Hs) as [[c ms] [Hg (Ec & En & Esold & H0 & H1)]].
  cbn [fst snd] in *.
  destruct (group_by_members _ _ _ _ Hg) as [-> Hc].
  rewrite Ec. unfold in_category.
  split; [exact En|]. split.
  - rewrite En. apply in_map_iff in Hc. destruct Hc as [d [Ed Hd]].
    assert (Hin : In d (filter (fun r => String.eqb (Domain.category r) c) (rows db))).
    { apply filter_In. split; [exact Hd | now apply String.eqb_eq]. }
    unfold Analytics.count.
    destruct (filter (fun r => String.eqb (Domain.category r) c) (rows db));
      [destruct Hin | cbn [List.length]; lia].
  - split; [exact Esold|]. split; [|split; assumption].
    rewrite Esold, En. apply count_filter_le.
Qed.

Lemma fold_left_Qplus_shift (xs : list Q) (a : Q) :
  fold_left Qplus xs a == a + fold_left Qplus xs 0.
Proof.
  revert a. induction xs as [|x xs IH]; intro a; cbn [fold_left]; [ring|].
  rewrite (IH (a + x)), (IH (0 + x)). ring.
Qed.

Lemma py_sum_cons (x : Q) (xs : list Q) : py_sum (x :: xs) == x + py_sum xs.
Proof.
  unfold py_sum. cbn [fold_left]. rewrite fold_left_Qplus_shift. ring.
Qed.

Lemma count_cons {A : Type} (x : A) (xs : list A) :
  inject_Z (Analytics.count (x :: xs)) == 1 + inject_Z (Analytics.count xs).
Proof.
  unfold Analytics.count. cbn [List.length]. rewrite Nat2Z.inj_succ.
  unfold Z.succ. rewrite inject_Z_plus. ring.
Qed.

Lemma py_sum_between (xs : list Q) (lo hi : Q) :
  (forall x, In x xs -> lo <= x) -> (forall x, In x xs -> x <= hi) ->
  lo * inject_Z (Analytics.count xs) <= py_sum xs
  /\ py_sum xs <= hi * inject_Z (Analytics.count xs).
Proof.
  induction xs as [|x xs IH]; intros Hlo Hhi.
  - unfold py_sum, Analytics.count. cbn [fold_left List.length Z.of_nat].
    change (inject_Z 0) with 0. split; lra.
  - destruct IH as [IH1 IH2];
      [intros y Hy; apply Hlo; now right | intros y Hy; apply Hhi; now right|].
    pose proof (Hlo x (or_introl eq_refl)). pose proof (Hhi x (or_introl eq_refl)).
    rewrite py_sum_cons, count_cons. split; nra.
Qed.

Lemma avg_between (xs : list Q) (lo hi : Q) :
  xs <> [] ->
  (forall x, In x xs -> lo <= x) -> (forall x, In x xs -> x <= hi) ->
  exists a, Analytics.avg xs = Some a /\ lo <= a /\ a <= hi.
Proof.
  intros Hne Hlo Hhi. destruct (py_sum_between xs lo hi Hlo Hhi) as [H1 H2].
  destruct xs as [|x xs]; [contradiction|].
  cbn [Analytics.avg]. eexists; split; [reflexivity|].
  assert (Hn : 0 < inject_Z (Analytics.count (x :: xs))).
  { unfold Analytics.count. cbn [List.length]. change 0 with (inject_Z 0).
    rewrite <- Zlt_Qlt. lia. }
  split.
  - apply Qle_shift_div_l; assumption.
  - apply Qle_shift_div_r; assumption.
Qed.

Lemma rounded_or_zero_between (x : option Q) (a lo hi : Q) :
  x = Some a -> lo <= a -> a <= hi ->
  py_round lo 2 <= Analytics.rounded_or_zero x
  /\ Analytics.rounded_or_zero x <= py_round hi 2.
Proof.
  intros -> Hlo Hhi. unfold Analytics.rounded_or_zero.
  destruct (Qeq_bool a 0) eqn:E.
  - apply Qeq_bool_iff in E.
    assert (Z0 : 0.0 == py_round 0 2) by reflexivity.
    rewrite Z0. split; apply py_round_monotone; lra.
  - split; now apply py_round_monotone.
Qed.

Lemma get_global_kpis_served (db : Session) :
  exists kpis,
    Analytics.get_global_kpis db None = Ok kpis
    /\ Analytics.Kpis.total_domains kpis = Z.of_nat (List.length (rows db))
    /\ (0 <= Analytics.Kpis.sold_domains kpis <= Analytics.Kpis.total_domains kpis)%Z
    /\ 0 <= Analytics.Kpis.conversion_rate kpis
    /\ Analytics.Kpis.conversion_rate kpis <= 100
    /\ (rows db = [] ->
        Analytics.Kpis.conversion_rate kpis == 0
        /\ Analytics.Kpis.average_price kpis == 0)
    /\ (forall lo hi,
           rows db <> [] ->
           (forall d, In d (rows db) -> lo <= Domain.price d) ->
           (forall d, In d (rows db) -> Domain.price d <= hi) ->
           py_round lo 2 <= Analytics.Kpis.average_price kpis
           /\ Analytics.Kpis.average_price kpis <= py_round hi 2).
Proof.
  unfold Analytics.get_global_kpis.
  destruct (percentage_returns
              (Analytics.count (filter (fun d => Bool.eqb (Domain.is_sold d) true) (rows db)))
              (Analytics.count (rows db)) (count_filter_le _ _)) as [q [Eq [H0 H1]]].
  rewrite Eq. cbn [bind ret]. eexists; split; [reflexivity|].
  cbn [Analytics.Kpis.total_domains Analytics.Kpis.sold_domains
       Analytics.Kpis.conversion_rate Analytics.Kpis.average_price].
  split; [reflexivity|]. split; [apply count_filter_le|].
  split; [apply (py_round_between q 2 0 100); assumption|].
  split; [apply (py_round_between q 2 0 100); assumption|].
  split.
  - intro E. rewrite E in *. cbn in Eq. injection Eq as <-. split; reflexivity.
  - intros lo hi Hne Hlo Hhi.
    destruct (avg_between (map Domain.price (rows db)) lo hi) as [a [Ea [Ha1 Ha2]]].
    + destruct (rows db); [contradiction | discriminate].
    + intros x Hx. apply in_map_iff in Hx. destruct Hx as [d [<- Hd]]. now apply Hlo.
    + intros x Hx. apply in_map_iff in Hx. destruct Hx as [d [<- Hd]]. now apply Hhi.
    + exact (rounded_or_zero_between _ a lo hi Ea Ha1 Ha2).
Qed.









Lemma get_demand_indicators_price_bands_served (db : Session) (top_n : Z) :
  exists r,
    Analytics.get_demand_indicators db top_n None = Ok r
    /\ total (map Analytics.PriceBand.count (Analytics.Demand.price_engagement r))
       = Z.of_nat (List.length (rows db))
    /\ NoDup (map Analytics.PriceBand.price_band (Analytics.Demand.price_engagement r))
    /\ Forall (fun b =>
                 In (Analytics.PriceBand.price_band b) ["low"; "mid"; "high"]%string
                 /\ Analytics.PriceBand.count b
                    = Analytics.count
                        (filter (in_band (Analytics.PriceBand.price_band b)) (rows db))
                 /\ (1 <= Analytics.PriceBand.count b)%Z)
              (Analytics.Demand.price_engagement r).
Proof.
  unfold Analytics.get_demand_indicators. cbv zeta.
  eexists; split; [reflexivity|]. cbn [Analytics.Demand.price_engagement].
  rewrite !map_map. cbn [Analytics.PriceBand.count Analytics.PriceBand.price_band].
  split; [apply group_sizes|]. split.
  - change (map (fun x => fst x) (Analytics.group_by Analytics.price_band (rows db)))
      with (map fst (Analytics.group_by Analytics.price_band (rows db))).
    rewrite group_by_keys. apply distinct_NoDup.
  - apply Forall_forall. intros b Hb. apply in_map_iff in Hb.
    destruct Hb as [[label members] [<- Hg]].
    cbn [Analytics.PriceBand.count Analytics.PriceBand.price_band fst snd].
    destruct (group_by_members _ _ _ _ Hg) as [-> Hl].
    apply in_map_iff in Hl. destruct Hl as [d [Ed Hd]].
    split; [|split].
    + rewrite <- Ed. unfold Analytics.price_band.
      destruct (Qlt_bool (Domain.price d) 1000); [simpl; tauto|].
      destruct (Qlt_bool (Domain.price d) 10000); simpl; tauto.
    + reflexivity.
    + assert (Hin : In d (filter (fun r => String.eqb (Analytics.price_band r) label)
                                 (rows db))).
      { apply filter_In. split; [exact Hd | now apply String.eqb_eq]. }
      unfold Analytics.count.
      destruct (filter (fun r => String.eqb (Analytics.price_band r) label) (rows db));
        [destruct Hin | cbn [List.length]; lia].
Qed.


(** X20: when both calls of [get_summary] are served, its parts agree: the
    per-category counts add up to the global total, the per-category sold
    counts add up to the global sold count, every category is listed once,
    and the category of every listing is listed. When only one of the two
    calls meets an [OperationalError] the parts disagree: zeros on one
    side, the figures of the table on the other. When both meet one, the
    summary is the safe default; any other exception propagates. *)
Theorem get_summary_adds_up
    (db : Session) (fault_global fault_categories : option Analytics.Fault) :
  (fault_global = None -> fault_categories = None ->
   exists summary,
     Analytics.get_summary db fault_global fault_categories = Ok summary
     /\ total (map Analytics.CategoryStats.count (Analytics.Summary.categories summary))
        = Analytics.Kpis.total_domains (Analytics.Summary.global summary)
     /\ total (map Analytics.CategoryStats.sold_count
                   (Analytics.Summary.categories summary))
        = Analytics.Kpis.sold_domains (Analytics.Summary.global summary)
     /\ NoDup (map Analytics.CategoryStats.category
                   (Analytics.Summary.categories summary))
     /\ (forall d, In d (rows db) ->
                   In (Domain.category d)
                      (map Analytics.CategoryStats.category
                           (Analytics.Summary.categories summary))))
  /\ (fault_global = Some Analytics.OperationalError -> fault_categories = None ->
      exists summary,
        Analytics.get_summary db fault_global fault_categories = Ok summary
        /\ Analytics.Kpis.total_domains (Analytics.Summary.global summary) = 0%Z
        /\ total (map Analytics.CategoryStats.count
                      (Analytics.Summary.categories summary))
           = Z.of_nat (List.length (rows db)))
  /\ (fault_global = None -> fault_categories = Some Analytics.OperationalError ->
      exists summary,
        Analytics.get_summary db fault_global fault_categories = Ok summary
        /\ Analytics.Kpis.total_domains (Analytics.Summary.global summary)
           = Z.of_nat (List.length (rows db))
        /\ Analytics.Summary.categories summary = [])
  /\ (fault_global = Some Analytics.OperationalError ->
      fault_categories = Some Analytics.OperationalError ->
      Analytics.get_summary db fault_global fault_categories
      = Ok (Analytics.Summary.mk (Analytics.Kpis.mk 0 0 0.0 0.0) []))
  /\ (forall e,
         fault_global = Some (Analytics.OtherError e) ->
         Analytics.get_summary db fault_global fault_categories = Raise e)
  /\ (forall e,
         fault_categories = Some (Analytics.OtherError e) ->
         (forall e', fault_global <> Some (Analytics.OtherError e')) ->
         Analytics.get_summary db fault_global fault_categories = Raise e).
Proof.
  split; [intros -> ->; exact (get_summary_served db)|].
  split.
  { intros -> ->.
    destruct (get_summary_served db) as (summary & E & Hcount & _).
    destruct (get_global_kpis_served db) as (kpis & Ek & Htotal & _).
    unfold Analytics.get_summary in *. rewrite Ek in E. cbn [bind] in E.
    cbn [Analytics.get_global_kpis bind ret].
    destruct (Analytics.get_category_stats db None) as [stats|e]; [|discriminate E].
    cbn [bind ret] in *. apply Ok_injective in E. subst summary.
    cbn [Analytics.Summary.categories Analytics.Summary.global] in *.
    eexists. split; [reflexivity|].
    cbn [Analytics.Summary.categories Analytics.Summary.global
         Analytics.Kpis.total_domains].
    split; [reflexivity|]. rewrite Hcount. exact Htotal. }
  split.
  { intros -> ->.
    destruct (get_global_kpis_served db) as (kpis & Ek & Htotal & _).
    unfold Analytics.get_summary. rewrite Ek. cbn [bind Analytics.get_category_stats ret].
    eexists. split; [reflexivity|].
    cbn [Analytics.Summary.categories Analytics.Summary.global].
    split; [exact Htotal | reflexivity]. }
  split; [intros -> ->; reflexivity|].
  split; [intros e ->; reflexivity|].
  intros e -> Hg. unfold Analytics.get_summary.
  destruct fault_global as [[|e']|].
  - reflexivity.
  - exfalso. exact (Hg e' eq_refl).
  - destruct (get_global_kpis_served db) as (kpis & -> & _). reflexivity.
Qed.


(** X24: when its statements are served, the price bands of
    [get_demand_indicators] partition the table: each band is one of low,
    mid and high and is listed once, it counts the listings whose price
    falls in it, at least one, and the counts add up to the number of
    listings. When the database raises [OperationalError] no band is
    listed; any other exception propagates. *)
Theorem get_demand_indicators_price_bands
    (db : Session) (top_n : Z) (fault : option Analytics.Fault) :
  (fault = None ->
   exists r,
     Analytics.get_demand_indicators db top_n fault = Ok r
     /\ total (map Analytics.PriceBand.count (Analytics.Demand.price_engagement r))
        = Z.of_nat (List.length (rows db))
     /\ NoDup (map Analytics.PriceBand.price_band (Analytics.Demand.price_engagement r))
     /\ Forall (fun b =>
                  In (Analytics.PriceBand.price_band b) ["low"; "mid"; "high"]%string
                  /\ Analytics.PriceBand.count b
                     = Analytics.count
                         (filter (in_band (Analytics.PriceBand.price_band b)) (rows db))
                  /\ (1 <= Analytics.PriceBand.count b)%Z)
               (Analytics.Demand.price_engagement r))
  /\ (fault = Some Analytics.OperationalError ->
      exists r,
        Analytics.get_demand_indicators db top_n fault = Ok r
        /\ Analytics.Demand.price_engagement r = [])
  /\ (forall e,
         fault = Some (Analytics.OtherError e) ->
         Analytics.get_demand_indicators db top_n fault = Raise e).
Proof.
  split; [intros ->; exact (get_demand_indicators_price_bands_served db top_n)|].
  split; [intros ->; eexists; split; reflexivity|].
  intros e ->. reflexivity.
Qed.
(* ====================================================================== *)
(** ** Properties of the routes *)
(* ====================================================================== *)

Lemma int_query_accepts (default lo hi : Z) (given : option Z) :
  (forall v, given = Some v -> (lo <= v <= hi)%Z) ->
  Api.int_query default lo hi given = Some (requested default given).
Proof.
  intro H. destruct given as [v|]; [|reflexivity]. simpl.
  pose proof (H v eq_refl) as Hv.
  destruct (Z.leb_spec lo v); [|lia]. destruct (Z.leb_spec v hi); [|lia]. reflexivity.
Qed.

Lemma int_query_rejects (default lo hi : Z) (given : option Z) :
  ~ (forall v, given = Some v -> (lo <= v <= hi)%Z) ->
  Api.int_query default lo hi given = None.
Proof.
  intro H. destruct given as [v|]; [|exfalso; apply H; discriminate]. simpl.
  destruct (Z.leb_spec lo v); [|reflexivity].
  destruct (Z.leb_spec v hi); [|reflexivity].
  exfalso. apply H. intros w [= <-]. lia.
Qed.

Lemma int_query_ge_accepts (default lo : Z) (given : option Z) :
  (forall v, given = Some v -> (lo <= v)%Z) ->
  Api.int_query_ge default lo given = Some (requested default given).
Proof.
  intro H. destruct given as [v|]; [|reflexivity]. simpl.
  pose proof (H v eq_refl) as Hv. destruct (Z.leb_spec lo v); [reflexivity | lia].
Qed.

Lemma int_query_ge_rejects (default lo : Z) (given : option Z) :
  ~ (forall v, given = Some v -> (lo <= v)%Z) ->
  Api.int_query_ge default lo given = None.
Proof.
  intro H. destruct given as [v|]; [|exfalso; apply H; discriminate]. simpl.
  destruct (Z.leb_spec lo v); [|reflexivity].
  exfalso. apply H. intros w [= <-]. assumption.
Qed.

Lemma float_query_accepts (given : option Q) :
  valid_price given -> Api.float_query_ge0 given = Some given.
Proof.
  intro H. destruct given as [v|]; [|reflexivity]. simpl.
  destruct (Qle_bool 0 v) eqn:E; [reflexivity|].
  apply Qle_bool_false_iff in E. pose proof (H v eq_refl). exfalso. lra.
Qed.

Lemma float_query_rejects (given : option Q) :
  ~ valid_price given -> Api.float_query_ge0 given = None.
Proof.
  intro H. destruct given as [v|]; [|exfalso; apply H; discriminate]. simpl.
  destruct (Qle_bool 0 v) eqn:E; [|reflexivity].
  apply Qle_bool_iff in E. exfalso. apply H. intros w [= <-]. exact E.
Qed.

Lemma valid_bounds_dec (lo hi : Z) (given : option Z) :
  (forall v, given = Some v -> (lo <= v <= hi)%Z)
  \/ ~ (forall v, given = Some v -> (lo <= v <= hi)%Z).
Proof.
  destruct given as [v|]; [|left; discriminate].
  destruct (Z_le_dec lo v); [destruct (Z_le_dec v hi)|].
  - left. intros w [= <-]. lia.
  - right. intro H. pose proof (H v eq_refl). lia.
  - right. intro H. pose proof (H v eq_refl). lia.
Qed.

Lemma valid_lower_dec (lo : Z) (given : option Z) :
  (forall v, given = Some v -> (lo <= v)%Z)
  \/ ~ (forall v, given = Some v -> (lo <= v)%Z).
Proof.
  destruct given as [v|]; [|left; discriminate].
  destruct (Z_le_dec lo v).
  - left. intros w [= <-]. assumption.
  - right. intro H. pose proof (H v eq_refl). lia.
Qed.

Lemma valid_price_dec (given : option Q) :
  valid_price given \/ ~ valid_price given.
Proof.
  destruct given as [v|]; [|left; discriminate].
  destruct (Qlt_le_dec v 0).
  - right. intro H. pose proof (H v eq_refl). lra.
  - left. intros w [= <-]. assumption.
Qed.

Lemma first_filter_name (rs : list Domain.t) (name : string) :
  Crud.first (filter (fun d => String.eqb (Domain.domain_name d) name) rs) = None
  <-> ~ In name (map Domain.domain_name rs).
Proof.
  induction rs as [|d rs IH]; [simpl; tauto|].
  cbn [filter map]. destruct (String.eqb_spec (Domain.domain_name d) name) as [E|N].
  - simpl. split; [discriminate | intro H; exfalso; apply H; now left].
  - rewrite IH. simpl. tauto.
Qed.

Lemma get_domains_within
    (db : Session) (skip limit : Z) (category : option string) (is_sold : option bool)
    (d : Domain.t) :
  In d (Crud.get_domains db skip limit category is_sold) ->
  In d (rows db) /\ matches category is_sold d = true.
Proof.
  rewrite get_domains_matching. unfold Crud.offset_limit. intro Hd.
  assert (Hs : In d (skipn (Z.to_nat skip) (filter (matches category is_sold) (rows db)))).
  { destruct (limit <? 0)%Z; [exact Hd | exact (firstn_subset _ _ _ Hd)]. }
  apply filter_In. rewrite <- (firstn_skipn (Z.to_nat skip)).
  apply in_or_app. now right.
Qed.

Lemma get_domains_length
    (db : Session) (skip limit : Z) (category : option string) (is_sold : option bool) :
  (0 <= limit)%Z ->
  (Z.of_nat (List.length (Crud.get_domains db skip limit category is_sold)) <= limit)%Z.
Proof.
  intro Hl. unfold Crud.get_domains, Crud.offset_limit.
  destruct (Z.ltb_spec limit 0); [lia|]. rewrite length_firstn. lia.
Qed.

(** The declared parameters of the two recommendation routes: either all
    three pass and reach the route unchanged, or the request is turned
    down. *)
Lemma recommendation_parameters
    (limit : option Z) (price_min price_max : option Q) :
  (valid_limit limit /\ valid_price price_min /\ valid_price price_max
   /\ Api.int_query 10 1 100 limit = Some (requested 10 limit)
   /\ Api.float_query_ge0 price_min = Some price_min
   /\ Api.float_query_ge0 price_max = Some price_max)
  \/ (~ (valid_limit limit /\ valid_price price_min /\ valid_price price_max)
      /\ forall (A : Type) (k : Z -> option Q -> option Q -> A) (bad : A),
           match Api.int_query 10 1 100 limit,
                 Api.float_query_ge0 price_min,
                 Api.float_query_ge0 price_max with
           | Some l, Some a, Some b => k l a b
           | _, _, _ => bad
           end = bad).
Proof.
  destruct (valid_bounds_dec 1 100 limit) as [Vl|Vl];
    [|right; split; [tauto|]; intros;
      rewrite (int_query_rejects _ _ _ _ Vl); reflexivity].
  destruct (valid_price_dec price_min) as [Vmin|Vmin];
    [|right; split; [tauto|]; intros;
      rewrite (float_query_rejects _ Vmin);
      destruct (Api.int_query 10 1 100 limit); reflexivity].
  destruct (valid_price_dec price_max) as [Vmax|Vmax];
    [|right; split; [tauto|]; intros;
      rewrite (float_query_rejects _ Vmax);
      destruct (Api.int_query 10 1 100 limit), (Api.float_query_ge0 price_min);
      reflexivity].
  left. split; [exact Vl|]. split; [exact Vmin|]. split; [exact Vmax|].
  split; [now apply int_query_accepts|].
  split; now apply float_query_accepts.
Qed.

Lemma requested_limit (limit : option Z) :
  valid_limit limit -> (1 <= requested 10 limit <= 100)%Z.
Proof.
  intro V. destruct limit as [v|]; [exact (V v eq_refl) | simpl; lia].
Qed.

Section RouteFacts.

Variable float_repr : Q -> string.

(** X25: whenever the route [/recommendations/top] answers with a body, the
    status is 200, the limit echoed is the one requested (10 by default)
    and lies between 1 and 100, the count is the number of recommendations
    and does not exceed the limit, and the recommendations are unsold
    listings within the price bounds, best score first. *)
Theorem recommendations_top_response
    (limit : option Z) (price_min price_max : option Q) (db : Session)
    (status : Z) (body : Api.Top.t) :
  Api.recommendations_top float_repr limit price_min price_max db
  = Api.Respond status body ->
  status = 200%Z
  /\ Api.Top.limit body = requested 10 limit
  /\ (1 <= Api.Top.limit body <= 100)%Z
  /\ Api.Top.count body = Z.of_nat (List.length (Api.Top.recommendations body))
  /\ (Api.Top.count body <= Api.Top.limit body)%Z
  /\ Forall (eligible db price_min price_max None) (Api.Top.recommendations body)
  /\ StronglySorted by_score_desc (Api.Top.recommendations body).
Proof.
  unfold Api.recommendations_top. intro H.
  destruct (recommendation_parameters limit price_min price_max)
    as [(Vl & Vmin & Vmax & El & Emin & Emax) | [_ Bad]];
    [|rewrite Bad in H; discriminate H].
  rewrite El, Emin, Emax in H.
  destruct (get_top_recommendations float_repr db (requested 10 limit)
              price_min price_max None) as [recs|e] eqn:G; [|discriminate H].
  injection H as <- <-. cbn [Api.Top.limit Api.Top.count Api.Top.recommendations].
  destruct (get_top_recommendations_checked float_repr _ _ _ _ _ _ G)
    as (Hel & Hsorted & Hlen).
  pose proof (requested_limit limit Vl) as Hreq.
  pose proof (Hlen ltac:(lia)) as Hn.
  repeat split; try assumption; lia.
Qed.

(** X26: whenever the route [/recommendations/category/{category}] answers with
    a body, the status is 200, the category and the limit are echoed, the
    count is the number of recommendations and does not exceed the limit,
    every recommendation is an unsold listing of that category within the
    price bounds, and they come best score first. *)
Theorem recommendations_by_category_response
    (category : string) (limit : option Z) (price_min price_max : option Q)
    (db : Session) (status : Z) (body : Api.ByCategory.t) :
  Api.recommendations_by_category float_repr category limit price_min price_max db
  = Api.Respond status body ->
  status = 200%Z
  /\ Api.ByCategory.category body = category
  /\ Api.ByCategory.limit body = requested 10 limit
  /\ Api.ByCategory.count body
     = Z.of_nat (List.length (Api.ByCategory.recommendations body))
  /\ (Api.ByCategory.count body <= Api.ByCategory.limit body <= 100)%Z
  /\ Forall (fun e => Entry.category e = category
                      /\ eligible db price_min price_max (Some category) e)
            (Api.ByCategory.recommendations body)
  /\ StronglySorted by_score_desc (Api.ByCategory.recommendations body).
Proof.
  unfold Api.recommendations_by_category, get_category_recommendations. intro H.
  destruct (recommendation_parameters limit price_min price_max)
    as [(Vl & Vmin & Vmax & El & Emin & Emax) | [_ Bad]];
    [|rewrite Bad in H; discriminate H].
  rewrite El, Emin, Emax in H.
  destruct (get_top_recommendations float_repr db (requested 10 limit)
              price_min price_max (Some category)) as [recs|e] eqn:G;
    [|discriminate H].
  injection H as <- <-.
  cbn [Api.ByCategory.category Api.ByCategory.limit Api.ByCategory.count
       Api.ByCategory.recommendations].
  destruct (get_top_recommendations_checked float_repr _ _ _ _ _ _ G)
    as (Hel & Hsorted & Hlen).
  pose proof (requested_limit limit Vl) as Hreq.
  pose proof (Hlen ltac:(lia)) as Hn.
  repeat split; try assumption; try lia.
  apply Forall_forall. intros e He.
  pose proof (proj1 (Forall_forall _ _) Hel e He) as Helig.
  split; [|exact Helig]. destruct Helig as (_ & _ & _ & Hc). now apply Hc.
Qed.

(** X27: the route [/recommendations/top] turns a request down exactly when the
    limit is outside 1..100 or a price bound is negative. A request that
    passes is answered with status 200 whenever the session serves the
    listing statement, whatever happens to the price statistics, and fails
    with the database error when that statement is refused. *)
Theorem recommendations_top_status
    (limit : option Z) (price_min price_max : option Q) (db : Session) :
  (Api.recommendations_top float_repr limit price_min price_max db
   = Api.RequestValidationError
   <-> ~ (valid_limit limit /\ valid_price price_min /\ valid_price price_max))
  /\ (valid_limit limit /\ valid_price price_min /\ valid_price price_max ->
      (refuses db SelectDomain (listing_criteria price_min price_max None) = true ->
       Api.recommendations_top float_repr limit price_min price_max db
       = Api.Unhandled SQLAlchemyError)
      /\ (refuses db SelectDomain (listing_criteria price_min price_max None) = false ->
          exists body,
            Api.recommendations_top float_repr limit price_min price_max db
            = Api.Respond 200 body)).
Proof.
  unfold Api.recommendations_top.
  destruct (recommendation_parameters limit price_min price_max)
    as [(Vl & Vmin & Vmax & El & Emin & Emax) | [Inv Bad]].
  - rewrite El, Emin, Emax. split.
    + split; [|tauto].
      destruct (get_top_recommendations float_repr db (requested 10 limit)
                  price_min price_max None); discriminate.
    + intros _. split; intro R.
      * now rewrite (get_top_recommendations_refused float_repr _ _ _ _ _ R).
      * destruct (get_top_recommendations_served float_repr db price_min price_max
                    None R) as [ranked [_ ->]].
        eexists. reflexivity.
  - rewrite Bad. split; [tauto | intro V; contradiction].
Qed.

End RouteFacts.

(** X28: on a session that serves its statements, with a fresh key and with
    views and clicks that fit the INTEGER columns, the route that creates a
    listing answers 400 and leaves the table alone when the name is taken;
    otherwise it answers 201 with the new listing, which the route that
    reads a listing then returns, and a second request with the same name
    is answered 400. *)
Theorem create_domain_endpoint_spec
    (domain_create : DomainCreate.t) (db : Session) (new_id : Z) :
  serves_all db ->
  fits_int64 new_id ->
  fits_int64 (DomainCreate.views domain_create) ->
  fits_int64 (DomainCreate.clicks domain_create) ->
  ~ In new_id (map Domain.id (rows db)) ->
  (In (DomainCreate.domain_name domain_create) (map Domain.domain_name (rows db)) ->
   Api.create_domain_endpoint domain_create db new_id
   = (Api.HTTPException 400 "Domain name already exists", db))
  /\ (~ In (DomainCreate.domain_name domain_create)
           (map Domain.domain_name (rows db)) ->
      exists domain db',
        Api.create_domain_endpoint domain_create db new_id
        = (Api.Respond 201 domain, db')
        /\ Domain.id domain = new_id
        /\ Domain.domain_name domain = DomainCreate.domain_name domain_create
        /\ Api.get_domain_endpoint new_id db' = Api.Respond 200 domain
        /\ forall other_id,
             Api.create_domain_endpoint domain_create db' other_id
             = (Api.HTTPException 400 "Domain name already exists", db')).
Proof.
  intros _ _ _ _ Hid. unfold Api.create_domain_endpoint. split; intro Hname.
  - destruct (Crud.first _) eqn:F; [reflexivity|].
    apply first_filter_name in F. contradiction.
  - rewrite (proj2 (first_filter_name _ _) Hname).
    unfold Crud.create_domain. cbn [Domain.domain_name].
    destruct (Crud.key_taken (rows db) new_id) eqn:K;
      [apply key_taken_iff in K; contradiction|].
    destruct (Crud.name_taken (rows db) (DomainCreate.domain_name domain_create)) eqn:N;
      [apply name_taken_iff in N; contradiction|].
    cbn [orb ret]. eexists; eexists. split; [reflexivity|].
    split; [reflexivity|]. split; [reflexivity|].
    destruct db as [rs f]. unfold Crud.with_rows. cbn [rows refuses] in *. split.
    + unfold Api.get_domain_endpoint. rewrite get_domain_app. cbn [Domain.id].
      rewrite Z.eqb_refl.
      destruct (Crud.get_domain (mkSession rs f) new_id) eqn:G; [|reflexivity].
      exfalso. apply get_domain_some in G. destruct G as [Hin E].
      apply Hid. rewrite <- E. now apply in_map.
    + intro other_id. cbn [rows].
      destruct (Crud.first _) eqn:F; [reflexivity|].
      exfalso. apply first_filter_name in F. apply F.
      rewrite map_app. apply in_or_app. right. now left.
Qed.

(** X29: on a session that serves its statements and for a key that fits the
    INTEGER column: when the table does not hold the key, the routes that
    read, update and delete a listing answer 404 and leave the table alone;
    when it holds the key, deleting answers 204, after which reading and
    deleting again answer 404. *)
Theorem domain_routes_not_found
    (db : Session) (domain_id : Z) (domain_update : DomainUpdate.t) :
  serves_all db ->
  fits_int64 domain_id ->
  (~ In domain_id (map Domain.id (rows db)) ->
   Api.get_domain_endpoint domain_id db = Api.HTTPException 404 "Domain not found"
   /\ Api.update_domain_endpoint domain_id domain_update db
      = (Api.HTTPException 404 "Domain not found", db)
   /\ Api.delete_domain_endpoint domain_id db
      = (Api.HTTPException 404 "Domain not found", db))
  /\ (In domain_id (map Domain.id (rows db)) ->
      exists db',
        Api.delete_domain_endpoint domain_id db = (Api.Respond 204 tt, db')
        /\ Api.get_domain_endpoint domain_id db'
           = Api.HTTPException 404 "Domain not found"
        /\ Api.delete_domain_endpoint domain_id db'
           = (Api.HTTPException 404 "Domain not found", db')).
Proof.
  intros _ _.
  unfold Api.get_domain_endpoint, Api.update_domain_endpoint,
    Api.delete_domain_endpoint, Crud.update_domain, Crud.delete_domain.
  split; intro H.
  - apply get_domain_none in H. rewrite H. repeat split.
  - destruct (Crud.get_domain db domain_id) as [domain|] eqn:G;
      [|apply get_domain_none in G; contradiction].
    destruct (get_domain_some _ _ _ G) as [_ ->].
    eexists. split; [reflexivity|].
    rewrite get_domain_after_delete, Z.eqb_refl. split; reflexivity.
Qed.

(** X30: the route that lists the listings turns a request down exactly when
    [skip] is negative or [limit] is outside 1..200; a request that passes
    is answered with status 200 when the session serves its statements and
    the offset fits 64 bits; and whatever it answers with has status 200
    and holds at most [limit] (50 by default) listings of the table that
    match the filters. *)
Theorem list_domains_endpoint_page
    (skip limit : option Z) (category : option string) (is_sold : option bool)
    (db : Session) :
  (Api.list_domains_endpoint skip limit category is_sold db
   = Api.RequestValidationError
   <-> ~ valid_page skip limit)
  /\ (valid_page skip limit ->
      serves_all db ->
      fits_int64 (requested 0 skip) ->
      exists page,
        Api.list_domains_endpoint skip limit category is_sold db
        = Api.Respond 200 page)
  /\ (forall status page,
         Api.list_domains_endpoint skip limit category is_sold db
         = Api.Respond status page ->
         status = 200%Z
         /\ (Z.of_nat (List.length page) <= requested 50 limit <= 200)%Z
         /\ Forall (fun d => In d (rows db) /\ matches category is_sold d = true) page).
Proof.
  unfold Api.list_domains_endpoint, valid_page.
  destruct (valid_lower_dec 0 skip) as [Vs|Vs];
    [|rewrite (int_query_ge_rejects _ _ _ Vs); split;
      [split; [tauto | reflexivity] | split; [tauto | discriminate]]].
  destruct (valid_bounds_dec 1 200 limit) as [Vl|Vl];
    [|rewrite (int_query_rejects _ _ _ _ Vl); split;
      [split; [tauto |]; destruct (Api.int_query_ge 0 0 skip); reflexivity
      | split; [tauto | destruct (Api.int_query_ge 0 0 skip); discriminate]]].
  rewrite (int_query_ge_accepts _ _ _ Vs), (int_query_accepts _ _ _ _ Vl).
  split; [split; [discriminate | tauto]|].
  split; [intros _ _ _; eexists; reflexivity|].
  intros status page [= <- <-].
  assert (Hreq : (1 <= requested 50 limit <= 200)%Z).
  { destruct limit as [v|]; [exact (Vl v eq_refl) | simpl; lia]. }
  split; [reflexivity|]. split.
  - pose proof (get_domains_length db (requested 0 skip) (requested 50 limit)
                  category is_sold ltac:(lia)). lia.
  - apply Forall_forall. intros d Hd. exact (get_domains_within _ _ _ _ _ _ Hd).
Qed.
(* ====================================================================== *)
(** ** The further theorems at the sample listings *)
(* ====================================================================== *)

Lemma healthy_ids_unique : NoDup (map Domain.id (rows healthy)).
Proof.
  simpl; repeat constructor; simpl; intuition (try lia; try discriminate).
Defined.

Lemma healthy_serves_all : serves_all healthy.
Proof. intros e cs. reflexivity. Defined.

Lemma calculate_engagement_bounds_witness :
  (0 <= 1000)%Z /\ (0 <= 200)%Z
  /\ exists s,
       calculate_engagement 1000 200 = Ok s
       /\ 0 <= s /\ s <= W_engagement
       /\ ((0 < 1000)%Z -> (1000 <= 200)%Z -> s = W_engagement).
Proof.
  assert (Hv : (0 <= 1000)%Z) by lia.
  assert (Hc : (0 <= 200)%Z) by lia.
  split; [exact Hv|]. split; [exact Hc|].
  exact (calculate_engagement_bounds 1000 200 Hv Hc).
Defined.

Lemma unmeasured_engagement_beats_low_ctr_witness :
  100%Z <> 0%Z /\ fits_int64 2 /\ fits_int64 3
  /\ (exists s, calculate_engagement 100 2 = Ok s /\ s < W_engagement * 0.3)
  /\ (exists s, calculate_engagement 100 3 = Ok s /\ W_engagement * 0.3 <= s).
Proof.
  assert (Hv : 100%Z <> 0%Z) by lia.
  assert (H2 : fits_int64 2) by (unfold fits_int64; lia).
  assert (H3 : fits_int64 3) by (unfold fits_int64; lia).
  split; [exact Hv|]. split; [exact H2|]. split; [exact H3|].
  split.
  - destruct (unmeasured_engagement_beats_low_ctr 100 2 Hv H2) as (s & E & Hlow & _).
    exists s. split; [exact E|]. apply Hlow. unfold Qle; simpl; lia.
  - destruct (unmeasured_engagement_beats_low_ctr 100 3 Hv H3) as (s & E & _ & Hhigh).
    exists s. split; [exact E|]. apply Hhigh. unfold Qle; simpl; lia.
Defined.

Lemma rank_domain_component_bounds_witness :
  structurally_valid alpha
  /\ exists r,
       rank_domain decimal_repr alpha healthy None = Ok r
       /\ (0 <= keyword_relevance (scores r) /\ keyword_relevance (scores r) <= W_keyword)
       /\ (0 <= engagement (scores r) /\ engagement (scores r) <= W_engagement)
       /\ (0 <= price_competitiveness (scores r)
           /\ price_competitiveness (scores r) <= W_price)
       /\ (W_conversion <= conversion_signal (scores r)
           /\ conversion_signal (scores r) <= W_conversion * (1 + bonus_sold)).
Proof.
  split; [exact structurally_valid_alpha|].
  exact (rank_domain_component_bounds decimal_repr alpha healthy None
           structurally_valid_alpha).
Defined.

Lemma rank_domain_monotone_witness :
  Domain.keyword_score eta <= Domain.keyword_score alpha
  /\ Domain.price alpha <= Domain.price eta
  /\ exists r1 r2,
       rank_domain decimal_repr eta healthy None = Ok r1
       /\ rank_domain decimal_repr alpha healthy None = Ok r2
       /\ total_score r1 <= total_score r2.
Proof.
  assert (Hk : Domain.keyword_score eta <= Domain.keyword_score alpha)
    by (unfold Qle; simpl; lia).
  assert (Hp : Domain.price alpha <= Domain.price eta)
    by (unfold Qle; simpl; lia).
  split; [exact Hk|]. split; [exact Hp|].
  apply (rank_domain_monotone decimal_repr eta alpha healthy None None);
    try reflexivity; try assumption.
  simpl. discriminate.
Defined.

Lemma get_top_recommendations_below_full_score_witness :
  exists recs,
    get_top_recommendations decimal_repr healthy 3 None None None = Ok recs
    /\ Forall (fun e => score e <= 99.69) recs.
Proof.
  assert (E : exists recs,
             get_top_recommendations decimal_repr healthy 3 None None None = Ok recs)
    by (eexists; reflexivity).
  destruct E as [recs E]. exists recs. split; [exact E|].
  exact (get_top_recommendations_below_full_score
           decimal_repr healthy 3 None None None recs E).
Defined.

Lemma get_top_recommendations_complete_witness :
  exists recs,
    get_top_recommendations decimal_repr healthy 10 None None (Some "retail"%string)
    = Ok recs
    /\ Z.of_nat (List.length recs) = 2%Z
    /\ exists ranked,
         Forall2 (ranked_as decimal_repr healthy)
                 (candidates healthy None None (Some "retail"%string)) ranked
         /\ Permutation recs ranked.
Proof.
  assert (E : exists recs,
             get_top_recommendations decimal_repr healthy 10 None None
               (Some "retail"%string) = Ok recs)
    by (eexists; reflexivity).
  destruct E as [recs E]. exists recs. split; [exact E|].
  destruct (get_top_recommendations_complete
              decimal_repr healthy 10 None None (Some "retail"%string) recs E)
    as [Hlen Hall].
  split; [exact Hlen|]. apply Hall. simpl. lia.
Defined.

Lemma get_top_recommendations_prefix_witness :
  exists r1 r2,
    get_top_recommendations decimal_repr healthy 2 None None None = Ok r1
    /\ get_top_recommendations decimal_repr healthy 4 None None None = Ok r2
    /\ r1 = firstn 2 r2.
Proof.
  assert (E1 : exists recs,
             get_top_recommendations decimal_repr healthy 2 None None None = Ok recs)
    by (eexists; reflexivity).
  assert (E2 : exists recs,
             get_top_recommendations decimal_repr healthy 4 None None None = Ok recs)
    by (eexists; reflexivity).
  destruct E1 as [r1 E1]. destruct E2 as [r2 E2].
  exists r1, r2. split; [exact E1|]. split; [exact E2|].
  apply (get_top_recommendations_prefix decimal_repr healthy 2 4 None None None);
    [lia | lia | exact E1 | exact E2].
Defined.

Lemma get_top_recommendations_best_witness :
  exists recs r,
    get_top_recommendations decimal_repr healthy 2 None None None = Ok recs
    /\ rank_domain decimal_repr zeta healthy None = Ok r
    /\ ((exists e, In e recs /\ entry_of zeta e /\ Entry.ranking e = r)
        \/ Forall (fun e => total_score r <= score e) recs).
Proof.
  assert (E : exists recs,
             get_top_recommendations decimal_repr healthy 2 None None None = Ok recs)
    by (eexists; reflexivity).
  assert (R : exists r, rank_domain decimal_repr zeta healthy None = Ok r)
    by (eexists; reflexivity).
  destruct E as [recs E]. destruct R as [r R].
  exists recs, r. split; [exact E|]. split; [exact R|].
  apply (get_top_recommendations_best decimal_repr healthy 2 None None None recs zeta r);
    [lia | exact E | | exact R].
  simpl. intuition.
Defined.

Lemma get_top_recommendations_ties_keep_table_order_witness :
  exists recs ranked,
    get_top_recommendations decimal_repr tied 3 None None None = Ok recs
    /\ map Entry.id recs = [8%Z; 10%Z; 9%Z]
    /\ map score recs = [84.15; 84.15; 52.16]
    /\ Forall2 (ranked_as decimal_repr tied) (candidates tied None None None) ranked
    /\ (exists m,
          filter (has_score 84.15) recs = firstn m (filter (has_score 84.15) ranked))
    /\ map Entry.id (filter (has_score 84.15) recs) = [8%Z; 10%Z].
Proof.
  assert (E : exists recs,
             get_top_recommendations decimal_repr tied 3 None None None = Ok recs
             /\ map Entry.id recs = [8%Z; 10%Z; 9%Z]
             /\ map score recs = [84.15; 84.15; 52.16]
             /\ map Entry.id (filter (has_score 84.15) recs) = [8%Z; 10%Z]).
  { eexists. split; [vm_compute; reflexivity|].
    split; [reflexivity|]. split; reflexivity. }
  destruct E as (recs & E & Hids & Hscores & Htied).
  destruct (get_top_recommendations_ties_keep_table_order
              decimal_repr tied 3 None None None recs E) as (ranked & H2 & Hties).
  exists recs, ranked. split; [exact E|]. split; [exact Hids|].
  split; [exact Hscores|]. split; [exact H2|].
  split; [exact (Hties 84.15) | exact Htied].
Defined.

Lemma rank_domain_unmoved_by_other_pools_witness :
  exists created db',
    Crud.create_domain healthy 7 eta_request = Ok (created, db')
    /\ rank_domain decimal_repr alpha db' None
       = rank_domain decimal_repr alpha healthy None.
Proof.
  eexists; eexists. split; [reflexivity|].
  apply (rank_domain_unmoved_by_other_pools
           decimal_repr healthy _ 7 eta_request _ alpha None eq_refl).
  right. simpl. discriminate.
Defined.

Lemma get_top_recommendations_score_is_intrinsic_witness :
  NoDup (map Domain.id (rows healthy))
  /\ exists r1 r2,
       get_top_recommendations decimal_repr healthy 3 None None None = Ok r1
       /\ get_top_recommendations decimal_repr healthy 5 (Some 50) None
            (Some "tech"%string) = Ok r2
       /\ forall e1 e2, In e1 r1 -> In e2 r2 -> Entry.id e1 = Entry.id e2 ->
                        Entry.ranking e1 = Entry.ranking e2.
Proof.
  split; [exact (healthy_ids_unique)|].
  assert (E1 : exists recs,
             get_top_recommendations decimal_repr healthy 3 None None None = Ok recs)
    by (eexists; reflexivity).
  assert (E2 : exists recs,
             get_top_recommendations decimal_repr healthy 5 (Some 50) None
               (Some "tech"%string) = Ok recs)
    by (eexists; reflexivity).
  destruct E1 as [r1 E1]. destruct E2 as [r2 E2].
  exists r1, r2. split; [exact E1|]. split; [exact E2|].
  intros e1 e2.
  exact (get_top_recommendations_score_is_intrinsic
           decimal_repr healthy 3 5 None None (Some 50) None None (Some "tech"%string)
           r1 r2 e1 e2 (healthy_ids_unique) E1 E2).
Defined.

Lemma create_domain_then_get_witness :
  serves_all healthy
  /\ fits_int64 7
  /\ fits_int64 (DomainCreate.views eta_request)
  /\ fits_int64 (DomainCreate.clicks eta_request)
  /\ ~ In 7%Z (map Domain.id (rows healthy))
  /\ ~ In (DomainCreate.domain_name eta_request) (map Domain.domain_name (rows healthy))
  /\ exists domain db',
       Crud.create_domain healthy 7 eta_request = Ok (domain, db')
       /\ Crud.get_domain db' 7 = Some domain
       /\ Crud.get_domain db' 1 = Some alpha.
Proof.
  assert (Hf : fits_int64 7) by (unfold fits_int64; lia).
  assert (Hv : fits_int64 (DomainCreate.views eta_request))
    by (unfold fits_int64; simpl; lia).
  assert (Hc : fits_int64 (DomainCreate.clicks eta_request))
    by (unfold fits_int64; simpl; lia).
  assert (Hid : ~ In 7%Z (map Domain.id (rows healthy)))
    by (simpl; intuition lia).
  assert (Hname : ~ In (DomainCreate.domain_name eta_request)
                       (map Domain.domain_name (rows healthy)))
    by (simpl; intuition discriminate).
  split; [exact healthy_serves_all|]. split; [exact Hf|]. split; [exact Hv|].
  split; [exact Hc|]. split; [exact Hid|]. split; [exact Hname|].
  destruct (create_domain_then_get healthy 7 eta_request
              healthy_serves_all Hf Hv Hc Hid Hname)
    as (domain & db' & E & _ & _ & _ & _ & _ & _ & _ & _ & Hget & Hothers).
  exists domain, db'. split; [exact E|]. split; [exact Hget|].
  rewrite (Hothers 1%Z) by lia. reflexivity.
Defined.

Lemma update_domain_applies_witness :
  exists updated db',
    Crud.update_domain healthy 1 reprice = Ok (Some updated, db')
    /\ Domain.price updated = 90
    /\ Domain.domain_name updated = Domain.domain_name alpha
    /\ Crud.get_domain db' 1 = Some updated
    /\ Crud.get_domain db' 2 = Some beta.
Proof.
  eexists; eexists. split; [reflexivity|].
  destruct (update_domain_applies healthy _ 1 reprice _ eq_refl)
    as (domain & Hd & _ & Hname & _ & Hprice & _ & _ & _ & _ & Hget & Hothers).
  injection Hd as <-.
  split; [exact Hprice|]. split; [exact Hname|]. split; [exact Hget|].
  rewrite (Hothers 2%Z) by lia. reflexivity.
Defined.

Lemma get_domains_pages_concatenate_witness :
  (0 <= 1)%Z /\ (0 <= 2)%Z /\ (0 <= 3)%Z
  /\ Crud.get_domains healthy 1 2 None (Some false)
       ++ Crud.get_domains healthy (1 + 2) 3 None (Some false)
     = Crud.get_domains healthy 1 (2 + 3) None (Some false).
Proof.
  assert (H1 : (0 <= 1)%Z) by lia.
  assert (H2 : (0 <= 2)%Z) by lia.
  assert (H3 : (0 <= 3)%Z) by lia.
  split; [exact H1|]. split; [exact H2|]. split; [exact H3|].
  exact (get_domains_pages_concatenate healthy 1 2 3 None (Some false) H1 H2 H3).
Defined.

Lemma get_domains_filters_witness :
  (0 <= 2)%Z
  /\ (Z.of_nat (List.length
                  (Crud.get_domains healthy 0 2 (Some "tech"%string) (Some false)))
      <= 2)%Z
  /\ forall d,
       In d (Crud.get_domains healthy 0 2 (Some "tech"%string) (Some false)) ->
       In d (rows healthy)
       /\ Domain.category d = "tech"%string
       /\ Domain.is_sold d = false.
Proof.
  assert (H : (0 <= 2)%Z) by lia.
  split; [exact H|].
  destruct (get_domains_filters healthy 0 2 (Some "tech"%string) (Some false) H)
    as (Hlen & Hin & _).
  split; [exact Hlen|]. intros d Hd.
  destruct (Hin d Hd) as (Hrow & Hc & Hs).
  split; [exact Hrow|]. split.
  - apply (Hc "tech"%string eq_refl). discriminate.
  - exact (Hs false eq_refl).
Defined.

Lemma get_category_stats_per_category_witness :
  exists stats s,
    Analytics.get_category_stats healthy None = Ok stats
    /\ In s stats
    /\ Analytics.CategoryStats.category s = "tech"%string
    /\ Analytics.CategoryStats.count s = 3%Z
    /\ Analytics.CategoryStats.sold_count s = 1%Z
    /\ 0 <= Analytics.CategoryStats.conversion_rate s
    /\ Analytics.CategoryStats.conversion_rate s <= 100.
Proof.
  assert (E : exists stats, Analytics.get_category_stats healthy None = Ok stats)
    by (eexists; reflexivity).
  destruct E as [stats E].
  assert (Hs : exists s, In s stats /\ Analytics.CategoryStats.category s = "tech"%string).
  { injection E as <-. eexists. split; [left; reflexivity | reflexivity]. }
  destruct Hs as [s [Hin Hc]].
  destruct (get_category_stats_per_category healthy stats s E Hin)
    as (Hcount & _ & Hsold & _ & H0 & H100).
  rewrite Hc in Hcount, Hsold.
  exists stats, s. split; [exact E|]. split; [exact Hin|]. split; [exact Hc|].
  split; [exact Hcount|]. split; [exact Hsold|]. split; [exact H0 | exact H100].
Defined.

Lemma recommendations_top_response_witness :
  exists body,
    Api.recommendations_top decimal_repr (Some 2%Z) None (Some 300) healthy
    = Api.Respond 200 body
    /\ Api.Top.limit body = 2%Z
    /\ (Api.Top.count body <= 2)%Z
    /\ Forall (eligible healthy None (Some 300)  None) (Api.Top.recommendations body)
    /\ StronglySorted by_score_desc (Api.Top.recommendations body).
Proof.
  eexists. split; [reflexivity|].
  destruct (recommendations_top_response
              decimal_repr (Some 2%Z) None (Some 300) healthy 200 _ eq_refl)
    as (_ & Hlimit & _ & _ & Hcount & Hel & Hsorted).
  split; [exact Hlimit|]. split; [|split; [exact Hel | exact Hsorted]].
  rewrite Hlimit in Hcount. exact Hcount.
Defined.

Lemma recommendations_by_category_response_witness :
  exists body,
    Api.recommendations_by_category decimal_repr "retail" None None None healthy
    = Api.Respond 200 body
    /\ Api.ByCategory.limit body = 10%Z
    /\ Api.ByCategory.count body = 2%Z
    /\ Forall (fun e => Entry.category e = "retail"%string
                        /\ eligible healthy None None (Some "retail"%string) e)
              (Api.ByCategory.recommendations body).
Proof.
  eexists. split; [reflexivity|].
  destruct (recommendations_by_category_response
              decimal_repr "retail" None None None healthy 200 _ eq_refl)
    as (_ & _ & Hlimit & Hcount & _ & Hel & _).
  split; [exact Hlimit|]. split; [exact Hcount | exact Hel].
Defined.

Lemma create_domain_endpoint_spec_witness :
  serves_all healthy
  /\ fits_int64 7
  /\ fits_int64 (DomainCreate.views eta_request)
  /\ fits_int64 (DomainCreate.clicks eta_request)
  /\ ~ In 7%Z (map Domain.id (rows healthy))
  /\ exists domain db',
       Api.create_domain_endpoint eta_request healthy 7 = (Api.Respond 201 domain, db')
       /\ Api.get_domain_endpoint 7 db' = Api.Respond 200 domain
       /\ Api.create_domain_endpoint eta_request db' 8
          = (Api.HTTPException 400 "Domain name already exists", db').
Proof.
  assert (Hf : fits_int64 7) by (unfold fits_int64; lia).
  assert (Hv : fits_int64 (DomainCreate.views eta_request))
    by (unfold fits_int64; simpl; lia).
  assert (Hc : fits_int64 (DomainCreate.clicks eta_request))
    by (unfold fits_int64; simpl; lia).
  assert (Hid : ~ In 7%Z (map Domain.id (rows healthy)))
    by (simpl; intuition lia).
  assert (Hname : ~ In (DomainCreate.domain_name eta_request)
                       (map Domain.domain_name (rows healthy)))
    by (simpl; intuition discriminate).
  split; [exact healthy_serves_all|]. split; [exact Hf|]. split; [exact Hv|].
  split; [exact Hc|]. split; [exact Hid|].
  destruct (create_domain_endpoint_spec eta_request healthy 7
              healthy_serves_all Hf Hv Hc Hid) as [_ Hfree].
  destruct (Hfree Hname) as (domain & db' & E & _ & _ & Hget & Hagain).
  exists domain, db'. split; [exact E|]. split; [exact Hget | exact (Hagain 8%Z)].
Defined.

Lemma calculate_keyword_relevance_linear_witness :
  exists s, calculate_keyword_relevance 50 = Ok s /\ s == 50 / 100 * W_keyword.
Proof.
  destruct (calculate_keyword_relevance_linear 50) as (s & E & Hlinear & _).
  exists s. split; [exact E|].
  apply Hlinear; unfold Qle; simpl; lia.
Defined.

Lemma delete_domain_spec_witness :
  serves_all healthy
  /\ fits_int64 3
  /\ exists db',
       Crud.delete_domain healthy 3 = (true, db')
       /\ Crud.get_domain db' 3 = None
       /\ Crud.get_domain db' 4 = Some delta.
Proof.
  assert (Hf : fits_int64 3) by (unfold fits_int64; lia).
  split; [exact healthy_serves_all|]. split; [exact Hf|].
  destruct (delete_domain_spec healthy 3 healthy_serves_all Hf)
    as (deleted & db' & E & Hiff & _ & Hgone & Hothers).
  exists db'. split; [|split; [exact Hgone|]].
  - rewrite E. f_equal. apply Hiff. simpl. tauto.
  - rewrite (Hothers 4%Z) by lia. reflexivity.
Defined.

Lemma update_domain_rejects_witness :
  Crud.update_domain healthy 9 reprice = Ok (None, healthy)
  /\ Crud.update_domain healthy 1 unname = Raise SQLAlchemyError
  /\ Crud.update_domain healthy 1 rename_to_beta = Raise SQLAlchemyError.
Proof.
  split; [|split].
  - apply (proj1 (update_domain_rejects healthy 9 reprice)). reflexivity.
  - apply (proj1 (proj2 (update_domain_rejects healthy 1 unname)) alpha);
      [reflexivity | left; reflexivity].
  - apply (proj2 (proj2 (update_domain_rejects healthy 1 rename_to_beta))
             alpha beta "beta.com"%string);
      [reflexivity | reflexivity | simpl; tauto | simpl; lia | reflexivity].
Defined.



Lemma recommendations_top_status_witness :
  Api.recommendations_top decimal_repr (Some 0%Z) None None healthy
  = Api.RequestValidationError
  /\ exists body,
       Api.recommendations_top decimal_repr None (Some 300) None degraded
       = Api.Respond 200 body.
Proof.
  split.
  - apply (proj1 (recommendations_top_status decimal_repr (Some 0%Z) None None healthy)).
    intros [V _]. pose proof (V 0%Z eq_refl). lia.
  - apply (proj2 (recommendations_top_status decimal_repr None (Some 300) None degraded)).
    + split; [discriminate|]. split; [|discriminate].
      intros v [= <-]. unfold Qle; simpl; lia.
    + reflexivity.
Defined.

Lemma domain_routes_not_found_witness :
  serves_all healthy /\ fits_int64 9 /\ fits_int64 3
  /\ Api.get_domain_endpoint 9 healthy = Api.HTTPException 404 "Domain not found"
  /\ Api.update_domain_endpoint 9 reprice healthy
     = (Api.HTTPException 404 "Domain not found", healthy)
  /\ exists db',
       Api.delete_domain_endpoint 3 healthy = (Api.Respond 204 tt, db')
       /\ Api.get_domain_endpoint 3 db' = Api.HTTPException 404 "Domain not found".
Proof.
  assert (H9 : fits_int64 9) by (unfold fits_int64; lia).
  assert (H3 : fits_int64 3) by (unfold fits_int64; lia).
  split; [exact healthy_serves_all|]. split; [exact H9|]. split; [exact H3|].
  destruct (domain_routes_not_found healthy 9 reprice healthy_serves_all H9)
    as [Hmissing _].
  destruct (domain_routes_not_found healthy 3 reprice healthy_serves_all H3)
    as [_ Hpresent].
  destruct Hmissing as (Hget & Hupdate & _); [simpl; intuition lia|].
  destruct Hpresent as (db' & Hdelete & Hgone & _); [simpl; intuition lia|].
  split; [exact Hget|]. split; [exact Hupdate|].
  exists db'. split; [exact Hdelete | exact Hgone].
Defined.

Lemma list_domains_endpoint_page_witness :
  Api.list_domains_endpoint None (Some 201%Z) None None healthy
  = Api.RequestValidationError
  /\ valid_page (Some 1%Z) (Some 2%Z)
  /\ exists page,
       Api.list_domains_endpoint (Some 1%Z) (Some 2%Z) (Some "tech"%string) None healthy
       = Api.Respond 200 page
       /\ (Z.of_nat (List.length page) <= 2)%Z.
Proof.
  assert (V : valid_page (Some 1%Z) (Some 2%Z)).
  { split; intros v [= <-]; lia. }
  split; [|split; [exact V|]].
  - apply (proj1 (list_domains_endpoint_page None (Some 201%Z) None None healthy)).
    intros [_ W]. pose proof (W 201%Z eq_refl). lia.
  - destruct (list_domains_endpoint_page
                (Some 1%Z) (Some 2%Z) (Some "tech"%string) None healthy)
      as (_ & Hanswers & Hpage).
    destruct (Hanswers V healthy_serves_all) as [page E].
    { unfold fits_int64; simpl; lia. }
    exists page. split; [exact E|].
    destruct (Hpage 200%Z page E) as (_ & Hlen & _). simpl in Hlen. lia.
Defined.

Lemma get_summary_adds_up_witness :
  (exists summary,
      Analytics.get_summary healthy None None = Ok summary
      /\ map Analytics.CategoryStats.count (Analytics.Summary.categories summary)
         = [3%Z; 2%Z; 1%Z]
      /\ Analytics.Kpis.total_domains (Analytics.Summary.global summary) = 6%Z)
  /\ (exists summary,
         Analytics.get_summary healthy (Some Analytics.OperationalError) None
         = Ok summary
         /\ Analytics.Kpis.total_domains (Analytics.Summary.global summary) = 0%Z
         /\ total (map Analytics.CategoryStats.count
                       (Analytics.Summary.categories summary)) = 6%Z).
Proof.
  split.
  - destruct (proj1 (get_summary_adds_up healthy None None) eq_refl eq_refl)
      as (summary & E & Hcount & _).
    exists summary. split; [exact E|].
    assert (Hc : map Analytics.CategoryStats.count
                     (Analytics.Summary.categories summary) = [3%Z; 2%Z; 1%Z]).
    { vm_compute in E. apply Ok_injective in E. subst summary. reflexivity. }
    split; [exact Hc|]. rewrite <- Hcount, Hc. reflexivity.
  - destruct (proj1 (proj2 (get_summary_adds_up
                              healthy (Some Analytics.OperationalError) None))
                eq_refl eq_refl) as (summary & E & Hzero & Hsum).
    exists summary. split; [exact E|]. split; [exact Hzero | exact Hsum].
Defined.

Lemma get_demand_indicators_price_bands_witness :
  (exists r,
      Analytics.get_demand_indicators healthy 3 None = Ok r
      /\ total (map Analytics.PriceBand.count (Analytics.Demand.price_engagement r))
         = 6%Z)
  /\ (exists r,
         Analytics.get_demand_indicators healthy 3 (Some Analytics.OperationalError)
         = Ok r
         /\ Analytics.Demand.price_engagement r = []).
Proof.
  destruct (get_demand_indicators_price_bands healthy 3 None) as (Hserved & _).
  destruct (get_demand_indicators_price_bands
              healthy 3 (Some Analytics.OperationalError)) as (_ & Hfault & _).
  split; [|exact (Hfault eq_refl)].
  destruct (Hserved eq_refl) as (r & E & Hsum & _).
  exists r. split; [exact E | exact Hsum].
Defined.
